(** * bitca/mcp: the MCP client and manager, embedded in Rocq

    A shallow embedding of the Go package [mcp] of gotha/bitca
    (client.go, http_client.go, config.go, tools.go) and the properties
    its specification states about it.

    Conventions of the embedding.
    - Go [string] and [[]byte] are both [string] (a sequence of 8-bit
      characters); a nil slice and an empty slice are the same list.
    - [int64] and [int] are [Z]; the one place the code does arithmetic
      on them, [atomic.AddInt64], wraps around explicitly.
    - [interface{}] values that travel as JSON are trees of type [JSON].
    - a Go function returning [(T, error)] returns [result T]; a Go
      method with a pointer receiver takes the object and returns the
      updated object next to its result.
    - objects the Manager holds by pointer live in a heap ([gmap nat]),
      so that the two maps of the Manager alias the same connection.
    - the Go standard library is not part of the repository: what the
      package calls from [encoding/json], [bytes], [net/http],
      [path/filepath] and [os] is the interface [GoLib], and every
      theorem holds for all its implementations.  The operating system
      (files, processes, the network) is the oracle [Env].  *)

From Stdlib Require Import ZArith Ascii String DecimalString Sorted Lia.
From stdpp Require Import gmap strings list fin_maps.

Local Open Scope Z_scope.
Set Warnings "-register-all".

(* ================================================================= *)
(** ** Go values *)

Abbreviation bytes := string (only parsing).

Definition newline : ascii := Ascii.ascii_of_nat 10.

(** [int64] arithmetic: the result of an operation is reduced to the
    two's-complement range [-2^63, 2^63). *)
Definition int64_min : Z := - 2 ^ 63.
Definition int64_max : Z := 2 ^ 63 - 1.
Definition wrap64 (z : Z) : Z := (z + 2 ^ 63) mod 2 ^ 64 - 2 ^ 63.

(** [atomic.AddInt64(&x, delta)]: the new value of [x], which is also
    what the call returns. *)
Definition atomic_AddInt64 (x delta : Z) : Z := wrap64 (x + delta).

(** Arguments of a formatting call ([%d], [%s], [%v]/[%w]). *)
Inductive fmtarg (E : Type) : Type :=
| ArgInt (z : Z)
| ArgStr (s : string)
| ArgErr (e : E).
Arguments ArgInt {E} z.
Arguments ArgStr {E} s.
Arguments ArgErr {E} e.

(** Go [error] values: either an error made by a library ([io.EOF], a
    [*json.SyntaxError], ...), known by its message, or the value of
    [fmt.Errorf(format, args...)]. *)
Inductive error : Type :=
| errors_New (msg : string)
| fmt_Errorf (format : string) (args : list (fmtarg error)).

Inductive result (A : Type) : Type :=
| Ok (a : A)
| Err (e : error).
Arguments Ok {A} a.
Arguments Err {A} e.

Definition io_EOF : error := errors_New "EOF".
Definition os_ErrClosed : error := errors_New "file already closed".
Definition syscall_EPIPE : error := errors_New "broken pipe".

(** [%d] of an integer. *)
Definition itoa (z : Z) : string := NilZero.string_of_int (Z.to_int z).

(** [fmt.Sprintf] for the verbs the package uses: every [%d], [%s],
    [%v] and [%w] takes the next argument, already rendered. *)
Fixpoint Sprintf (format : string) (args : list string) : string :=
  match format with
  | EmptyString => EmptyString
  | String "%" (String v rest) =>
      match args with
      | a :: args' => a +:+ Sprintf rest args'
      | [] => String "%" (String "!" (String v (Sprintf rest [])))
      end
  | String c rest => String c (Sprintf rest args)
  end.

(** [err.Error()]. *)
Fixpoint Error (e : error) : string :=
  match e with
  | errors_New msg => msg
  | fmt_Errorf format args =>
      Sprintf format
        (map (fun a => match a with
                       | ArgInt z => itoa z
                       | ArgStr s => s
                       | ArgErr e' => Error e'
                       end) args)
  end.

(** A JSON-shaped Go value ([interface{}], [map[string]interface{}]);
    [JNull] is the nil interface. *)
Inductive JSON : Type :=
| JNull
| JBool (b : bool)
| JNum (n : Z)
| JStr (s : string)
| JArr (items : list JSON)
| JObj (fields : list (string * JSON)).

(* ================================================================= *)
(** ** client.go: wire types *)

Module JSONRPCRequest.
Record t := mk {
  JSONRPC : string;
  ID : Z;
  Method : string;
  Params : JSON
}.
End JSONRPCRequest.

Module JSONRPCError.
Record t := mk {
  Code : Z;
  Message : string
}.
End JSONRPCError.

Module JSONRPCResponse.
(** [Result] is a [json.RawMessage] (nil is [None]); [Error] is a
    pointer (nil is [None]). *)
Record t := mk {
  JSONRPC : string;
  ID : Z;
  Result : option bytes;
  Error : option JSONRPCError.t
}.
End JSONRPCResponse.

Module MCPTool.
Record t := mk {
  Name : string;
  Description : string;
  InputSchema : JSON
}.
End MCPTool.

Module MCPToolsListResult.
Record t := mk { Tools : list MCPTool.t }.
End MCPToolsListResult.

Module MCPContent.
Record t := mk {
  Type_ : string;
  Text : string
}.
End MCPContent.

Module MCPToolCallResult.
Record t := mk {
  Content : list MCPContent.t;
  IsError : bool
}.
End MCPToolCallResult.

(* ================================================================= *)
(** ** config.go: configuration types *)

Module MCPServerConfig.
Record t := mk {
  Command : string;
  Args : list string;
  Env : gmap string string;
  Type_ : string;
  URL : string;
  Description : string
}.

Definition IsStdio (c : t) : bool :=
  bool_decide (Type_ c = EmptyString) || bool_decide (Type_ c = "stdio").

Definition IsSSE (c : t) : bool := bool_decide (Type_ c = "sse").

Definition IsHTTP (c : t) : bool := bool_decide (Type_ c = "http").
End MCPServerConfig.

Module MCPConfig.
(** [MCPServers] is a Go map, which may be nil ([None]). *)
Record t := mk { MCPServers : option (gmap string MCPServerConfig.t) }.
End MCPConfig.

(* ================================================================= *)
(** ** The Go standard library, as the package uses it *)

Class GoLib := {
  (** [json.Marshal] of a request. *)
  json_Marshal : JSONRPCRequest.t -> result bytes;
  (** [json.Unmarshal(data, &v)] at the four types the package decodes. *)
  json_Unmarshal_JSONRPCResponse : bytes -> result JSONRPCResponse.t;
  json_Unmarshal_MCPToolsListResult : bytes -> result MCPToolsListResult.t;
  json_Unmarshal_MCPToolCallResult : bytes -> result MCPToolCallResult.t;
  json_Unmarshal_MCPConfig : bytes -> result MCPConfig.t;
  (** [bytes.TrimSpace]. *)
  bytes_TrimSpace : bytes -> bytes;
  (** [http.NewRequest(method, url, body)]: the error, if any. *)
  http_NewRequest : string -> string -> bytes -> option error;
  (** [filepath.Join] of two elements. *)
  filepath_Join : string -> string -> string;
  (** [os.IsNotExist]. *)
  os_IsNotExist : error -> bool
}.

(** The bytes of a [json.RawMessage]; nil has none. *)
Definition RawMessage_bytes (m : option bytes) : bytes :=
  match m with Some b => b | None => EmptyString end.

(* ================================================================= *)
(** ** Pipes and processes *)

Module bufio.
(** A [bufio.Reader] over the standard output of a subprocess:
    [pending] is what the process writes from now on until it closes
    the stream; [nreads] counts the calls of [ReadBytes] so far. *)
Record Reader := mkReader {
  pending : bytes;
  nreads : nat
}.

Definition NewReader (output : bytes) : Reader := mkReader output 0.

(** The prefix of [s] up to and including the first [delim], and the
    rest; [None] when [s] holds no [delim]. *)
Fixpoint cut (delim : ascii) (s : bytes) : option (bytes * bytes) :=
  match s with
  | EmptyString => None
  | String c s' =>
      if Ascii.eqb c delim then Some (String c EmptyString, s')
      else match cut delim s' with
           | Some (l, r) => Some (String c l, r)
           | None => None
           end
  end.

(** [r.ReadBytes(delim)]: the data up to and including the
    delimiter, or the data before the end of the stream together
    with [io.EOF]. *)
Definition ReadBytes (r : Reader) (delim : ascii)
  : (bytes * option error) * Reader :=
  match cut delim (pending r) with
  | Some (line, rest) => ((line, None), mkReader rest (S (nreads r)))
  | None => ((pending r, Some io_EOF), mkReader EmptyString (S (nreads r)))
  end.
End bufio.

Module io.
(** The write end of the pipe to the standard input of a subprocess:
    [accepts n] tells whether the write number [n] (from 0) goes
    through; [written] is what went through. *)
Record WriteCloser := mkWriteCloser {
  written : list bytes;
  accepts : nat -> bool;
  closed : bool
}.

Definition Write (w : WriteCloser) (data : bytes)
  : option error * WriteCloser :=
  if closed w then (Some os_ErrClosed, w)
  else if accepts w (length (written w))
       then (None, mkWriteCloser (written w ++ [data]) (accepts w) false)
       else (Some syscall_EPIPE, w).

Definition Close (w : WriteCloser) : WriteCloser :=
  mkWriteCloser (written w) (accepts w) true.
End io.

Module exec.
(** A started [exec.Cmd]. *)
Record Cmd := mkCmd { running : bool }.

(** [cmd.Process.Kill()] then [cmd.Wait()]. *)
Definition KillWait (c : Cmd) : Cmd := mkCmd false.

(** What a started subprocess does: what it writes to its standard
    output, and which writes to its standard input go through. *)
Record Process := mkProcess {
  output : bytes;
  reads_stdin : nat -> bool
}.

(** [cmd.StdinPipe()], [cmd.StdoutPipe()], [cmd.Start()] on the
    command of a configuration: the first of them that fails, or the
    started process. *)
Inductive Spawn :=
| StdinPipeFails (e : error)
| StdoutPipeFails (e : error)
| StartFails (e : error)
| Started (p : Process).
End exec.

Module http.
(** What [httpClient.Do] and the reading of the body give: a
    transport error, or a status code with the body and the error of
    [io.ReadAll] on it, if any. *)
Inductive Outcome :=
| DoFails (e : error)
| Response (StatusCode : Z) (body : bytes) (readErr : option error).

Definition StatusOK : Z := 200.

(** The network seen through one [http.Client]: the outcome of its
    POST number [n] (from 0) to [url] with [body]. *)
Definition Client := nat -> string -> bytes -> Outcome.
End http.

(** The operating system. *)
Record Env := mkEnv {
  (** [os.ReadFile]. *)
  os_ReadFile : string -> result bytes;
  (** [os.UserHomeDir]. *)
  os_UserHomeDir : result string;
  (** starting the command of a server configuration. *)
  exec_Command : MCPServerConfig.t -> exec.Spawn;
  (** the network behind a base URL. *)
  http_Client : string -> http.Client;
  (** the order in which a [range] over the server map visits it. *)
  range_MCPServers :
    gmap string MCPServerConfig.t -> list (string * MCPServerConfig.t)
}.

(* ================================================================= *)
(** ** client.go: the process connection *)

Module Client.
Record t := mk {
  name : string;
  cmd : exec.Cmd;
  stdin : io.WriteCloser;
  stdout : bufio.Reader;
  requestID : Z;
  tools : list MCPTool.t
}.

Definition set_stdin (c : t) (w : io.WriteCloser) : t :=
  mk (name c) (cmd c) w (stdout c) (requestID c) (tools c).
Definition set_stdout (c : t) (r : bufio.Reader) : t :=
  mk (name c) (cmd c) (stdin c) r (requestID c) (tools c).
Definition set_requestID (c : t) (id : Z) : t :=
  mk (name c) (cmd c) (stdin c) (stdout c) id (tools c).
Definition set_tools (c : t) (ts : list MCPTool.t) : t :=
  mk (name c) (cmd c) (stdin c) (stdout c) (requestID c) ts.
Definition set_cmd (c : t) (p : exec.Cmd) : t :=
  mk (name c) p (stdin c) (stdout c) (requestID c) (tools c).

(** [NewClient(name, config)].  The command line and the environment
    of the subprocess (the inherited one with [config.Env] laid over
    it) are functions of [config]; what the operating system makes of
    them is [exec_Command env config]. *)
Definition NewClient (env : Env) (name : string)
    (config : MCPServerConfig.t) : result t :=
  match exec_Command env config with
  | exec.StdinPipeFails err =>
      Err (fmt_Errorf "failed to get stdin pipe: %w" [ArgErr err])
  | exec.StdoutPipeFails err =>
      Err (fmt_Errorf "failed to get stdout pipe: %w" [ArgErr err])
  | exec.StartFails err =>
      Err (fmt_Errorf "failed to start MCP server: %w" [ArgErr err])
  | exec.Started p =>
      Ok (mk name (exec.mkCmd true)
             (io.mkWriteCloser [] (exec.reads_stdin p) false)
             (bufio.NewReader (exec.output p)) 0 [])
  end.

Definition Name (c : t) : string := name c.

Definition Tools (c : t) : list MCPTool.t := tools c.

Definition maxAttempts : Z := 50.

(** [resp.ID == 0 && resp.Result == nil && resp.Error == nil] *)
Definition isNotification (resp : JSONRPCResponse.t) : bool :=
  (JSONRPCResponse.ID resp =? 0)
  && bool_decide (JSONRPCResponse.Result resp = None)
  && match JSONRPCResponse.Error resp with None => true | Some _ => false end.

(** [line[0] != '{'] on a line that is not empty. *)
Definition startsWithBrace (line : bytes) : bool :=
  match line with
  | String c _ => Ascii.eqb c "{"
  | EmptyString => false
  end.

Section WithLib.
Context `{GoLib}.

(** The read loop of [sendRequest],
    [for attempt := 0; attempt < maxAttempts; attempt++], with
    [remaining = maxAttempts - attempt]. *)
Fixpoint scan (remaining : nat) (id : Z) (r : bufio.Reader)
  : result JSONRPCResponse.t * bufio.Reader :=
  match remaining with
  | O =>
      (Err (fmt_Errorf "no response received after %d attempts"
              [ArgInt maxAttempts]), r)
  | S remaining' =>
      let '((line, err), r) := bufio.ReadBytes r newline in
      match err with
      | Some err =>
          (Err (fmt_Errorf "failed to read response: %w" [ArgErr err]), r)
      | None =>
          let line := bytes_TrimSpace line in
          if (String.length line =? 0)%nat then scan remaining' id r
          else if negb (startsWithBrace line) then scan remaining' id r
          else
            match json_Unmarshal_JSONRPCResponse line with
            | Err _ => scan remaining' id r
            | Ok resp =>
                if isNotification resp then scan remaining' id r
                else if JSONRPCResponse.ID resp =? id then
                  match JSONRPCResponse.Error resp with
                  | Some e =>
                      (Err (fmt_Errorf "RPC error %d: %s"
                              [ArgInt (JSONRPCError.Code e);
                               ArgStr (JSONRPCError.Message e)]), r)
                  | None => (Ok resp, r)
                  end
                else scan remaining' id r
            end
      end
  end.

(** [(c *Client) sendRequest(method, params)] *)
Definition sendRequest (c : t) (method : string) (params : JSON)
  : result JSONRPCResponse.t * t :=
  let id := atomic_AddInt64 (requestID c) 1 in
  let c := set_requestID c id in
  let req := JSONRPCRequest.mk "2.0" id method params in
  match json_Marshal req with
  | Err err =>
      (Err (fmt_Errorf "failed to marshal request: %w" [ArgErr err]), c)
  | Ok data =>
      match io.Write (stdin c) (data +:+ String newline EmptyString) with
      | (Some err, w) =>
          (Err (fmt_Errorf "failed to write request: %w" [ArgErr err]),
           set_stdin c w)
      | (None, w) =>
          let c := set_stdin c w in
          let '(res, r) := scan (Z.to_nat maxAttempts) id (stdout c) in
          (res, set_stdout c r)
      end
  end.

Definition initializeParams : JSON :=
  JObj [("protocolVersion", JStr "2024-11-05");
        ("capabilities", JObj []);
        ("clientInfo", JObj [("name", JStr "bitca");
                             ("version", JStr "1.0.0")])].

(** [(c *Client) Initialize()] *)
Definition Initialize (c : t) : option error * t :=
  match sendRequest c "initialize" initializeParams with
  | (Err err, c) =>
      (Some (fmt_Errorf "initialize failed: %w" [ArgErr err]), c)
  | (Ok _, c) => (None, c)
  end.

(** [(c *Client) ListTools()] *)
Definition ListTools (c : t) : result (list MCPTool.t) * t :=
  match sendRequest c "tools/list" JNull with
  | (Err err, c) =>
      (Err (fmt_Errorf "tools/list failed: %w" [ArgErr err]), c)
  | (Ok resp, c) =>
      match json_Unmarshal_MCPToolsListResult
              (RawMessage_bytes (JSONRPCResponse.Result resp)) with
      | Err err =>
          (Err (fmt_Errorf "failed to parse tools list: %w" [ArgErr err]),
           c)
      | Ok result =>
          (Ok (MCPToolsListResult.Tools result),
           set_tools c (MCPToolsListResult.Tools result))
      end
  end.

(** The loop [for _, content := range result.Content] that
    concatenates the text blocks. *)
Fixpoint concatText (content : list MCPContent.t) (acc : string)
  : string :=
  match content with
  | [] => acc
  | x :: rest =>
      if bool_decide (MCPContent.Type_ x = "text")
      then concatText rest (acc +:+ MCPContent.Text x)
      else concatText rest acc
  end.

(** The part of [CallTool] after the response has arrived; the two
    connection kinds have the same code for it. *)
Definition decodeToolResult (resp : JSONRPCResponse.t) : result string :=
  match json_Unmarshal_MCPToolCallResult
          (RawMessage_bytes (JSONRPCResponse.Result resp)) with
  | Err err =>
      Err (fmt_Errorf "failed to parse tool result: %w" [ArgErr err])
  | Ok result =>
      if MCPToolCallResult.IsError result then
        Err (fmt_Errorf "tool error: %s"
               [ArgStr (concatText (MCPToolCallResult.Content result) EmptyString)])
      else Ok (concatText (MCPToolCallResult.Content result) EmptyString)
  end.

(** [(c *Client) CallTool(name, arguments)] *)
Definition CallTool (c : t) (name : string) (arguments : JSON)
  : result string * t :=
  let params := JObj [("name", JStr name); ("arguments", arguments)] in
  match sendRequest c "tools/call" params with
  | (Err err, c) =>
      (Err (fmt_Errorf "tools/call failed: %w" [ArgErr err]), c)
  | (Ok resp, c) => (decodeToolResult resp, c)
  end.
End WithLib.

(** [(c *Client) Close()]; the pipe and the process are never nil in
    a client that [NewClient] returned. *)
Definition Close (c : t) : option error * t :=
  (None, set_cmd (set_stdin c (io.Close (stdin c))) (exec.KillWait (cmd c))).
End Client.

(* ================================================================= *)
(** ** http_client.go: the HTTP/SSE connection *)

Module HTTPClient.
(** [httpClient] is the network seen through the [http.Client] of the
    connection; [posted] is what the connection has sent so far. *)
Record t := mk {
  name : string;
  baseURL : string;
  httpClient : http.Client;
  posted : list (string * bytes);
  requestID : Z;
  tools : list MCPTool.t;
  isSSE : bool
}.

Definition set_requestID (c : t) (id : Z) : t :=
  mk (name c) (baseURL c) (httpClient c) (posted c) id (tools c) (isSSE c).
Definition set_tools (c : t) (ts : list MCPTool.t) : t :=
  mk (name c) (baseURL c) (httpClient c) (posted c) (requestID c) ts (isSSE c).

(** [c.httpClient.Do(httpReq)] and the reading of the body. *)
Definition Do (c : t) (url : string) (body : bytes) : http.Outcome * t :=
  (httpClient c (length (posted c)) url body,
   mk (name c) (baseURL c) (httpClient c) (posted c ++ [(url, body)])
      (requestID c) (tools c) (isSSE c)).

(** [NewHTTPClient(name, config)] *)
Definition NewHTTPClient (env : Env) (name : string)
    (config : MCPServerConfig.t) : result t :=
  if bool_decide (MCPServerConfig.URL config = EmptyString) then
    Err (fmt_Errorf "URL is required for HTTP/SSE transport" [])
  else
    Ok (mk name (MCPServerConfig.URL config)
           (http_Client env (MCPServerConfig.URL config)) [] 0 []
           (MCPServerConfig.IsSSE config)).

Definition Name (c : t) : string := name c.

Definition Tools (c : t) : list MCPTool.t := tools c.

Section WithLib.
Context `{GoLib}.

(** [(c *HTTPClient) sendRequest(method, params)] *)
Definition sendRequest (c : t) (method : string) (params : JSON)
  : result JSONRPCResponse.t * t :=
  let id := atomic_AddInt64 (requestID c) 1 in
  let c := set_requestID c id in
  let req := JSONRPCRequest.mk "2.0" id method params in
  match json_Marshal req with
  | Err err =>
      (Err (fmt_Errorf "failed to marshal request: %w" [ArgErr err]), c)
  | Ok data =>
      let url := if isSSE c then baseURL c +:+ "/message" else baseURL c in
      match http_NewRequest "POST" url data with
      | Some err =>
          (Err (fmt_Errorf "failed to create HTTP request: %w" [ArgErr err]), c)
      | None =>
          let '(httpResp, c) := Do c url data in
          match httpResp with
          | http.DoFails err =>
              (Err (fmt_Errorf "HTTP request failed: %w" [ArgErr err]), c)
          | http.Response StatusCode body readErr =>
              if negb (StatusCode =? http.StatusOK) then
                (Err (fmt_Errorf "HTTP error %d: %s"
                        [ArgInt StatusCode; ArgStr body]), c)
              else
                match readErr with
                | Some err =>
                    (Err (fmt_Errorf "failed to read response: %w"
                            [ArgErr err]), c)
                | None =>
                    match json_Unmarshal_JSONRPCResponse body with
                    | Err err =>
                        (Err (fmt_Errorf "failed to unmarshal response: %w"
                                [ArgErr err]), c)
                    | Ok resp =>
                        match JSONRPCResponse.Error resp with
                        | Some e =>
                            (Err (fmt_Errorf "RPC error %d: %s"
                                    [ArgInt (JSONRPCError.Code e);
                                     ArgStr (JSONRPCError.Message e)]), c)
                        | None => (Ok resp, c)
                        end
                    end
                end
          end
      end
  end.

(** [(c *HTTPClient) Initialize()] *)
Definition Initialize (c : t) : option error * t :=
  match sendRequest c "initialize" Client.initializeParams with
  | (Err err, c) =>
      (Some (fmt_Errorf "initialize failed: %w" [ArgErr err]), c)
  | (Ok _, c) => (None, c)
  end.

(** [(c *HTTPClient) ListTools()] *)
Definition ListTools (c : t) : result (list MCPTool.t) * t :=
  match sendRequest c "tools/list" JNull with
  | (Err err, c) =>
      (Err (fmt_Errorf "tools/list failed: %w" [ArgErr err]), c)
  | (Ok resp, c) =>
      match json_Unmarshal_MCPToolsListResult
              (RawMessage_bytes (JSONRPCResponse.Result resp)) with
      | Err err =>
          (Err (fmt_Errorf "failed to parse tools list: %w" [ArgErr err]), c)
      | Ok result =>
          (Ok (MCPToolsListResult.Tools result),
           set_tools c (MCPToolsListResult.Tools result))
      end
  end.

(** [(c *HTTPClient) CallTool(name, arguments)] *)
Definition CallTool (c : t) (name : string) (arguments : JSON)
  : result string * t :=
  let params := JObj [("name", JStr name); ("arguments", arguments)] in
  match sendRequest c "tools/call" params with
  | (Err err, c) =>
      (Err (fmt_Errorf "tools/call failed: %w" [ArgErr err]), c)
  | (Ok resp, c) => (Client.decodeToolResult resp, c)
  end.
End WithLib.

(** [(c *HTTPClient) Close()] *)
Definition Close (c : t) : option error * t := (None, c).
End HTTPClient.

(* ================================================================= *)
(** ** config.go: loading the configuration *)

Section Config.
Context `{GoLib}.

Definition emptyConfig : MCPConfig.t := MCPConfig.mk (Some ∅).

(** The path [LoadMCPConfig] reads: [path] itself, or, when it starts
    with [~], the rest of it joined to the home directory; [None] when
    the home directory cannot be found. *)
Definition expandHome (env : Env) (path : string) : option string :=
  match path with
  | String "~" rest =>
      match os_UserHomeDir env with
      | Err _ => None
      | Ok home => Some (filepath_Join home rest)
      end
  | _ => Some path
  end.

(** [LoadMCPConfig(path)] *)
Definition LoadMCPConfig (env : Env) (path : string) : result MCPConfig.t :=
  match expandHome env path with
  | None => Ok emptyConfig
  | Some path =>
      match os_ReadFile env path with
      | Err err =>
          if os_IsNotExist err then Ok emptyConfig else Err err
      | Ok data =>
          match json_Unmarshal_MCPConfig data with
          | Err err => Err err
          | Ok config =>
              match MCPConfig.MCPServers config with
              | None => Ok emptyConfig
              | Some _ => Ok config
              end
          end
      end
  end.
End Config.

(* ================================================================= *)
(** ** tools.go: the manager *)

(** [type MCPClient interface] *)
Class MCPClient (T : Type) := {
  Name : T -> string;
  Tools : T -> list MCPTool.t;
  Initialize : T -> option error * T;
  ListTools : T -> result (list MCPTool.t) * T;
  CallTool : T -> string -> JSON -> result string * T;
  Close : T -> option error * T
}.

#[export] Instance Client_MCPClient `{GoLib} : MCPClient Client.t := {
  Name := Client.Name;
  Tools := Client.Tools;
  Initialize := Client.Initialize;
  ListTools := Client.ListTools;
  CallTool := Client.CallTool;
  Close := Client.Close
}.

#[export] Instance HTTPClient_MCPClient `{GoLib} : MCPClient HTTPClient.t := {
  Name := HTTPClient.Name;
  Tools := HTTPClient.Tools;
  Initialize := HTTPClient.Initialize;
  ListTools := HTTPClient.ListTools;
  CallTool := HTTPClient.CallTool;
  Close := HTTPClient.Close
}.

(** A value of the interface type: one of its two implementations. *)
Inductive Conn :=
| ProcessConn (c : Client.t)
| HTTPConn (c : HTTPClient.t).

Definition liftConn {R} (f : Client.t -> R * Client.t)
    (g : HTTPClient.t -> R * HTTPClient.t) (c : Conn) : R * Conn :=
  match c with
  | ProcessConn c => let '(r, c) := f c in (r, ProcessConn c)
  | HTTPConn c => let '(r, c) := g c in (r, HTTPConn c)
  end.

#[export] Instance Conn_MCPClient `{GoLib} : MCPClient Conn := {
  Name c := match c with ProcessConn c => Name c | HTTPConn c => Name c end;
  Tools c := match c with ProcessConn c => Tools c | HTTPConn c => Tools c end;
  Initialize := liftConn Initialize Initialize;
  ListTools := liftConn ListTools ListTools;
  CallTool c name arguments :=
    liftConn (fun c => CallTool c name arguments)
             (fun c => CallTool c name arguments) c;
  Close := liftConn Close Close
}.

(** Calls of the interface methods and lines of the log, in the order
    the manager makes them. *)
Inductive Method :=
| MInitialize
| MListTools
| MCallTool (name : string) (arguments : JSON)
| MClose.

Inductive Event :=
| Log (format : string) (args : list (fmtarg error))
| Call (client : nat) (method : Method).

(** The store of connection objects, by address, and the trace. *)
Record World := mkWorld {
  heap : gmap nat Conn;
  trace : list Event
}.

Definition emit (w : World) (evs : list Event) : World :=
  mkWorld (heap w) (trace w ++ evs).

Definition store (w : World) (r : nat) (c : Conn) : World :=
  mkWorld (<[r := c]> (heap w)) (trace w).

Definition log_Printf (w : World) (format : string)
    (args : list (fmtarg error)) : World :=
  emit w [Log format args].

Definition runtime_nilDereference : error :=
  errors_New "runtime error: invalid memory address or nil pointer dereference".

(** [client.Close()] on a value of the interface type. *)
Definition closeConn `{GoLib} (client : Conn) : option error * Conn :=
  Close client.

(** [backend.Tool] (backend/backend.go) *)
Module backend_Tool.
Record t := mk {
  Name : string;
  Description : string;
  Parameters : JSON
}.
End backend_Tool.

(** [type ServerInfo struct] *)
Module ServerInfo.
Record t := mk {
  Name : string;
  Transport : string;
  ToolCount : Z;
  ToolNames : list string
}.
End ServerInfo.

Module Manager.
(** The two maps hold pointers: addresses in the heap of the world. *)
Record t := mk {
  clients : gmap string nat;
  toolToClient : gmap string nat
}.

(** [NewManager()] *)
Definition NewManager : t := mk ∅ ∅.

(** [for _, tool := range tools { m.toolToClient[tool.Name] = client }] *)
Definition mapTools (m : t) (client : nat) (tools : list MCPTool.t) : t :=
  fold_left
    (fun m tool =>
       mk (clients m) (<[MCPTool.Name tool := client]> (toolToClient m)))
    tools m.

Section WithLib.
Context `{GoLib}.

(** The choice of the connection kind at the head of the loop body:
    [None] for an unsupported transport type. *)
Definition newClient (env : Env) (name : string)
    (serverConfig : MCPServerConfig.t) : option (result Conn) :=
  if MCPServerConfig.IsStdio serverConfig then
    Some match Client.NewClient env name serverConfig with
         | Ok c => Ok (ProcessConn c)
         | Err err => Err err
         end
  else if MCPServerConfig.IsSSE serverConfig
          || MCPServerConfig.IsHTTP serverConfig then
    Some match HTTPClient.NewHTTPClient env name serverConfig with
         | Ok c => Ok (HTTPConn c)
         | Err err => Err err
         end
  else None.

(** The body of the loop of [LoadFromConfig] for one entry of the
    server map.  The new connection gets a fresh address; until it is
    registered only the loop body refers to it, so its state is written
    to the heap when the body is done with it. *)
Definition loadServer (env : Env) (s : t * World)
    (entry : string * MCPServerConfig.t) : t * World :=
  let '(m, w) := s in
  let '(name, serverConfig) := entry in
  match newClient env name serverConfig with
  | None =>
      (m, log_Printf w
            "Warning: unsupported transport type %s for MCP server %s"
            [ArgStr (MCPServerConfig.Type_ serverConfig); ArgStr name])
  | Some (Err err) =>
      (m, log_Printf w "Warning: failed to start MCP server %s: %v"
            [ArgStr name; ArgErr err])
  | Some (Ok client) =>
      let r := fresh (dom (heap w)) in
      match Initialize client with
      | (Some err, client) =>
          let w := emit w
            [Call r MInitialize;
             Log "Warning: failed to initialize MCP server %s: %v"
                 [ArgStr name; ArgErr err];
             Call r MClose] in
          (m, store w r (snd (Close client)))
      | (None, client) =>
          match ListTools client with
          | (Err err, client) =>
              let w := emit w
                [Call r MInitialize; Call r MListTools;
                 Log "Warning: failed to list tools from MCP server %s: %v"
                     [ArgStr name; ArgErr err];
                 Call r MClose] in
              (m, store w r (snd (Close client)))
          | (Ok tools, client) =>
              let m := mk (<[name := r]> (clients m)) (toolToClient m) in
              let m := mapTools m r tools in
              let w := emit w
                [Call r MInitialize; Call r MListTools;
                 Log "Loaded %d tools from MCP server %s"
                     [ArgInt (Z.of_nat (length tools)); ArgStr name]] in
              (m, store w r client)
          end
      end
  end.

(** [(m *Manager) LoadFromConfig(configPath)] *)
Definition LoadFromConfig (env : Env) (m : t) (w : World)
    (configPath : string) : option error * (t * World) :=
  match LoadMCPConfig env configPath with
  | Err err =>
      (Some (fmt_Errorf "failed to load MCP config: %w" [ArgErr err]), (m, w))
  | Ok config =>
      let servers :=
        match MCPConfig.MCPServers config with
        | Some servers => range_MCPServers env servers
        | None => []
        end in
      (None, fold_left (loadServer env) servers (m, w))
  end.

(** [(m *Manager) ExecuteTool(name, args)].  A pointer in the routing
    table always points into the heap; were it not so, the Go runtime
    would panic, which the model gives as an error. *)
Definition ExecuteTool (m : t) (w : World) (name : string) (args : JSON)
  : result string * World :=
  match toolToClient m !! name with
  | None => (Err (fmt_Errorf "unknown MCP tool: %s" [ArgStr name]), w)
  | Some r =>
      match heap w !! r with
      | None => (Err runtime_nilDereference, w)
      | Some client =>
          let '(res, client) := CallTool client name args in
          (res, store (emit w [Call r (MCallTool name args)]) r client)
      end
  end.

(** [(m *Manager) HasTool(name)] *)
Definition HasTool (m : t) (name : string) : bool :=
  match toolToClient m !! name with Some _ => true | None => false end.

(** [(m *Manager) GetToolServer(toolName)] *)
Definition GetToolServer (m : t) (w : World) (toolName : string) : string :=
  match toolToClient m !! toolName with
  | None => EmptyString
  | Some r =>
      match heap w !! r with
      | Some client => Name client
      | None => EmptyString
      end
  end.
(** The loop [for i, tool := range tools { toolNames[i] = tool.Name }]
    of [GetServers], from index [i] on. *)
Fixpoint fillToolNames (i : nat) (tools : list MCPTool.t)
    (toolNames : list string) : list string :=
  match tools with
  | [] => toolNames
  | tool :: tools' =>
      fillToolNames (S i) tools' (<[i := MCPTool.Name tool]> toolNames)
  end.

(** [(m *Manager) GetServers()].  [visit] is the order in which the
    [range] over the client set visits it.  As in [ExecuteTool], a
    pointer of the client set always points into the heap; the model
    passes over one that does not. *)
Definition GetServers (visit : gmap string nat -> list (string * nat))
    (m : t) (w : World) : list ServerInfo.t :=
  fold_left
    (fun servers entry =>
       match heap w !! entry.2 with
       | None => servers
       | Some client =>
           let tools := Tools client in
           let toolNames :=
             fillToolNames 0 tools (replicate (length tools) EmptyString) in
           let transport :=
             match client with
             | HTTPConn _ => "http"
             | ProcessConn _ => "stdio"
             end in
           servers ++ [ServerInfo.mk entry.1 transport
                         (Z.of_nat (length tools)) toolNames]
       end)
    (visit (clients m)) [].

(** [(m *Manager) GetBackendTools()] *)
Definition GetBackendTools (visit : gmap string nat -> list (string * nat))
    (m : t) (w : World) : list backend_Tool.t :=
  fold_left
    (fun tools entry =>
       match heap w !! entry.2 with
       | None => tools
       | Some client =>
           fold_left
             (fun tools mcpTool =>
                tools ++ [backend_Tool.mk (MCPTool.Name mcpTool)
                            (MCPTool.Description mcpTool)
                            (MCPTool.InputSchema mcpTool)])
             (Tools client) tools
       end)
    (visit (clients m)) [].

(** [(m *Manager) Close()] *)
Definition Close (visit : gmap string nat -> list (string * nat))
    (m : t) (w : World) : World :=
  fold_left
    (fun w entry =>
       match heap w !! entry.2 with
       | None => w
       | Some client =>
           store (emit w [Call entry.2 MClose]) entry.2
             (snd (closeConn client))
       end)
    (visit (clients m)) w.
End WithLib.
End Manager.

(* ================================================================= *)
(** ** The callers in package [main]: running the tool calls of the model *)

(** [api.ToolCall], as [executeTools] reads it: [toolCall.ID],
    [toolCall.Function.Name], [toolCall.Function.Arguments.ToMap()]. *)
Module api_ToolCall.
Record t := mk {
  ID : string;
  Name : string;
  Arguments : JSON
}.
End api_ToolCall.

(** [api.Message], as [executeTools] builds it. *)
Module api_Message.
Record t := mk {
  Role : string;
  Content : string;
  ToolCallID : string
}.
End api_Message.

Section BuiltinTools.
(** The built-in tools act on the files and processes of the machine,
    a state of type [FS]; [fmt_v] is [%v] of an argument map. *)
Context `{GoLib} {FS : Type}.
Variables toolRead toolWrite toolEdit toolGlob toolGrep toolBash :
  JSON -> FS -> result string * FS.
Variable fmt_v : JSON -> string.

(** [executeTool(name, args)] *)
Definition executeTool (name : string) (args : JSON) (fs : FS)
  : result string * FS :=
  if String.eqb name "read" then toolRead args fs
  else if String.eqb name "write" then toolWrite args fs
  else if String.eqb name "edit" then toolEdit args fs
  else if String.eqb name "glob" then toolGlob args fs
  else if String.eqb name "grep" then toolGrep args fs
  else if String.eqb name "bash" then toolBash args fs
  else (Err (fmt_Errorf "unknown tool: %s" [ArgStr name]), fs).

(** The body of the loop of [executeTools] for one tool call. *)
Definition executeToolCall (mcpManager : option Manager.t)
    (s : list api_Message.t * World * FS) (toolCall : api_ToolCall.t)
  : list api_Message.t * World * FS :=
  let '(results, w, fs) := s in
  let args := api_ToolCall.Arguments toolCall in
  let toolName := api_ToolCall.Name toolCall in
  let toolInfo :=
    Sprintf "Executing tool: %s with args: %v" [toolName; fmt_v args] in
  let '(res, w, fs) :=
    match mcpManager with
    | Some m =>
        if Manager.HasTool m toolName then
          let '(res, w) := Manager.ExecuteTool m w toolName args in
          (res, w, fs)
        else
          let '(res, fs) := executeTool toolName args fs in (res, w, fs)
    | None =>
        let '(res, fs) := executeTool toolName args fs in (res, w, fs)
    end in
  match res with
  | Err err =>
      (results
       ++ [api_Message.mk "tool"
             (Sprintf ("Error executing %s: %v" +:+ String newline "Debug: %s")
                [toolName; Error err; toolInfo])
             (api_ToolCall.ID toolCall)], w, fs)
  | Ok result =>
      (results ++ [api_Message.mk "tool" result (api_ToolCall.ID toolCall)],
       w, fs)
  end.

(** [(m model) executeTools(toolCalls)]: the function it returns, run. *)
Definition executeTools (mcpManager : option Manager.t)
    (toolCalls : list api_ToolCall.t) (w : World) (fs : FS)
  : list api_Message.t * World * FS :=
  fold_left (executeToolCall mcpManager) toolCalls ([], w, fs).
End BuiltinTools.

(* ================================================================= *)
(** ** A reference implementation of the library interface

    Used to run the package on concrete wire text: a JSON reader and
    writer for the fragment the protocol needs (objects, arrays,
    strings with the simple escapes, integers, [true], [false],
    [null]; member names are matched exactly and the last duplicate
    wins), and [bytes.TrimSpace] on ASCII white space.  A
    [json.RawMessage] holds its value in compact form. *)

Module RefLib.
Definition dquote : ascii := Ascii.ascii_of_nat 34.
Definition backslash : ascii := Ascii.ascii_of_nat 92.

(** JSON white space. *)
Definition isJSONSpace (c : ascii) : bool :=
  Ascii.eqb c " " || Ascii.eqb c (Ascii.ascii_of_nat 9)
  || Ascii.eqb c newline || Ascii.eqb c (Ascii.ascii_of_nat 13).

(** The white space of [bytes.TrimSpace] below 0x80. *)
Definition isASCIISpace (c : ascii) : bool :=
  isJSONSpace c || Ascii.eqb c (Ascii.ascii_of_nat 11)
  || Ascii.eqb c (Ascii.ascii_of_nat 12).

Fixpoint skipws (s : string) : string :=
  match s with
  | String c r => if isJSONSpace c then skipws r else s
  | EmptyString => s
  end.

Fixpoint trimRight (s : string) : string :=
  match s with
  | EmptyString => EmptyString
  | String c r =>
      match trimRight r with
      | EmptyString => if isASCIISpace c then EmptyString
                       else String c EmptyString
      | r' => String c r'
      end
  end.

Fixpoint trimLeft (s : string) : string :=
  match s with
  | String c r => if isASCIISpace c then trimLeft r else s
  | EmptyString => s
  end.

Definition TrimSpace (s : bytes) : bytes := trimRight (trimLeft s).

Definition digit (c : ascii) : option Z :=
  let n := Z.of_nat (Ascii.nat_of_ascii c) in
  if (48 <=? n) && (n <=? 57) then Some (n - 48) else None.

Fixpoint parseDigits (s : string) (acc : Z) : Z * string :=
  match s with
  | String c r =>
      match digit c with
      | Some d => parseDigits r (10 * acc + d)
      | None => (acc, s)
      end
  | EmptyString => (acc, s)
  end.

Definition parseNumber (s : string) : option (Z * string) :=
  match s with
  | String c r =>
      if Ascii.eqb c "-" then
        match r with
        | String c' r' =>
            match digit c' with
            | Some d => let '(n, rest) := parseDigits r' d in Some (- n, rest)
            | None => None
            end
        | EmptyString => None
        end
      else
        match digit c with
        | Some d => Some (parseDigits r d)
        | None => None
        end
  | EmptyString => None
  end.

Definition unescape (c : ascii) : option ascii :=
  if Ascii.eqb c dquote then Some dquote
  else if Ascii.eqb c backslash then Some backslash
  else if Ascii.eqb c "/" then Some "/"%char
  else if Ascii.eqb c "n" then Some newline
  else if Ascii.eqb c "t" then Some (Ascii.ascii_of_nat 9)
  else if Ascii.eqb c "r" then Some (Ascii.ascii_of_nat 13)
  else None.

(** The characters of a string literal after its opening quote. *)
Fixpoint parseString (s : string) : option (string * string) :=
  match s with
  | EmptyString => None
  | String c r =>
      if Ascii.eqb c dquote then Some (EmptyString, r)
      else if Ascii.eqb c backslash then
        match r with
        | String e r' =>
            match unescape e, parseString r' with
            | Some e', Some (t, rest) => Some (String e' t, rest)
            | _, _ => None
            end
        | EmptyString => None
        end
      else
        match parseString r with
        | Some (t, rest) => Some (String c t, rest)
        | None => None
        end
  end.

Definition stripPrefix (p s : string) : option string :=
  if String.prefix p s
  then Some (String.substring (String.length p)
               (String.length s - String.length p) s)
  else None.

Fixpoint parseValue (fuel : nat) (s : string) {struct fuel}
  : option (JSON * string) :=
  match fuel with
  | O => None
  | S fuel' =>
      match skipws s with
      | EmptyString => None
      | String c r as s' =>
          if Ascii.eqb c "{" then
            match skipws r with
            | String "}" r' => Some (JObj [], r')
            | _ =>
                match parseFields fuel' r with
                | Some (fs, rest) => Some (JObj fs, rest)
                | None => None
                end
            end
          else if Ascii.eqb c "[" then
            match skipws r with
            | String "]" r' => Some (JArr [], r')
            | _ =>
                match parseItems fuel' r with
                | Some (vs, rest) => Some (JArr vs, rest)
                | None => None
                end
            end
          else if Ascii.eqb c dquote then
            match parseString r with
            | Some (t, rest) => Some (JStr t, rest)
            | None => None
            end
          else
            match stripPrefix "null" s', stripPrefix "true" s',
                  stripPrefix "false" s' with
            | Some rest, _, _ => Some (JNull, rest)
            | _, Some rest, _ => Some (JBool true, rest)
            | _, _, Some rest => Some (JBool false, rest)
            | _, _, _ =>
                match parseNumber s' with
                | Some (n, rest) => Some (JNum n, rest)
                | None => None
                end
            end
      end
  end
with parseItems (fuel : nat) (s : string) {struct fuel}
  : option (list JSON * string) :=
  match fuel with
  | O => None
  | S fuel' =>
      match parseValue fuel' s with
      | Some (v, r) =>
          match skipws r with
          | String "," r' =>
              match parseItems fuel' r' with
              | Some (vs, rest) => Some (v :: vs, rest)
              | None => None
              end
          | String "]" r' => Some ([v], r')
          | _ => None
          end
      | None => None
      end
  end
with parseFields (fuel : nat) (s : string) {struct fuel}
  : option (list (string * JSON) * string) :=
  match fuel with
  | O => None
  | S fuel' =>
      match skipws s with
      | String c r =>
          if Ascii.eqb c dquote then
            match parseString r with
            | Some (k, r1) =>
                match skipws r1 with
                | String ":" r2 =>
                    match parseValue fuel' r2 with
                    | Some (v, r3) =>
                        match skipws r3 with
                        | String "," r4 =>
                            match parseFields fuel' r4 with
                            | Some (fs, rest) => Some ((k, v) :: fs, rest)
                            | None => None
                            end
                        | String "}" r4 => Some ([(k, v)], r4)
                        | _ => None
                        end
                    | None => None
                    end
                | _ => None
                end
            | None => None
            end
          else None
      | EmptyString => None
      end
  end.

Definition syntaxError : error := errors_New "json: syntax error".
Definition typeError : error :=
  errors_New "json: cannot unmarshal value into Go value".

(** A whole document: one value, then white space only. *)
Definition parse (data : bytes) : result JSON :=
  match parseValue (2 * String.length data + 2) data with
  | Some (v, rest) =>
      match skipws rest with
      | EmptyString => Ok v
      | _ => Err syntaxError
      end
  | None => Err syntaxError
  end.

Fixpoint escape (s : string) : string :=
  match s with
  | EmptyString => EmptyString
  | String c r =>
      if Ascii.eqb c dquote || Ascii.eqb c backslash
      then String backslash (String c (escape r))
      else String c (escape r)
  end.

Definition quote (s : string) : string :=
  String dquote (escape s +:+ String dquote EmptyString).

Fixpoint join (sep : string) (l : list string) : string :=
  match l with
  | [] => EmptyString
  | [x] => x
  | x :: rest => x +:+ sep +:+ join sep rest
  end.

Fixpoint render (v : JSON) : string :=
  match v with
  | JNull => "null"
  | JBool true => "true"
  | JBool false => "false"
  | JNum n => itoa n
  | JStr s => quote s
  | JArr items => "[" +:+ join "," (map render items) +:+ "]"
  | JObj fields =>
      "{" +:+ join ","
                (map (fun kv => match kv with
                                | (k, v') => quote k +:+ ":" +:+ render v'
                                end) fields) +:+ "}"
  end.

(** The member of an object with the given name, the last one if the
    name is repeated. *)
Definition field (k : string) (fs : list (string * JSON)) : option JSON :=
  fold_left (fun acc kv => if String.eqb k (fst kv) then Some (snd kv) else acc)
            fs None.

Definition bind {A B} (r : result A) (f : A -> result B) : result B :=
  match r with Ok a => f a | Err e => Err e end.

Notation "'try' x := e 'in' k" := (bind e (fun x => k))
  (at level 10, x name, e at level 200, k at level 200).

Fixpoint mapM {A B} (f : A -> result B) (l : list A) : result (list B) :=
  match l with
  | [] => Ok []
  | x :: rest => try y := f x in try ys := mapM f rest in Ok (y :: ys)
  end.

Definition getString (v : option JSON) : result string :=
  match v with
  | None | Some JNull => Ok EmptyString
  | Some (JStr s) => Ok s
  | _ => Err typeError
  end.

Definition getInt64 (v : option JSON) : result Z :=
  match v with
  | None | Some JNull => Ok 0
  | Some (JNum n) =>
      if (int64_min <=? n) && (n <=? int64_max) then Ok n else Err typeError
  | _ => Err typeError
  end.

Definition getBool (v : option JSON) : result bool :=
  match v with
  | None | Some JNull => Ok false
  | Some (JBool b) => Ok b
  | _ => Err typeError
  end.

Definition getList {A} (f : JSON -> result A) (v : option JSON)
  : result (list A) :=
  match v with
  | None | Some JNull => Ok []
  | Some (JArr items) => mapM f items
  | _ => Err typeError
  end.

Definition getStruct {A} (zero : A) (f : list (string * JSON) -> result A)
    (v : JSON) : result A :=
  match v with
  | JNull => Ok zero
  | JObj fs => f fs
  | _ => Err typeError
  end.

Definition decodeError (v : option JSON) : result (option JSONRPCError.t) :=
  match v with
  | None | Some JNull => Ok None
  | Some (JObj fs) =>
      try code := getInt64 (field "code" fs) in
      try message := getString (field "message" fs) in
      Ok (Some (JSONRPCError.mk code message))
  | _ => Err typeError
  end.

Definition Unmarshal_JSONRPCResponse (data : bytes)
  : result JSONRPCResponse.t :=
  try v := parse data in
  getStruct (JSONRPCResponse.mk EmptyString 0 None None)
    (fun fs =>
       try jsonrpc := getString (field "jsonrpc" fs) in
       try id := getInt64 (field "id" fs) in
       try err := decodeError (field "error" fs) in
       Ok (JSONRPCResponse.mk jsonrpc id
             (option_map render (field "result" fs)) err)) v.

Definition decodeTool : JSON -> result MCPTool.t :=
  getStruct (MCPTool.mk EmptyString EmptyString JNull)
    (fun fs =>
       try name := getString (field "name" fs) in
       try description := getString (field "description" fs) in
       try schema := match field "inputSchema" fs with
                 | None | Some JNull => Ok JNull
                 | Some (JObj o) => Ok (JObj o)
                 | _ => Err typeError
                 end in
       Ok (MCPTool.mk name description schema)).

Definition Unmarshal_MCPToolsListResult (data : bytes)
  : result MCPToolsListResult.t :=
  try v := parse data in
  getStruct (MCPToolsListResult.mk [])
    (fun fs =>
       try ts := getList decodeTool (field "tools" fs) in
       Ok (MCPToolsListResult.mk ts)) v.

Definition decodeContent : JSON -> result MCPContent.t :=
  getStruct (MCPContent.mk EmptyString EmptyString)
    (fun fs =>
       try ty := getString (field "type" fs) in
       try text := getString (field "text" fs) in
       Ok (MCPContent.mk ty text)).

Definition Unmarshal_MCPToolCallResult (data : bytes)
  : result MCPToolCallResult.t :=
  try v := parse data in
  getStruct (MCPToolCallResult.mk [] false)
    (fun fs =>
       try content := getList decodeContent (field "content" fs) in
       try isError := getBool (field "isError" fs) in
       Ok (MCPToolCallResult.mk content isError)) v.

Definition decodeEnv (v : option JSON) : result (gmap string string) :=
  match v with
  | None | Some JNull => Ok ∅
  | Some (JObj fs) =>
      try kvs := mapM (fun kv => try s := getString (Some (snd kv)) in
                                 Ok (fst kv, s)) fs in
      Ok (list_to_map (reverse kvs))
  | _ => Err typeError
  end.

Definition decodeServer : JSON -> result MCPServerConfig.t :=
  getStruct
    (MCPServerConfig.mk EmptyString [] ∅ EmptyString EmptyString EmptyString)
    (fun fs =>
       try command := getString (field "command" fs) in
       try args := getList (fun a => getString (Some a)) (field "args" fs) in
       try env := decodeEnv (field "env" fs) in
       try ty := getString (field "type" fs) in
       try url := getString (field "url" fs) in
       try description := getString (field "description" fs) in
       Ok (MCPServerConfig.mk command args env ty url description)).

Definition Unmarshal_MCPConfig (data : bytes) : result MCPConfig.t :=
  try v := parse data in
  getStruct (MCPConfig.mk None)
    (fun fs =>
       match field "mcpServers" fs with
       | None | Some JNull => Ok (MCPConfig.mk None)
       | Some (JObj servers) =>
           try kvs := mapM (fun kv => try c := decodeServer (snd kv) in
                                      Ok (fst kv, c)) servers in
           Ok (MCPConfig.mk (Some (list_to_map (reverse kvs))))
       | _ => Err typeError
       end) v.

(** [params] has the tag [omitempty]: a nil interface is left out. *)
Definition Marshal (req : JSONRPCRequest.t) : result bytes :=
  Ok (render
        (JObj ([("jsonrpc", JStr (JSONRPCRequest.JSONRPC req));
                ("id", JNum (JSONRPCRequest.ID req));
                ("method", JStr (JSONRPCRequest.Method req))]
               ++ match JSONRPCRequest.Params req with
                  | JNull => []
                  | p => [("params", p)]
                  end))).

Definition Join (dir rest : string) : string :=
  match rest with
  | EmptyString => dir
  | String "/" _ => dir +:+ rest
  | _ => dir +:+ "/" +:+ rest
  end.

Definition ErrNotExist : error := errors_New "no such file or directory".

Definition IsNotExist (e : error) : bool :=
  match e with
  | errors_New msg => String.eqb msg "no such file or directory"
  | fmt_Errorf _ _ => false
  end.

Definition lib : GoLib := {|
  json_Marshal := Marshal;
  json_Unmarshal_JSONRPCResponse := Unmarshal_JSONRPCResponse;
  json_Unmarshal_MCPToolsListResult := Unmarshal_MCPToolsListResult;
  json_Unmarshal_MCPToolCallResult := Unmarshal_MCPToolCallResult;
  json_Unmarshal_MCPConfig := Unmarshal_MCPConfig;
  bytes_TrimSpace := TrimSpace;
  http_NewRequest := fun _ _ _ => None;
  filepath_Join := Join;
  os_IsNotExist := IsNotExist
|}.

(** JSON text written with ['] for the double quote. *)
Fixpoint wire (s : string) : bytes :=
  match s with
  | EmptyString => EmptyString
  | String c r => String (if Ascii.eqb c "'" then dquote else c) (wire r)
  end.

(** Lines of a stream, each ended by a newline. *)
Definition lines (l : list bytes) : bytes :=
  fold_right (fun x acc => x +:+ String newline acc) EmptyString l.
End RefLib.

(* ================================================================= *)
(** ** Vocabulary of the properties *)

Section Vocabulary.
Context `{GoLib}.

(** A line of text: it holds no newline. *)
Definition isLine (l : bytes) : Prop := bufio.cut newline l = None.

(** What [ReadBytes] returns for the line [l] of a stream. *)
Definition rawLine (l : bytes) : bytes := l +:+ String newline EmptyString.

(** The stream that starts with the lines [ls], each ended by a
    newline, and goes on with [rest]. *)
Definition feed (ls : list bytes) (rest : bytes) : bytes :=
  fold_right (fun l acc => l +:+ String newline acc) rest ls.

(** The kinds of inbound line the read loop passes over: a blank line,
    a line that does not begin with an opening brace, a line that does
    not decode, a notification. *)
Definition blank (line : bytes) : Prop :=
  String.length (bytes_TrimSpace line) = 0%nat.

Definition notObject (line : bytes) : Prop :=
  Client.startsWithBrace (bytes_TrimSpace line) = false.

Definition unparseable (line : bytes) : Prop :=
  exists e, json_Unmarshal_JSONRPCResponse (bytes_TrimSpace line) = Err e.

Definition notification (line : bytes) : Prop :=
  exists resp,
    json_Unmarshal_JSONRPCResponse (bytes_TrimSpace line) = Ok resp
    /\ Client.isNotification resp = true.

Definition noise (line : bytes) : Prop :=
  blank line \/ notObject line \/ unparseable line \/ notification line.

(** A line that decodes to an object with another identifier than
    [id]. *)
Definition otherResponse (id : Z) (line : bytes) : Prop :=
  exists resp,
    json_Unmarshal_JSONRPCResponse (bytes_TrimSpace line) = Ok resp
    /\ JSONRPCResponse.ID resp <> id.

Definition passedOver (id : Z) (line : bytes) : Prop :=
  noise line \/ otherResponse id line.

(** A line the read loop takes as the response to the request [id]:
    it decodes to [resp], which is not a notification and carries
    [id]. *)
Definition answers (id : Z) (line : bytes) (resp : JSONRPCResponse.t)
  : Prop :=
  String.length (bytes_TrimSpace line) <> 0%nat
  /\ Client.startsWithBrace (bytes_TrimSpace line) = true
  /\ json_Unmarshal_JSONRPCResponse (bytes_TrimSpace line) = Ok resp
  /\ Client.isNotification resp = false
  /\ JSONRPCResponse.ID resp = id.

(** The request can be sent: it marshals to [data], and the pipe takes
    the next write. *)
Definition sendable (c : Client.t) (method : string) (params : JSON)
    (data : bytes) : Prop :=
  json_Marshal
    (JSONRPCRequest.mk "2.0" (atomic_AddInt64 (Client.requestID c) 1)
       method params) = Ok data
  /\ io.closed (Client.stdin c) = false
  /\ io.accepts (Client.stdin c) (length (io.written (Client.stdin c))) = true.

(** The identifiers of successive requests on a connection: after each
    call of [sendRequest], the value [atomic.AddInt64] gave it, which
    is the counter of the connection. *)
Fixpoint issued {T} (send : T -> string -> JSON -> T) (counter : T -> Z)
    (c : T) (calls : list (string * JSON)) : list Z * T :=
  match calls with
  | [] => ([], c)
  | (method, params) :: calls' =>
      let c := send c method params in
      let '(ids, c') := issued send counter c calls' in
      (counter c :: ids, c')
  end.

Definition Client_issued :=
  issued (fun c method params => snd (Client.sendRequest c method params))
         Client.requestID.

Definition HTTPClient_issued :=
  issued (fun c method params => snd (HTTPClient.sendRequest c method params))
         HTTPClient.requestID.

(** What successive requests put on the wire: for each call of
    [sendRequest], what the call added to what the connection had sent
    before it ([sent]: the lines written to the process, or the
    requests posted). *)
Fixpoint emitted {T W} (send : T -> string -> JSON -> T) (sent : T -> list W)
    (c : T) (calls : list (string * JSON)) : list (list W) * T :=
  match calls with
  | [] => ([], c)
  | (method, params) :: calls' =>
      let c1 := send c method params in
      let '(rest, c') := emitted send sent c1 calls' in
      (drop (length (sent c)) (sent c1) :: rest, c')
  end.

Definition Client_emitted :=
  emitted (fun c method params => snd (Client.sendRequest c method params))
          (fun c => io.written (Client.stdin c)).

Definition HTTPClient_emitted :=
  emitted (fun c method params => snd (HTTPClient.sendRequest c method params))
          HTTPClient.posted.

(** What becomes of one configured server when the manager starts it:
    the stage at which it fails, with the connection as [Close] left
    it when there is one, or the tools it lists and the connection
    after discovery. *)
Inductive Startup :=
| Unsupported
| StartFailed (err : error)
| InitializeFailed (err : error) (closed : Conn)
| ListToolsFailed (err : error) (closed : Conn)
| Ready (tools : list MCPTool.t) (client : Conn).

Definition startup (env : Env) (name : string)
    (serverConfig : MCPServerConfig.t) : Startup :=
  match Manager.newClient env name serverConfig with
  | None => Unsupported
  | Some (Err err) => StartFailed err
  | Some (Ok client) =>
      match Initialize client with
      | (Some err, client) => InitializeFailed err (snd (Close client))
      | (None, client) =>
          match ListTools client with
          | (Err err, client) => ListToolsFailed err (snd (Close client))
          | (Ok tools, client) => Ready tools client
          end
      end
  end.

Definition isReady (s : Startup) : bool :=
  match s with Ready _ _ => true | _ => false end.

(** The servers of a configuration that do not reach the end of
    discovery, and those that do. *)
Definition failing (env : Env) (servers : gmap string MCPServerConfig.t)
  : gmap string MCPServerConfig.t :=
  filter (fun kv => isReady (startup env kv.1 kv.2) = false) servers.

Definition surviving (env : Env) (servers : gmap string MCPServerConfig.t)
  : gmap string MCPServerConfig.t :=
  filter (fun kv => isReady (startup env kv.1 kv.2) = true) servers.

Definition toolNames (tools : list MCPTool.t) : list string :=
  map MCPTool.Name tools.

(** The manager and the world after the loop of [LoadFromConfig] has
    gone through the servers [l], related to those before it. *)
Record Loaded (env : Env) (l : list (string * MCPServerConfig.t))
    (m : Manager.t) (w : World) (m' : Manager.t) (w' : World) : Prop := {
  loaded_other : forall name,
    name ∉ l.*1 -> Manager.clients m' !! name = Manager.clients m !! name;
  loaded_ready : forall name cfg tools client,
    (name, cfg) ∈ l -> startup env name cfg = Ready tools client ->
    exists r, Manager.clients m' !! name = Some r
              /\ heap w' !! r = Some client
              /\ (r ∉ dom (heap w))
              /\ forall t, t ∈ toolNames tools ->
                   exists r', Manager.toolToClient m' !! t = Some r'
                              /\ r' ∉ dom (heap w);
  loaded_failed : forall name cfg,
    (name, cfg) ∈ l -> isReady (startup env name cfg) = false ->
    Manager.clients m' !! name = Manager.clients m !! name;
  loaded_tool : forall t r,
    Manager.toolToClient m' !! t = Some r ->
    Manager.toolToClient m !! t = Some r
    \/ exists name cfg tools client,
         (name, cfg) ∈ l /\ startup env name cfg = Ready tools client
         /\ Manager.clients m' !! name = Some r
         /\ t ∈ toolNames tools /\ r ∉ dom (heap w);
  loaded_untouched : forall t,
    (forall name cfg tools client,
       (name, cfg) ∈ l -> startup env name cfg = Ready tools client ->
       t ∉ toolNames tools) ->
    Manager.toolToClient m' !! t = Manager.toolToClient m !! t;
  loaded_kept : forall t r,
    Manager.toolToClient m !! t = Some r ->
    exists r', Manager.toolToClient m' !! t = Some r'
               /\ (r' = r \/ r' ∉ dom (heap w));
  loaded_frame : forall r,
    r ∈ dom (heap w) -> heap w' !! r = heap w !! r;
  loaded_trace : forall ev, ev ∈ trace w -> ev ∈ trace w';
  loaded_closed : forall name cfg err client,
    (name, cfg) ∈ l ->
    startup env name cfg = InitializeFailed err client
    \/ startup env name cfg = ListToolsFailed err client ->
    exists r, (r ∉ dom (heap w))
              /\ heap w' !! r = Some client
              /\ Call r MClose ∈ trace w'
              /\ (forall t, Manager.toolToClient m' !! t = Some r ->
                            Manager.toolToClient m !! t = Some r)
              /\ (forall n, Manager.clients m' !! n = Some r ->
                            Manager.clients m !! n = Some r)
}.

(** A connection on which [Close] has done its work: a process
    connection has its pipe closed and its process gone; an HTTP
    connection holds nothing to release. *)
Definition isClosed (c : Conn) : Prop :=
  match c with
  | ProcessConn c =>
      io.closed (Client.stdin c) = true /\ exec.running (Client.cmd c) = false
  | HTTPConn _ => True
  end.

(** The operations of a connection, as the manager and its callers
    invoke them through the interface. *)
Inductive Op :=
| OpInitialize
| OpListTools
| OpCallTool (name : string) (arguments : JSON)
| OpClose.

(** One operation on a connection: the error it returns, if any, and
    the connection after it. *)
Definition doOp (c : Conn) (op : Op) : option error * Conn :=
  match op with
  | OpInitialize => Initialize c
  | OpListTools =>
      let '(r, c) := ListTools c in
      (match r with Ok _ => None | Err e => Some e end, c)
  | OpCallTool name arguments =>
      let '(r, c) := CallTool c name arguments in
      (match r with Ok _ => None | Err e => Some e end, c)
  | OpClose => Close c
  end.

(** A sequence of operations: the errors in order, and the connection
    at the end. *)
Fixpoint runOps (c : Conn) (ops : list Op) : list (option error) * Conn :=
  match ops with
  | [] => ([], c)
  | op :: ops' =>
      let '(e, c) := doOp c op in
      let '(es, c') := runOps c ops' in
      (e :: es, c')
  end.

(** The operations that send a request. *)
Definition sendsRequest (op : Op) : bool :=
  match op with OpClose => false | _ => true end.

(** The request counter of a connection. *)
Definition counter (c : Conn) : Z :=
  match c with
  | ProcessConn c => Client.requestID c
  | HTTPConn c => HTTPClient.requestID c
  end.

(** The text blocks of a tool result. *)
Definition isText (x : MCPContent.t) : bool :=
  bool_decide (MCPContent.Type_ x = "text").

Definition textOf (content : list MCPContent.t) : string :=
  fold_right (fun x acc => MCPContent.Text x +:+ acc) EmptyString
    (filter (fun x => isText x = true) content).

(** The URL an HTTP connection posts to. *)
Definition endpoint (c : HTTPClient.t) : string :=
  if HTTPClient.isSSE c then HTTPClient.baseURL c +:+ "/message"
  else HTTPClient.baseURL c.

(** Every pointer of the client set and of the routing table points
    into the heap. *)
Definition wellFormed (m : Manager.t) (w : World) : Prop :=
  (forall name r, Manager.clients m !! name = Some r -> is_Some (heap w !! r))
  /\ (forall t r, Manager.toolToClient m !! t = Some r ->
                  is_Some (heap w !! r)).

(** The state of a process connection on which [Close] has been
    called, relative to the connection [c0] it was called on. *)
Definition closedLike (c0 : Client.t) (c : Conn) : Prop :=
  exists c1, c = ProcessConn c1
             /\ Client.stdout c1 = Client.stdout c0
             /\ Client.stdin c1 = io.Close (Client.stdin c0)
             /\ Client.cmd c1 = exec.mkCmd false
             /\ Client.tools c1 = Client.tools c0.

(** The entry of [GetServers] for a connection registered as [name]. *)
Definition serverInfo (name : string) (client : Conn) : ServerInfo.t :=
  ServerInfo.mk name
    (match client with HTTPConn _ => "http" | ProcessConn _ => "stdio" end)
    (Z.of_nat (length (Tools client)))
    (toolNames (Tools client)).

(** The entry of [GetBackendTools] for a tool. *)
Definition backendTool (mcpTool : MCPTool.t) : backend_Tool.t :=
  backend_Tool.mk (MCPTool.Name mcpTool) (MCPTool.Description mcpTool)
    (MCPTool.InputSchema mcpTool).

(** The dynamic type of a connection: [*Client] or [*HTTPClient]. *)
Definition isProcess (c : Conn) : bool :=
  match c with ProcessConn _ => true | HTTPConn _ => false end.

(** Whether the manager of the model, if it has one, routes a name:
    [m.mcpManager != nil && m.mcpManager.HasTool(toolName)]. *)
Definition routed (mcpManager : option Manager.t) (name : string) : bool :=
  match mcpManager with
  | Some m => Manager.HasTool m name
  | None => false
  end.

(** The identifiers 1, 2, ..., n. *)
Definition countFrom1 (n : nat) : list Z := map Z.of_nat (seq 1 n).

(** The message that answers a tool call whose run gave [res]: the
    result, or the error with the name and the arguments of the call. *)
Definition toolMessage (fmt_v : JSON -> string) (toolCall : api_ToolCall.t)
    (res : result string) : api_Message.t :=
  let toolName := api_ToolCall.Name toolCall in
  api_Message.mk "tool"
    match res with
    | Ok result => result
    | Err err =>
        Sprintf ("Error executing %s: %v" +:+ String newline "Debug: %s")
          [toolName; Error err;
           Sprintf "Executing tool: %s with args: %v"
             [toolName; fmt_v (api_ToolCall.Arguments toolCall)]]
    end
    (api_ToolCall.ID toolCall).
End Vocabulary.

(* ================================================================= *)
(** ** Concrete connections and worlds *)

Module Examples.
Import RefLib.

(** The connection [NewClient] returns for a process that reads all it
    is sent and writes [out] before it closes its output. *)
Definition freshClient (out : bytes) : Client.t :=
  Client.mk "srv" (exec.mkCmd true)
    (io.mkWriteCloser [] (fun _ => true) false) (bufio.NewReader out) 0 [].

(** The connection [NewHTTPClient] returns for a server that answers
    every POST with status 200 and the body [body]. *)
Definition freshHTTPClient (body : bytes) : HTTPClient.t :=
  HTTPClient.mk "web" "http://localhost:8080"
    (fun _ _ _ => http.Response 200 body None) [] 0 [] false.

Definition errorLine7 : bytes :=
  wire "{'jsonrpc':'2.0','id':7,'error':{'code':-32000,'message':'boom'}}".

Definition errorLine1 : bytes :=
  wire "{'jsonrpc':'2.0','id':1,'error':{'code':-32601,'message':'no such method'}}".

Definition resultLine1 : bytes :=
  wire "{'jsonrpc':'2.0','id':1,'result':{'tools':[]}}".

Definition resultLine99 : bytes :=
  wire "{'jsonrpc':'2.0','id':99,'result':{'tools':[]}}".

Definition notificationLine : bytes :=
  wire "{'jsonrpc':'2.0','method':'notifications/message'}".

Definition response1 : JSONRPCResponse.t :=
  JSONRPCResponse.mk "2.0" 1 (Some (wire "{'tools':[]}")) None.

Definition response99 : JSONRPCResponse.t :=
  JSONRPCResponse.mk "2.0" 99 (Some (wire "{'tools':[]}")) None.

(** The first request of a connection, when it is [tools/list]. *)
Definition listRequest1 : bytes :=
  wire "{'jsonrpc':'2.0','id':1,'method':'tools/list'}".

(** Lines a server may write before its response. *)
Definition noiseLines : list bytes :=
  [EmptyString; "server listening on stdio"; "{not json"; notificationLine].

Definition fiftyLogLines : list bytes := repeat "tick" 50.

(** As many calls as the largest [int64]. *)
Definition manyCalls : list (string * JSON) :=
  repeat ("tools/list", JNull) (Z.to_nat int64_max).

(** A tool server on standard input and output: it answers
    [initialize], then [tools/list] with the tools [tools] (JSON
    text), then one [tools/call] with the text [said]. *)
Definition serverOutput (tools said : string) : bytes :=
  lines [wire "{'jsonrpc':'2.0','id':1,'result':{'protocolVersion':'2024-11-05'}}";
         wire ("{'jsonrpc':'2.0','id':2,'result':{'tools':[" +:+ tools +:+ "]}}");
         wire ("{'jsonrpc':'2.0','id':3,'result':{'content':[{'type':'text','text':'"
               +:+ said +:+ "'}]}}")].

Definition searchTool : string := "{'name':'search','description':'find'}".
Definition fetchTool : string := "{'name':'fetch','description':'get'}".

(** The commands of the example world: [alpha] and [beta] are tool
    servers that both list [search]; [mute] starts and writes nothing;
    [deaf] answers [initialize] only; anything else does not start. *)
Definition exampleCommand (config : MCPServerConfig.t) : exec.Spawn :=
  let cmd := MCPServerConfig.Command config in
  if String.eqb cmd "alpha" then
    exec.Started (exec.mkProcess (serverOutput searchTool "alpha") (fun _ => true))
  else if String.eqb cmd "beta" then
    exec.Started (exec.mkProcess
                    (serverOutput (searchTool +:+ "," +:+ fetchTool) "beta")
                    (fun _ => true))
  else if String.eqb cmd "mute" then
    exec.Started (exec.mkProcess EmptyString (fun _ => true))
  else if String.eqb cmd "deaf" then
    exec.Started (exec.mkProcess
                    (lines [wire "{'jsonrpc':'2.0','id':1,'result':{}}"])
                    (fun _ => true))
  else exec.StartFails (errors_New "executable file not found in $PATH").

Definition configText : bytes :=
  wire ("{'mcpServers':{"
        +:+ "'alpha':{'command':'alpha'},"
        +:+ "'beta':{'command':'beta','type':'stdio'},"
        +:+ "'mute':{'command':'mute'},"
        +:+ "'deaf':{'command':'deaf'},"
        +:+ "'gone':{'command':'gone'},"
        +:+ "'odd':{'type':'websocket','url':'ws://localhost'},"
        +:+ "'web':{'type':'http'}}}").

Definition stdioServer (command ty : string) : MCPServerConfig.t :=
  MCPServerConfig.mk command [] ∅ ty EmptyString EmptyString.

Definition exampleServers : gmap string MCPServerConfig.t :=
  list_to_map
    [("alpha", stdioServer "alpha" EmptyString);
     ("beta", stdioServer "beta" "stdio");
     ("mute", stdioServer "mute" EmptyString);
     ("deaf", stdioServer "deaf" EmptyString);
     ("gone", stdioServer "gone" EmptyString);
     ("odd", MCPServerConfig.mk EmptyString [] ∅ "websocket" "ws://localhost"
               EmptyString);
     ("web", MCPServerConfig.mk EmptyString [] ∅ "http" EmptyString
               EmptyString)].

(** The example world: [mcp.json] holds [configText], [bad.json] is
    not JSON, no other file exists; a [range] over the server map goes
    in the order of [map_to_list]. *)
Definition exampleEnv : Env := {|
  os_ReadFile path :=
    if String.eqb path "mcp.json" then Ok configText
    else if String.eqb path "bad.json" then Ok "{'mcpServers': ["
    else Err ErrNotExist;
  os_UserHomeDir := Ok "/home/user";
  exec_Command := exampleCommand;
  http_Client := fun _ _ _ _ => http.DoFails (errors_New "connection refused");
  range_MCPServers := map_to_list
|}.

Definition emptyWorld : World := mkWorld ∅ [].

(** A manager with one connection, which serves the tool [search]. *)
Definition oneToolManager : Manager.t :=
  Manager.mk {["alpha" := 0%nat]} {["search" := 0%nat]}.

Definition oneToolWorld : World :=
  mkWorld
    {[0%nat := ProcessConn
                 (freshClient
                    (lines [wire "{'jsonrpc':'2.0','id':1,'result':{'content':[{'type':'text','text':'found'}]}}"]))]}
    [].

(** A tool result with two text blocks around a block of another type. *)
Definition mixedResultLine : bytes :=
  wire ("{'jsonrpc':'2.0','id':1,'result':{'content':["
        +:+ "{'type':'text','text':'a'},"
        +:+ "{'type':'image','text':'x'},"
        +:+ "{'type':'text','text':'b'}]}}").

(** A server entry whose transport type is written in capitals. *)
Definition capitalsServer : MCPServerConfig.t :=
  MCPServerConfig.mk EmptyString [] ∅ "HTTP" "http://localhost:8080"
    EmptyString.

(** Built-in tools that count their runs. *)
Definition countingTool (text : string) (args : JSON) (runs : nat)
  : result string * nat :=
  (Ok text, S runs).

Definition showArgs (args : JSON) : string := "map[]".

Definition runToolCalls :=
  @executeTools RefLib.lib nat (countingTool "read") (countingTool "write")
    (countingTool "edit") (countingTool "glob") (countingTool "grep")
    (countingTool "bash") showArgs.

(** A manager whose one connection serves a tool named [read]. *)
Definition shadowManager : Manager.t :=
  Manager.mk {["alpha" := 0%nat]} {["read" := 0%nat]}.
End Examples.

(** Tactics for the concrete runs: evaluate both sides of an equation;
    evaluate the left-hand side of an equation whose right-hand side is
    still to be found; prove a property of every element of a list
    that is written out. *)
Ltac run := vm_compute; reflexivity.

Ltac run_lhs :=
  match goal with
  | |- ?l = _ => let v := eval vm_compute in l in change l with v
  end; reflexivity.

Ltac each tac :=
  repeat first [apply List.Forall_nil | apply List.Forall_cons; [tac|]].

(* ================================================================= *)
(** ** The read loop of the process connection *)

Section Scan.
Context `{GoLib}.

Lemma cut_line l rest :
  isLine l ->
  bufio.cut newline (l +:+ String newline rest) = Some (rawLine l, rest).
Proof.
  unfold isLine, rawLine. induction l as [|a l IH]; simpl; intros Hl.
  - reflexivity.
  - destruct (Ascii.eqb a newline); [discriminate|].
    destruct (bufio.cut newline l) as [[? ?]|]; [discriminate|].
    rewrite IH; reflexivity.
Qed.

Lemma ReadBytes_line l rest k :
  isLine l ->
  bufio.ReadBytes (bufio.mkReader (l +:+ String newline rest) k) newline
  = ((rawLine l, None), bufio.mkReader rest (S k)).
Proof.
  intros Hl. unfold bufio.ReadBytes. simpl. rewrite cut_line; auto.
Qed.

(** One turn of the loop on a line it passes over. *)
Lemma scan_pass n id l rest k :
  isLine l -> passedOver id (rawLine l) ->
  Client.scan (S n) id (bufio.mkReader (l +:+ String newline rest) k)
  = Client.scan n id (bufio.mkReader rest (S k)).
Proof.
  intros Hl Hp. cbn [Client.scan]. rewrite ReadBytes_line by assumption.
  destruct Hp as [[Hb|[Hb|[[e He]|(resp & Hr & Hn)]]]|(resp & Hr & Hid)].
  - red in Hb. rewrite Hb. reflexivity.
  - red in Hb. rewrite Hb.
    destruct (String.length _ =? 0)%nat; reflexivity.
  - rewrite He.
    destruct (String.length _ =? 0)%nat; [reflexivity|].
    destruct (negb _); reflexivity.
  - rewrite Hr, Hn.
    destruct (String.length _ =? 0)%nat; [reflexivity|].
    destruct (negb _); reflexivity.
  - rewrite Hr.
    destruct (String.length _ =? 0)%nat; [reflexivity|].
    destruct (negb _); [reflexivity|].
    destruct (Client.isNotification resp); [reflexivity|].
    destruct (Z.eqb_spec (JSONRPCResponse.ID resp) id); [contradiction|].
    reflexivity.
Qed.

(** The loop passes over a run of such lines, one attempt each. *)
Lemma scan_pass_all ls : forall n id rest k,
  Forall isLine ls -> Forall (fun l => passedOver id (rawLine l)) ls ->
  Client.scan (length ls + n) id (bufio.mkReader (feed ls rest) k)
  = Client.scan n id (bufio.mkReader rest (length ls + k)).
Proof.
  induction ls as [|l ls IH]; intros n id rest k Hl Hp.
  - reflexivity.
  - inversion Hl; inversion Hp; subst.
    change (length (l :: ls) + n)%nat with (S (length ls + n)).
    change (feed (l :: ls) rest) with (l +:+ String newline (feed ls rest)).
    rewrite scan_pass by assumption. rewrite IH by assumption.
    f_equal. f_equal. simpl. lia.
Qed.

(** One turn of the loop on the line that answers the request. *)
Lemma scan_answer n id l rest k resp :
  isLine l -> answers id (rawLine l) resp ->
  Client.scan (S n) id (bufio.mkReader (l +:+ String newline rest) k)
  = (match JSONRPCResponse.Error resp with
     | Some e =>
         Err (fmt_Errorf "RPC error %d: %s"
                [ArgInt (JSONRPCError.Code e);
                 ArgStr (JSONRPCError.Message e)])
     | None => Ok resp
     end, bufio.mkReader rest (S k)).
Proof.
  intros Hl (Hlen & Hb & Hr & Hn & Hid).
  cbn [Client.scan]. rewrite ReadBytes_line by assumption.
  apply Nat.eqb_neq in Hlen. rewrite Hlen, Hb, Hr, Hn. simpl.
  subst id. rewrite Z.eqb_refl.
  destruct (JSONRPCResponse.Error resp); reflexivity.
Qed.

(** A response the loop returns carries the identifier it looked for. *)
Lemma scan_Ok_ID n : forall id r resp r',
  Client.scan n id r = (Ok resp, r') -> JSONRPCResponse.ID resp = id.
Proof.
  induction n as [|n IH]; intros id r resp r'; cbn [Client.scan].
  - discriminate.
  - destruct (bufio.ReadBytes r newline) as [[line [err|]] r1];
      [discriminate|].
    destruct (String.length _ =? 0)%nat; [apply IH|].
    destruct (negb _); [apply IH|].
    destruct (json_Unmarshal_JSONRPCResponse _) as [resp0|]; [|apply IH].
    destruct (Client.isNotification resp0); [apply IH|].
    destruct (Z.eqb_spec (JSONRPCResponse.ID resp0) id) as [Heq|]; [|apply IH].
    destruct (JSONRPCResponse.Error resp0); [discriminate|].
    intros [= <- _]. exact Heq.
Qed.

(** The loop reads at most as many times as it has attempts. *)
Lemma scan_nreads n : forall id r,
  (bufio.nreads (snd (Client.scan n id r)) <= bufio.nreads r + n)%nat.
Proof.
  induction n as [|n IH]; intros id r; cbn [Client.scan].
  - simpl. lia.
  - assert (Hr : bufio.nreads (snd (bufio.ReadBytes r newline))
                 = S (bufio.nreads r)).
    { unfold bufio.ReadBytes. destruct (bufio.cut _ _) as [[? ?]|]; reflexivity. }
    destruct (bufio.ReadBytes r newline) as [[line [err|]] r1]; simpl in Hr.
    { simpl. lia. }
    assert (Hn : (bufio.nreads (snd (Client.scan n id r1))
                  <= bufio.nreads r + S n)%nat).
    { specialize (IH id r1). lia. }
    destruct (String.length _ =? 0)%nat; [exact Hn|].
    destruct (negb _); [exact Hn|].
    destruct (json_Unmarshal_JSONRPCResponse _) as [resp0|]; [|exact Hn].
    destruct (Client.isNotification resp0); [exact Hn|].
    destruct (JSONRPCResponse.ID resp0 =? id); [|exact Hn].
    destruct (JSONRPCResponse.Error resp0); simpl; lia.
Qed.

(** [sendRequest] on a request that can be sent: the counter moves,
    the request is written, the loop runs. *)
Lemma sendRequest_sendable c method params data :
  sendable c method params data ->
  let id := atomic_AddInt64 (Client.requestID c) 1 in
  let w := io.mkWriteCloser
             (io.written (Client.stdin c) ++ [rawLine data])
             (io.accepts (Client.stdin c)) false in
  Client.sendRequest c method params
  = (fst (Client.scan (Z.to_nat Client.maxAttempts) id (Client.stdout c)),
     Client.mk (Client.name c) (Client.cmd c) w
       (snd (Client.scan (Z.to_nat Client.maxAttempts) id (Client.stdout c)))
       id (Client.tools c)).
Proof.
  intros (Hm & Hc & Ha). cbv zeta. unfold Client.sendRequest.
  rewrite Hm. unfold io.Write. cbn [Client.set_requestID Client.stdin].
  rewrite Hc, Ha.
  cbn [Client.set_stdin Client.stdout Client.requestID Client.name Client.cmd
       Client.tools Client.stdin].
  destruct (Client.scan _ _ _) as [res r]. reflexivity.
Qed.

(** The request a call writes carries the identifier the call was
    given, which is the counter of the connection after the call. *)
Lemma sendRequest_writes_identifier c method params data :
  sendable c method params data ->
  let c' := snd (Client.sendRequest c method params) in
  json_Marshal
    (JSONRPCRequest.mk "2.0" (Client.requestID c') method params) = Ok data
  /\ io.written (Client.stdin c')
     = io.written (Client.stdin c) ++ [rawLine data].
Proof.
  intros Hs. cbv zeta. rewrite (sendRequest_sendable _ _ _ _ Hs).
  cbn. destruct Hs as (Hm & _). auto.
Qed.

Lemma Client_sendRequest_requestID c method params :
  Client.requestID (snd (Client.sendRequest c method params))
  = atomic_AddInt64 (Client.requestID c) 1.
Proof.
  unfold Client.sendRequest.
  destruct (json_Marshal _); [|reflexivity].
  destruct (io.Write _ _) as [[e|] w]; [reflexivity|].
  cbn [Client.set_stdin Client.set_requestID Client.stdout].
  destruct (Client.scan _ _ _). reflexivity.
Qed.

Lemma Client_sendRequest_tools c method params :
  Client.tools (snd (Client.sendRequest c method params)) = Client.tools c.
Proof.
  unfold Client.sendRequest.
  destruct (json_Marshal _); [|reflexivity].
  destruct (io.Write _ _) as [[e|] w]; [reflexivity|].
  cbn [Client.set_stdin Client.set_requestID Client.stdout].
  destruct (Client.scan _ _ _). reflexivity.
Qed.

Lemma HTTPClient_sendRequest_requestID c method params :
  HTTPClient.requestID (snd (HTTPClient.sendRequest c method params))
  = atomic_AddInt64 (HTTPClient.requestID c) 1.
Proof.
  unfold HTTPClient.sendRequest.
  destruct (json_Marshal _); [|reflexivity].
  destruct (http_NewRequest _ _ _); [reflexivity|].
  unfold HTTPClient.Do. cbn.
  destruct (HTTPClient.httpClient c _ _ _) as [e|st body [re|]];
    [reflexivity| |].
  - destruct (negb _); reflexivity.
  - destruct (negb _); [reflexivity|].
    destruct (json_Unmarshal_JSONRPCResponse _) as [resp|]; [|reflexivity].
    destruct (JSONRPCResponse.Error resp); reflexivity.
Qed.

Lemma HTTPClient_sendRequest_tools c method params :
  HTTPClient.tools (snd (HTTPClient.sendRequest c method params))
  = HTTPClient.tools c.
Proof.
  unfold HTTPClient.sendRequest.
  destruct (json_Marshal _); [|reflexivity].
  destruct (http_NewRequest _ _ _); [reflexivity|].
  unfold HTTPClient.Do. cbn.
  destruct (HTTPClient.httpClient c _ _ _) as [e|st body [re|]];
    [reflexivity| |].
  - destruct (negb _); reflexivity.
  - destruct (negb _); [reflexivity|].
    destruct (json_Unmarshal_JSONRPCResponse _) as [resp|]; [|reflexivity].
    destruct (JSONRPCResponse.Error resp); reflexivity.
Qed.
End Scan.

(* ================================================================= *)
(** ** Properties of the connections *)

Section Connections.
Context `{GoLib}.

Lemma feed_app ls l rest :
  feed (ls ++ [l]) rest = feed ls (l +:+ String newline rest).
Proof. unfold feed. rewrite fold_right_app. reflexivity. Qed.

Lemma noise_passedOver id (ls : list bytes) :
  Forall (fun l => noise (rawLine l)) ls ->
  Forall (fun l => passedOver id (rawLine l)) ls.
Proof.
  intros Hf. eapply Forall_impl; [exact Hf|]. intros l Hl. left. exact Hl.
Qed.

(** [sendRequest] on a stream that starts with fewer than 50 lines the
    loop passes over and then the line that answers the request. *)
Lemma sendRequest_answer c method params data ls l rest resp :
  sendable c method params data ->
  bufio.pending (Client.stdout c) = feed (ls ++ [l]) rest ->
  Forall isLine (ls ++ [l]) ->
  Forall (fun x => passedOver (atomic_AddInt64 (Client.requestID c) 1)
                     (rawLine x)) ls ->
  (length ls < 50)%nat ->
  answers (atomic_AddInt64 (Client.requestID c) 1) (rawLine l) resp ->
  fst (Client.sendRequest c method params)
  = match JSONRPCResponse.Error resp with
    | Some e =>
        Err (fmt_Errorf "RPC error %d: %s"
               [ArgInt (JSONRPCError.Code e); ArgStr (JSONRPCError.Message e)])
    | None => Ok resp
    end
  /\ bufio.pending (Client.stdout (snd (Client.sendRequest c method params)))
     = rest
  /\ bufio.nreads (Client.stdout (snd (Client.sendRequest c method params)))
     = (bufio.nreads (Client.stdout c) + length ls + 1)%nat.
Proof.
  intros Hs Hp Hl Hn Hlen Ha.
  rewrite (sendRequest_sendable _ _ _ _ Hs). cbv zeta. cbn [fst snd Client.stdout].
  destruct (Client.stdout c) as [p k]. cbn [bufio.pending bufio.nreads] in *.
  subst p. rewrite feed_app.
  apply Forall_app in Hl as [Hl1 Hl2]. inversion Hl2; subst.
  replace (Z.to_nat Client.maxAttempts)
    with (length ls + S (49 - length ls))%nat
    by (change (Z.to_nat Client.maxAttempts) with 50%nat; lia).
  rewrite scan_pass_all by assumption.
  rewrite (scan_answer _ _ _ _ _ resp) by assumption.
  cbn [fst snd bufio.pending bufio.nreads]. repeat split; lia.
Qed.

(** C7.  On a process connection, inbound lines that are blank, do not
    begin with an opening brace, do not decode, or decode to a
    notification are passed over without error and do not use up the
    response: when fewer than 50 of them come before the line that
    answers the request, [sendRequest] returns that response, and has
    read exactly up to it. *)
Theorem sendRequest_passes_over_noise c method params data ls l rest resp :
  sendable c method params data ->
  bufio.pending (Client.stdout c) = feed (ls ++ [l]) rest ->
  Forall isLine (ls ++ [l]) ->
  Forall (fun x => noise (rawLine x)) ls ->
  (length ls < 50)%nat ->
  answers (atomic_AddInt64 (Client.requestID c) 1) (rawLine l) resp ->
  JSONRPCResponse.Error resp = None ->
  fst (Client.sendRequest c method params) = Ok resp
  /\ bufio.pending (Client.stdout (snd (Client.sendRequest c method params)))
     = rest.
Proof.
  intros Hs Hp Hl Hn Hlen Ha He.
  destruct (sendRequest_answer c method params data ls l rest resp)
    as (Hr & Hrest & _); auto using noise_passedOver.
  rewrite He in Hr. auto.
Qed.

(** C8.  [sendRequest] on a process connection reads at most 50 lines
    per call, whatever the stream holds; and when the first 50 lines
    hold no response to the request (each is passed over), the call
    fails with the error that names the 50 attempts, after exactly 50
    reads, leaving the rest of the stream unread. *)
Theorem sendRequest_attempt_cap c method params :
  (bufio.nreads (Client.stdout (snd (Client.sendRequest c method params)))
   <= bufio.nreads (Client.stdout c) + 50)%nat
  /\ forall data ls rest,
       sendable c method params data ->
       bufio.pending (Client.stdout c) = feed ls rest ->
       Forall isLine ls ->
       Forall (fun x => passedOver (atomic_AddInt64 (Client.requestID c) 1)
                          (rawLine x)) ls ->
       length ls = 50%nat ->
       let out := Client.sendRequest c method params in
       fst out
       = Err (fmt_Errorf "no response received after %d attempts" [ArgInt 50])
       /\ (forall e, fst out = Err e ->
                     Error e = "no response received after 50 attempts")
       /\ bufio.nreads (Client.stdout (snd out))
          = (bufio.nreads (Client.stdout c) + 50)%nat
       /\ bufio.pending (Client.stdout (snd out)) = rest.
Proof.
  split.
  - unfold Client.sendRequest.
    destruct (json_Marshal _); [|simpl; lia].
    destruct (io.Write _ _) as [[e|] w]; [simpl; lia|].
    cbn [Client.set_stdin Client.set_requestID Client.stdout].
    pose proof (scan_nreads (Z.to_nat Client.maxAttempts)
                  (atomic_AddInt64 (Client.requestID c) 1) (Client.stdout c))
      as Hn.
    destruct (Client.scan _ _ _) as [res r]. exact Hn.
  - intros data ls rest Hs Hp Hl Hn Hlen out. subst out.
    rewrite (sendRequest_sendable _ _ _ _ Hs). cbv zeta.
    cbn [fst snd Client.stdout].
    destruct (Client.stdout c) as [p k]. cbn [bufio.pending bufio.nreads] in *.
    subst p.
    replace (Z.to_nat Client.maxAttempts) with (length ls + 0)%nat
      by (change (Z.to_nat Client.maxAttempts) with 50%nat; lia).
    rewrite scan_pass_all by assumption.
    cbn [Client.scan fst snd bufio.pending bufio.nreads].
    repeat split; try lia.
    intros e [= <-]. reflexivity.
Qed.

(** C4, as the code has it.  On a process connection an error object
    surfaces only when it answers the request: when fewer than 50
    passed-over lines come before a line that decodes to an object
    carrying the issued identifier and an [error] member, the call
    fails with that error's code and message; an object with an
    [error] member and another identifier is passed over like any
    other line that is not the response. *)
Theorem sendRequest_rpc_error c method params data ls l rest resp e :
  sendable c method params data ->
  bufio.pending (Client.stdout c) = feed (ls ++ [l]) rest ->
  Forall isLine (ls ++ [l]) ->
  Forall (fun x => passedOver (atomic_AddInt64 (Client.requestID c) 1)
                     (rawLine x)) ls ->
  (length ls < 50)%nat ->
  answers (atomic_AddInt64 (Client.requestID c) 1) (rawLine l) resp ->
  JSONRPCResponse.Error resp = Some e ->
  fst (Client.sendRequest c method params)
  = Err (fmt_Errorf "RPC error %d: %s"
           [ArgInt (JSONRPCError.Code e); ArgStr (JSONRPCError.Message e)])
  /\ forall n id l' rest' k resp' e',
       isLine l' ->
       json_Unmarshal_JSONRPCResponse (bytes_TrimSpace (rawLine l')) = Ok resp' ->
       JSONRPCResponse.Error resp' = Some e' ->
       JSONRPCResponse.ID resp' <> id ->
       Client.scan (S n) id
         (bufio.mkReader (l' +:+ String newline rest') k)
       = Client.scan n id (bufio.mkReader rest' (S k)).
Proof.
  intros Hs Hp Hl Hn Hlen Ha He. split.
  - destruct (sendRequest_answer c method params data ls l rest resp)
      as (Hr & _); auto.
    rewrite He in Hr. exact Hr.
  - intros n id l' rest' k resp' e' Hl' Hr' _ Hid.
    apply scan_pass; [assumption|]. right. exists resp'. auto.
Qed.

(** C5, as the code has it.  A response a process connection returns
    carries the identifier issued for the call.  An HTTP connection
    compares no identifiers: it returns the object in the body of the
    reply to its own POST, whatever identifier that object carries,
    when the status is 200, the body decodes and has no [error]
    member. *)
Theorem accepted_response_identifier :
  (forall c method params resp,
     fst (Client.sendRequest c method params) = Ok resp ->
     JSONRPCResponse.ID resp = atomic_AddInt64 (Client.requestID c) 1
     /\ Client.requestID (snd (Client.sendRequest c method params))
        = atomic_AddInt64 (Client.requestID c) 1)
  /\ (forall c method params data body resp,
        json_Marshal
          (JSONRPCRequest.mk "2.0" (atomic_AddInt64 (HTTPClient.requestID c) 1)
             method params) = Ok data ->
        let url := if HTTPClient.isSSE c
                   then HTTPClient.baseURL c +:+ "/message"
                   else HTTPClient.baseURL c in
        http_NewRequest "POST" url data = None ->
        HTTPClient.httpClient c (length (HTTPClient.posted c)) url data
        = http.Response 200 body None ->
        json_Unmarshal_JSONRPCResponse body = Ok resp ->
        JSONRPCResponse.Error resp = None ->
        fst (HTTPClient.sendRequest c method params) = Ok resp).
Proof.
  split.
  - intros c method params resp Hr. split;
      [|apply Client_sendRequest_requestID].
    revert Hr. unfold Client.sendRequest.
    destruct (json_Marshal _); [|discriminate].
    destruct (io.Write _ _) as [[e|] w]; [discriminate|].
    cbn [Client.set_stdin Client.set_requestID Client.stdout].
    destruct (Client.scan _ _ _) as [res r] eqn:Hscan. cbn [fst].
    intros ->. eapply scan_Ok_ID; eassumption.
  - intros c method params data body resp Hm url Hn Hd Hu He.
    unfold HTTPClient.sendRequest. rewrite Hm.
    unfold HTTPClient.Do, HTTPClient.set_requestID.
    cbn [HTTPClient.isSSE HTTPClient.baseURL HTTPClient.httpClient
         HTTPClient.posted].
    fold url. rewrite Hn, Hd. cbn. rewrite Hu, He. reflexivity.
Qed.

(** C10.  On both kinds of connection, a call of [ListTools] that
    fails leaves the cached tool list as it was, and a call that
    succeeds makes the cache the very list it returns. *)
Theorem ListTools_cache :
  (forall c : Client.t,
     match Client.ListTools c with
     | (Err _, c') => Client.Tools c' = Client.Tools c
     | (Ok ts, c') => Client.Tools c' = ts
     end)
  /\ (forall c : HTTPClient.t,
        match HTTPClient.ListTools c with
        | (Err _, c') => HTTPClient.Tools c' = HTTPClient.Tools c
        | (Ok ts, c') => HTTPClient.Tools c' = ts
        end).
Proof.
  split; intros c.
  - unfold Client.ListTools, Client.Tools.
    pose proof (Client_sendRequest_tools c "tools/list" JNull) as Ht.
    destruct (Client.sendRequest c "tools/list" JNull) as [[resp|e] c'];
      cbn [snd] in Ht; [|exact Ht].
    destruct (json_Unmarshal_MCPToolsListResult _); [reflexivity|exact Ht].
  - unfold HTTPClient.ListTools, HTTPClient.Tools.
    pose proof (HTTPClient_sendRequest_tools c "tools/list" JNull) as Ht.
    destruct (HTTPClient.sendRequest c "tools/list" JNull) as [[resp|e] c'];
      cbn [snd] in Ht; [|exact Ht].
    destruct (json_Unmarshal_MCPToolsListResult _); [reflexivity|exact Ht].
Qed.
End Connections.

(* ================================================================= *)
(** ** Request identifiers *)

Section Identifiers.
Context `{GoLib}.

Lemma wrap64_add a b : wrap64 (wrap64 a + b) = wrap64 (a + b).
Proof.
  unfold wrap64. f_equal.
  replace ((a + 2 ^ 63) mod 2 ^ 64 - 2 ^ 63 + b + 2 ^ 63)
    with ((a + 2 ^ 63) mod 2 ^ 64 + b) by lia.
  rewrite Z.add_mod_idemp_l by lia. f_equal. lia.
Qed.

Lemma wrap64_idem a : wrap64 (wrap64 a) = wrap64 a.
Proof.
  pose proof (wrap64_add a 0) as Hw. rewrite !Z.add_0_r in Hw. exact Hw.
Qed.

Lemma wrap64_small z : int64_min <= z <= int64_max -> wrap64 z = z.
Proof.
  unfold wrap64, int64_min, int64_max. intros Hz.
  rewrite Z.mod_small by lia. lia.
Qed.

(** Whatever the calls do, call number [i] on a connection whose
    counter is [x] is given the identifier [x + i], reduced to
    [int64]. *)
Lemma issued_spec {T} (send : T -> string -> JSON -> T) (counter : T -> Z) :
  (forall c method params,
     counter (send c method params) = atomic_AddInt64 (counter c) 1) ->
  forall calls c,
    wrap64 (counter c) = counter c ->
    fst (issued send counter c calls)
    = map (fun i => wrap64 (counter c + Z.of_nat i)) (seq 1 (length calls))
    /\ counter (snd (issued send counter c calls))
       = wrap64 (counter c + Z.of_nat (length calls)).
Proof.
  intros Hstep. induction calls as [|[method params] calls IH]; intros c Hc.
  - simpl. rewrite Z.add_0_r. auto.
  - cbn [issued].
    specialize (IH (send c method params)).
    destruct (issued send counter (send c method params) calls) as [ids c'].
    cbn [fst snd] in *. rewrite Hstep in IH. unfold atomic_AddInt64 in *.
    destruct IH as [IH1 IH2].
    { apply wrap64_idem. }
    rewrite Hstep. unfold atomic_AddInt64. split.
    + cbn [length seq map]. f_equal. rewrite IH1.
      rewrite <- (seq_shift (length calls) 1), map_map.
      apply map_ext. intros i.
      rewrite wrap64_add. f_equal. lia.
    + rewrite IH2, wrap64_add. f_equal. cbn [length]. lia.
Qed.

Lemma countFrom1_sorted n : StronglySorted Z.lt (countFrom1 n).
Proof.
  unfold countFrom1. generalize 1%nat as a.
  induction n as [|n IH]; intros a; cbn [seq map]; constructor.
  - apply IH.
  - apply List.Forall_forall. intros z Hz.
    apply in_map_iff in Hz as (i & <- & Hi). apply in_seq in Hi. lia.
Qed.

Lemma issued_fresh {T} (send : T -> string -> JSON -> T) (counter : T -> Z) :
  (forall c method params,
     counter (send c method params) = atomic_AddInt64 (counter c) 1) ->
  forall calls c,
    counter c = 0 ->
    Z.of_nat (length calls) <= int64_max ->
    fst (issued send counter c calls) = countFrom1 (length calls).
Proof.
  intros Hstep calls c Hc Hlen.
  destruct (issued_spec send counter Hstep calls c) as [Hids _].
  { rewrite Hc. reflexivity. }
  rewrite Hids, Hc. unfold countFrom1. apply map_ext_in. intros i Hi.
  apply in_seq in Hi. apply wrap64_small.
  unfold int64_min, int64_max in *. lia.
Qed.

(** What one call writes to the process: nothing else changes on the
    pipe. *)
Lemma Client_sendRequest_written c method params :
  let c' := snd (Client.sendRequest c method params) in
  io.closed (Client.stdin c') = io.closed (Client.stdin c)
  /\ io.accepts (Client.stdin c') = io.accepts (Client.stdin c)
  /\ io.written (Client.stdin c')
     = io.written (Client.stdin c)
       ++ match json_Marshal
                  (JSONRPCRequest.mk "2.0"
                     (atomic_AddInt64 (Client.requestID c) 1) method params)
          with
          | Ok data =>
              if io.closed (Client.stdin c) then []
              else if io.accepts (Client.stdin c)
                        (length (io.written (Client.stdin c)))
                   then [rawLine data] else []
          | Err _ => []
          end.
Proof.
  cbv zeta. unfold Client.sendRequest.
  destruct (json_Marshal _) as [data|];
    [|cbn; rewrite app_nil_r; auto].
  unfold io.Write. cbn [Client.set_requestID Client.stdin].
  destruct (io.closed (Client.stdin c)) eqn:Hc;
    [cbn; rewrite app_nil_r; auto|].
  destruct (io.accepts (Client.stdin c) _) eqn:Ha;
    [|cbn; rewrite app_nil_r; auto].
  cbn [Client.set_stdin Client.stdout].
  destruct (Client.scan _ _ _) as [res r]. cbn. auto.
Qed.

(** What one call posts. *)
Lemma HTTPClient_sendRequest_posted c method params :
  let c' := snd (HTTPClient.sendRequest c method params) in
  endpoint c' = endpoint c
  /\ HTTPClient.posted c'
     = HTTPClient.posted c
       ++ match json_Marshal
                  (JSONRPCRequest.mk "2.0"
                     (atomic_AddInt64 (HTTPClient.requestID c) 1) method
                     params)
          with
          | Ok data =>
              match http_NewRequest "POST" (endpoint c) data with
              | None => [(endpoint c, data)]
              | Some _ => []
              end
          | Err _ => []
          end.
Proof.
  cbv zeta. unfold HTTPClient.sendRequest, endpoint.
  destruct (json_Marshal _) as [data|];
    [|cbn; rewrite app_nil_r; auto].
  cbn [HTTPClient.set_requestID HTTPClient.isSSE HTTPClient.baseURL].
  destruct (http_NewRequest _ _ _); [cbn; rewrite app_nil_r; auto|].
  unfold HTTPClient.Do. cbn.
  destruct (HTTPClient.httpClient c _ _ _) as [e|st body [re|]];
    [cbn; auto| |].
  - destruct (negb _); cbn; auto.
  - destruct (negb _); [cbn; auto|].
    destruct (json_Unmarshal_JSONRPCResponse _) as [resp|]; [|cbn; auto].
    destruct (JSONRPCResponse.Error resp); cbn; auto.
Qed.

Lemma emitted_snd {T W} (send : T -> string -> JSON -> T)
    (sent : T -> list W) (counter : T -> Z) calls : forall c,
  snd (emitted send sent c calls) = snd (issued send counter c calls).
Proof.
  induction calls as [|[method params] calls IH]; intros c; [reflexivity|].
  cbn [emitted issued]. specialize (IH (send c method params)).
  destruct (emitted send sent _ calls), (issued send counter _ calls).
  exact IH.
Qed.

(** What stays the same over one call stays the same over any number
    of calls. *)
Lemma emitted_frame {T W A} (send : T -> string -> JSON -> T)
    (sent : T -> list W) (f : T -> A) :
  (forall c method params, f (send c method params) = f c) ->
  forall calls c, f (snd (emitted send sent c calls)) = f c.
Proof.
  intros Hf. induction calls as [|[method params] calls IH]; intros c;
    [reflexivity|].
  cbn [emitted]. specialize (IH (send c method params)).
  destruct (emitted send sent _ calls). cbn [snd] in *.
  rewrite IH. apply Hf.
Qed.

(** When every call only adds [out] to what was sent, call number
    [length pre + 1] emits what [out] gives on the connection as the
    calls before left it, and what is sent in the end is what was there
    followed by what the calls emitted, in their order. *)
Lemma emitted_at {T W} (send : T -> string -> JSON -> T)
    (sent : T -> list W) (out : T -> string -> JSON -> list W) :
  (forall c method params,
     sent (send c method params) = sent c ++ out c method params) ->
  forall pre c method params post,
    fst (emitted send sent c (pre ++ (method, params) :: post)) !! length pre
    = Some (out (snd (emitted send sent c pre)) method params).
Proof.
  intros Hout. induction pre as [|[m p] pre IH]; intros c method params post.
  - cbn [app emitted length].
    destruct (emitted send sent _ post). cbn.
    rewrite Hout, drop_app_length. reflexivity.
  - cbn [app emitted length].
    specialize (IH (send c m p) method params post).
    destruct (emitted send sent _ (pre ++ _)).
    destruct (emitted send sent _ pre). exact IH.
Qed.

Lemma emitted_concat {T W} (send : T -> string -> JSON -> T)
    (sent : T -> list W) (out : T -> string -> JSON -> list W) :
  (forall c method params,
     sent (send c method params) = sent c ++ out c method params) ->
  forall calls c,
    sent (snd (emitted send sent c calls))
    = sent c ++ concat (fst (emitted send sent c calls)).
Proof.
  intros Hout. induction calls as [|[m p] calls IH]; intros c.
  - cbn. rewrite app_nil_r. reflexivity.
  - cbn [emitted]. specialize (IH (send c m p)).
    destruct (emitted send sent _ calls). cbn [fst snd concat] in *.
    rewrite IH, Hout, drop_app_length, app_assoc. reflexivity.
Qed.

(** The counter of a new connection after [n] calls. *)
Lemma issued_counter {T} (send : T -> string -> JSON -> T) (counter : T -> Z) :
  (forall c method params,
     counter (send c method params) = atomic_AddInt64 (counter c) 1) ->
  forall calls c,
    counter c = 0 ->
    Z.of_nat (length calls) < int64_max ->
    atomic_AddInt64 (counter (snd (issued send counter c calls))) 1
    = Z.of_nat (length calls) + 1.
Proof.
  intros Hstep calls c Hc Hlen.
  destruct (issued_spec send counter Hstep calls c) as [_ Hlast].
  { rewrite Hc. reflexivity. }
  rewrite Hlast, Hc. unfold atomic_AddInt64. rewrite wrap64_add.
  apply wrap64_small. unfold int64_min, int64_max in *. lia.
Qed.

(** C6, as the code has it.  On each kind of connection the requests
    of a new connection carry the identifiers 1, 2, 3, ... in the order
    of the calls, whether the calls succeed or fail, as long as there
    are no more than 2^63 - 1 of them: call number [k] is given the
    identifier [k], these identifiers are strictly increasing, hence
    never reused, and what call number [k] sends (writes to the
    process, or posts) is the encoding of the request with the
    identifier [k] and the method and the parameters of the call,
    whenever the request can be encoded and sent, and nothing
    otherwise; what the connection has sent in the end is what the
    calls sent, in their order.  (The counter is an [int64]: the call
    after that many wraps around to -2^63.) *)
Theorem request_ids_count_up :
  (forall (c : Client.t) calls,
     Client.requestID c = 0 ->
     Z.of_nat (length calls) <= int64_max ->
     fst (Client_issued c calls) = countFrom1 (length calls)
     /\ StronglySorted Z.lt (fst (Client_issued c calls))
     /\ (forall pre method params post,
           calls = pre ++ (method, params) :: post ->
           let before := snd (Client_emitted c pre) in
           fst (Client_emitted c calls) !! length pre
           = Some
               match json_Marshal
                       (JSONRPCRequest.mk "2.0" (Z.of_nat (length pre) + 1)
                          method params)
               with
               | Ok data =>
                   if io.closed (Client.stdin c) then []
                   else if io.accepts (Client.stdin c)
                             (length (io.written (Client.stdin before)))
                        then [rawLine data] else []
               | Err _ => []
               end)
     /\ io.written (Client.stdin (snd (Client_emitted c calls)))
        = io.written (Client.stdin c)
          ++ concat (fst (Client_emitted c calls)))
  /\ (forall (c : HTTPClient.t) calls,
        HTTPClient.requestID c = 0 ->
        Z.of_nat (length calls) <= int64_max ->
        fst (HTTPClient_issued c calls) = countFrom1 (length calls)
        /\ StronglySorted Z.lt (fst (HTTPClient_issued c calls))
        /\ (forall pre method params post,
              calls = pre ++ (method, params) :: post ->
              fst (HTTPClient_emitted c calls) !! length pre
              = Some
                  match json_Marshal
                          (JSONRPCRequest.mk "2.0" (Z.of_nat (length pre) + 1)
                             method params)
                  with
                  | Ok data =>
                      match http_NewRequest "POST" (endpoint c) data with
                      | None => [(endpoint c, data)]
                      | Some _ => []
                      end
                  | Err _ => []
                  end)
        /\ HTTPClient.posted (snd (HTTPClient_emitted c calls))
           = HTTPClient.posted c
             ++ concat (fst (HTTPClient_emitted c calls))).
Proof.
  split; intros c calls Hc Hlen.
  - assert (Hids : fst (Client_issued c calls) = countFrom1 (length calls)).
    { apply issued_fresh; auto.
      intros. apply Client_sendRequest_requestID. }
    rewrite Hids. split_and!; auto using countFrom1_sorted.
    + intros pre method params post -> before.
      unfold Client_emitted.
      rewrite (emitted_at _ _ _
                 (fun c0 m p =>
                    proj2 (proj2 (Client_sendRequest_written c0 m p)))).
      fold (Client_emitted c pre). fold before.
      assert (Hid : atomic_AddInt64 (Client.requestID before) 1
                    = Z.of_nat (length pre) + 1).
      { subst before. unfold Client_emitted.
        rewrite (emitted_snd _ _ Client.requestID).
        apply issued_counter; auto.
        - intros. apply Client_sendRequest_requestID.
        - rewrite length_app in Hlen. cbn [length] in Hlen. lia. }
      assert (Hcl : io.closed (Client.stdin before)
                    = io.closed (Client.stdin c)).
      { subst before. unfold Client_emitted.
        apply (emitted_frame _ _ (fun c0 => io.closed (Client.stdin c0))).
        intros. apply Client_sendRequest_written. }
      assert (Hac : io.accepts (Client.stdin before)
                    = io.accepts (Client.stdin c)).
      { subst before. unfold Client_emitted.
        apply (emitted_frame _ _ (fun c0 => io.accepts (Client.stdin c0))).
        intros. apply Client_sendRequest_written. }
      rewrite Hid, Hcl, Hac. reflexivity.
    + unfold Client_emitted.
      apply (emitted_concat _ (fun c0 => io.written (Client.stdin c0)) _
               (fun c0 m p =>
                  proj2 (proj2 (Client_sendRequest_written c0 m p)))).
  - assert (Hids : fst (HTTPClient_issued c calls) = countFrom1 (length calls)).
    { apply issued_fresh; auto.
      intros. apply HTTPClient_sendRequest_requestID. }
    rewrite Hids. split_and!; auto using countFrom1_sorted.
    + intros pre method params post ->.
      unfold HTTPClient_emitted.
      rewrite (emitted_at _ _ _
                 (fun c0 m p =>
                    proj2 (HTTPClient_sendRequest_posted c0 m p))).
      fold (HTTPClient_emitted c pre).
      assert (Hid : atomic_AddInt64
                      (HTTPClient.requestID (snd (HTTPClient_emitted c pre))) 1
                    = Z.of_nat (length pre) + 1).
      { unfold HTTPClient_emitted.
        rewrite (emitted_snd _ _ HTTPClient.requestID).
        apply issued_counter; auto.
        - intros. apply HTTPClient_sendRequest_requestID.
        - rewrite length_app in Hlen. cbn [length] in Hlen. lia. }
      assert (He : endpoint (snd (HTTPClient_emitted c pre)) = endpoint c).
      { unfold HTTPClient_emitted. apply (emitted_frame _ _ endpoint).
        intros. apply HTTPClient_sendRequest_posted. }
      rewrite Hid, He. reflexivity.
    + unfold HTTPClient_emitted.
      apply (emitted_concat _ HTTPClient.posted _
               (fun c0 m p =>
                  proj2 (HTTPClient_sendRequest_posted c0 m p))).
Qed.
End Identifiers.

(* ================================================================= *)
(** ** Loading the configuration; routing a call *)

Section Loading.
Context `{GoLib}.

(** C9.  [LoadMCPConfig] on a path whose file does not exist (reading
    it fails with an error [os.IsNotExist] recognises) returns a
    configuration with an empty server map, which is not nil, and no
    error; on a file whose content does not decode as a configuration
    it returns the decoder's error and no configuration.  The path is
    the one the function reads: a leading [~] stands for the home
    directory. *)
Theorem LoadMCPConfig_missing_or_malformed env path p :
  expandHome env path = Some p ->
  (forall e,
     os_ReadFile env p = Err e -> os_IsNotExist e = true ->
     LoadMCPConfig env path = Ok (MCPConfig.mk (Some ∅)))
  /\ (forall data e,
        os_ReadFile env p = Ok data ->
        json_Unmarshal_MCPConfig data = Err e ->
        LoadMCPConfig env path = Err e).
Proof.
  intros Hp. unfold LoadMCPConfig. rewrite Hp. split.
  - intros e Hr He. rewrite Hr, He. reflexivity.
  - intros data e Hr He. rewrite Hr, He. reflexivity.
Qed.

(** C3.  [ExecuteTool] on a name that is not in the routing table
    returns the unknown-tool error and leaves the world as it was: no
    connection is called and nothing is added to the trace.  On a name
    the table maps to a connection it returns what [CallTool] of that
    connection returns for the same name and arguments, result or
    error alike, and the connection is left in the state [CallTool]
    put it in. *)
Theorem ExecuteTool_routes m w name args :
  (Manager.toolToClient m !! name = None ->
   Manager.ExecuteTool m w name args
   = (Err (fmt_Errorf "unknown MCP tool: %s" [ArgStr name]), w))
  /\ (forall r client,
        Manager.toolToClient m !! name = Some r ->
        heap w !! r = Some client ->
        let out := Manager.ExecuteTool m w name args in
        fst out = fst (CallTool client name args)
        /\ heap (snd out) = <[r := snd (CallTool client name args)]> (heap w)
        /\ trace (snd out) = trace w ++ [Call r (MCallTool name args)]).
Proof.
  unfold Manager.ExecuteTool. split.
  - intros ->. reflexivity.
  - intros r client -> ->.
    destruct (CallTool client name args) as [res client']. cbn. auto.
Qed.
End Loading.

(* ================================================================= *)
(** ** The loop of the manager *)

Section Loop.
Context `{GoLib}.

Lemma mapTools_clients tools : forall m r,
  Manager.clients (Manager.mapTools m r tools) = Manager.clients m.
Proof.
  unfold Manager.mapTools.
  induction tools as [|x tools IH]; intros m r; cbn [fold_left].
  - reflexivity.
  - rewrite IH. reflexivity.
Qed.

Lemma mapTools_lookup tools : forall m r t,
  Manager.toolToClient (Manager.mapTools m r tools) !! t
  = if decide (t ∈ toolNames tools) then Some r
    else Manager.toolToClient m !! t.
Proof.
  unfold Manager.mapTools, toolNames.
  induction tools as [|x tools IH]; intros m r t; cbn [fold_left map].
  - destruct (decide _) as [Hin|]; [|reflexivity]. inversion Hin.
  - rewrite IH. cbn [Manager.toolToClient].
    destruct (decide (t ∈ map MCPTool.Name tools)) as [Hin|Hnin].
    + rewrite decide_True by (right; exact Hin). reflexivity.
    + destruct (decide (t = MCPTool.Name x)) as [->|Hne].
      * rewrite lookup_insert_eq, decide_True by left. reflexivity.
      * rewrite lookup_insert_ne by congruence.
        rewrite decide_False; [reflexivity|].
        intros Hin. inversion Hin; subst; congruence.
Qed.

(** The loop body, by what becomes of the server. *)
Lemma loadServer_startup env m w name cfg :
  let r := fresh (dom (heap w)) in
  Manager.loadServer env (m, w) (name, cfg)
  = match startup env name cfg with
    | Unsupported =>
        (m, log_Printf w
              "Warning: unsupported transport type %s for MCP server %s"
              [ArgStr (MCPServerConfig.Type_ cfg); ArgStr name])
    | StartFailed err =>
        (m, log_Printf w "Warning: failed to start MCP server %s: %v"
              [ArgStr name; ArgErr err])
    | InitializeFailed err closed =>
        (m, store (emit w
              [Call r MInitialize;
               Log "Warning: failed to initialize MCP server %s: %v"
                   [ArgStr name; ArgErr err];
               Call r MClose]) r closed)
    | ListToolsFailed err closed =>
        (m, store (emit w
              [Call r MInitialize; Call r MListTools;
               Log "Warning: failed to list tools from MCP server %s: %v"
                   [ArgStr name; ArgErr err];
               Call r MClose]) r closed)
    | Ready tools client =>
        (Manager.mapTools
           (Manager.mk (<[name := r]> (Manager.clients m))
              (Manager.toolToClient m)) r tools,
         store (emit w
              [Call r MInitialize; Call r MListTools;
               Log "Loaded %d tools from MCP server %s"
                   [ArgInt (Z.of_nat (length tools)); ArgStr name]]) r client)
    end.
Proof.
  cbv zeta. unfold Manager.loadServer, startup.
  destruct (Manager.newClient env name cfg) as [[client|err]|];
    [|reflexivity|reflexivity].
  destruct (Initialize client) as [[err|] client1]; [reflexivity|].
  destruct (ListTools client1) as [[tools|err] client2]; reflexivity.
Qed.

Lemma Loaded_nil env m w : Loaded env [] m w m w.
Proof.
  split; try (intros; set_solver); eauto.
Qed.

Lemma fresh_heap (w : World) : fresh (dom (heap w)) ∉ dom (heap w).
Proof. apply is_fresh. Qed.

Lemma elem_of_singleton_entry (x y : string * MCPServerConfig.t) :
  x ∈ [y] -> x = y.
Proof. intros Hx. apply list_elem_of_singleton in Hx. exact Hx. Qed.

Lemma Loaded_skip env m w name cfg w1 :
  isReady (startup env name cfg) = false ->
  (forall r, r ∈ dom (heap w) -> heap w1 !! r = heap w !! r) ->
  (forall ev, ev ∈ trace w -> ev ∈ trace w1) ->
  (forall err client,
     startup env name cfg = InitializeFailed err client
     \/ startup env name cfg = ListToolsFailed err client ->
     exists r, (r ∉ dom (heap w)) /\ heap w1 !! r = Some client
               /\ Call r MClose ∈ trace w1) ->
  Loaded env [(name, cfg)] m w m w1.
Proof.
  intros Hnr Hframe Htrace Hclosed. split; auto.
  - intros name' cfg' tools client Hin Hst.
    apply elem_of_singleton_entry in Hin as [= -> ->].
    rewrite Hst in Hnr. discriminate.
  - intros t r Ht. exists r. auto.
  - intros name' cfg' err client Hin Hst.
    apply elem_of_singleton_entry in Hin as [= -> ->].
    destruct (Hclosed err client Hst) as (r & Hr1 & Hr2 & Hr3).
    exists r. auto.
Qed.

Lemma Loaded_step env m w name cfg :
  Loaded env [(name, cfg)] m w
    (Manager.loadServer env (m, w) (name, cfg)).1
    (Manager.loadServer env (m, w) (name, cfg)).2.
Proof.
  rewrite loadServer_startup. cbv zeta.
  pose proof (fresh_heap w) as Hfresh.
  set (r := fresh (dom (heap w))) in *.
  assert (Hframe : forall c r', r' ∈ dom (heap w) ->
                     <[r := c]> (heap w) !! r' = heap w !! r').
  { intros c r' Hr'. apply lookup_insert_ne. intros ->. contradiction. }
  destruct (startup env name cfg) as [|err|err closed|err closed|tools client]
    eqn:Hst; cbn [fst snd].
  - apply Loaded_skip;
      [rewrite Hst; reflexivity | intros r' Hr'; cbn; auto
      | intros ev Hev; cbn; apply elem_of_app; auto |].
    intros err client [?|?]; congruence.
  - apply Loaded_skip;
      [rewrite Hst; reflexivity | intros r' Hr'; cbn; auto
      | intros ev Hev; cbn; apply elem_of_app; auto |].
    intros err0 client [?|?]; congruence.
  - apply Loaded_skip;
      [rewrite Hst; reflexivity | intros r' Hr'; cbn; auto
      | intros ev Hev; cbn; apply elem_of_app; auto |].
    intros err0 client [Heq|Heq]; rewrite Hst in Heq; [|discriminate].
    injection Heq as <- <-.
    exists r. cbn. rewrite lookup_insert_eq. split_and!; auto.
    apply elem_of_app. right. set_solver.
  - apply Loaded_skip;
      [rewrite Hst; reflexivity | intros r' Hr'; cbn; auto
      | intros ev Hev; cbn; apply elem_of_app; auto |].
    intros err0 client [Heq|Heq]; rewrite Hst in Heq; [discriminate|].
    injection Heq as <- <-.
    exists r. cbn. rewrite lookup_insert_eq. split_and!; auto.
    apply elem_of_app. right. set_solver.
  - split.
    + intros name' Hn. rewrite mapTools_clients. cbn.
      apply lookup_insert_ne. set_solver.
    + intros name' cfg' tools' client' Hin Hst'.
      apply elem_of_singleton_entry in Hin as [= -> ->].
      rewrite Hst in Hst'. injection Hst' as <- <-.
      exists r. rewrite mapTools_clients. cbn.
      rewrite !lookup_insert_eq. split_and!; auto.
      intros t Ht. exists r. rewrite mapTools_lookup, decide_True by done.
      auto.
    + intros name' cfg' Hin Hnr.
      apply elem_of_singleton_entry in Hin as [= -> ->].
      rewrite Hst in Hnr. discriminate.
    + intros t r' Ht. rewrite mapTools_lookup in Ht.
      destruct (decide (t ∈ toolNames tools)) as [Hin|Hnin].
      * injection Ht as <-. right. exists name, cfg, tools, client.
        rewrite mapTools_clients. cbn. rewrite lookup_insert_eq.
        split_and!; auto. left.
      * left. exact Ht.
    + intros t Ht. rewrite mapTools_lookup, decide_False; [reflexivity|].
      apply (Ht name cfg tools client); [left|exact Hst].
    + intros t r' Ht. rewrite mapTools_lookup.
      destruct (decide _); eauto.
    + intros r' Hr'. cbn. auto.
    + intros ev Hev. cbn. apply elem_of_app. auto.
    + intros name' cfg' err client' Hin Hst'.
      apply elem_of_singleton_entry in Hin as [= -> ->].
      rewrite Hst in Hst'. destruct Hst'; discriminate.
Qed.

Lemma Loaded_dom env l m w m' w' r :
  Loaded env l m w m' w' -> r ∈ dom (heap w) -> r ∈ dom (heap w').
Proof.
  intros HL Hr. apply elem_of_dom. rewrite (loaded_frame _ _ _ _ _ _ HL r Hr).
  apply elem_of_dom. exact Hr.
Qed.

(** A pointer in the client set after the loop was there before it or
    is new. *)
Lemma Loaded_client env l m w m' w' n r :
  Loaded env l m w m' w' ->
  Manager.clients m' !! n = Some r ->
  Manager.clients m !! n = Some r \/ r ∉ dom (heap w).
Proof.
  intros HL Hn.
  destruct (decide (n ∈ l.*1)) as [Hin|Hnin].
  - apply list_elem_of_fmap in Hin as ([n' cfg] & -> & Hin). cbn in Hn |- *.
    destruct (startup env n' cfg) as [| | | |tools client] eqn:Hst.
    5: { destruct (loaded_ready _ _ _ _ _ _ HL n' cfg tools client Hin Hst)
           as (r0 & Hr0 & _ & Hfresh & _).
         right. congruence. }
    all: left; rewrite <- (loaded_failed _ _ _ _ _ _ HL n' cfg Hin);
      [exact Hn | rewrite Hst; reflexivity].
  - left. rewrite <- (loaded_other _ _ _ _ _ _ HL n Hnin). exact Hn.
Qed.

Lemma Loaded_app env l1 l2 m w m1 w1 m2 w2 :
  NoDup (l1 ++ l2).*1 ->
  Loaded env l1 m w m1 w1 -> Loaded env l2 m1 w1 m2 w2 ->
  Loaded env (l1 ++ l2) m w m2 w2.
Proof.
  intros Hnd H1 H2.
  rewrite fmap_app in Hnd. apply NoDup_app in Hnd as (Hnd1 & Hdisj & Hnd2).
  assert (Hdom : forall r, r ∈ dom (heap w) -> r ∈ dom (heap w1))
    by (intros r; eapply Loaded_dom; eauto).
  assert (Hl1 : forall name cfg, (name, cfg) ∈ l1 -> name ∉ l2.*1).
  { intros name cfg Hin. apply Hdisj.
    apply list_elem_of_fmap. exists (name, cfg). auto. }
  split.
  - intros name Hn. rewrite fmap_app in Hn.
    apply not_elem_of_app in Hn as [Hn1 Hn2].
    rewrite (loaded_other _ _ _ _ _ _ H2) by assumption.
    apply (loaded_other _ _ _ _ _ _ H1). assumption.
  - intros name cfg tools client Hin Hst.
    apply elem_of_app in Hin as [Hin|Hin].
    + destruct (loaded_ready _ _ _ _ _ _ H1 _ _ _ _ Hin Hst)
        as (r & Hr & Hheap & Hfresh & Htools).
      exists r. split_and!; auto.
      * rewrite (loaded_other _ _ _ _ _ _ H2); eauto.
      * rewrite (loaded_frame _ _ _ _ _ _ H2); auto.
        apply elem_of_dom. eauto.
      * intros t Ht. destruct (Htools t Ht) as (r1 & Hr1 & Hf1).
        destruct (loaded_kept _ _ _ _ _ _ H2 t r1 Hr1) as (r2 & Hr2 & [Heq|Hf2]);
          exists r2; (split; [exact Hr2|]); [subst r2; exact Hf1|auto].
    + destruct (loaded_ready _ _ _ _ _ _ H2 _ _ _ _ Hin Hst)
        as (r & Hr & Hheap & Hfresh & Htools).
      exists r. split_and!; auto.
      intros t Ht. destruct (Htools t Ht) as (r1 & Hr1 & Hf1).
      exists r1. split; auto.
  - intros name cfg Hin Hnr.
    apply elem_of_app in Hin as [Hin|Hin].
    + rewrite (loaded_other _ _ _ _ _ _ H2) by eauto.
      eapply (loaded_failed _ _ _ _ _ _ H1); eauto.
    + rewrite (loaded_failed _ _ _ _ _ _ H2 _ _ Hin Hnr).
      apply (loaded_other _ _ _ _ _ _ H1).
      intros Hn. apply list_elem_of_fmap in Hn as ([n c] & Heq & Hn).
      cbn in Heq. subst n. apply (Hl1 _ _ Hn).
      apply list_elem_of_fmap. exists (name, cfg). auto.
  - intros t r Ht.
    destruct (loaded_tool _ _ _ _ _ _ H2 t r Ht)
      as [Ht1|(name & cfg & tools & client & Hin & Hst & Hc & Hn & Hf)].
    + destruct (loaded_tool _ _ _ _ _ _ H1 t r Ht1)
        as [Ht0|(name & cfg & tools & client & Hin & Hst & Hc & Hn & Hf)];
        [left; exact Ht0|].
      right. exists name, cfg, tools, client. split_and!; auto.
      * apply elem_of_app. auto.
      * rewrite (loaded_other _ _ _ _ _ _ H2); eauto.
    + right. exists name, cfg, tools, client. split_and!; auto.
      apply elem_of_app. auto.
  - intros t Ht.
    rewrite (loaded_untouched _ _ _ _ _ _ H2).
    + apply (loaded_untouched _ _ _ _ _ _ H1).
      intros name cfg tools client Hin. apply Ht. apply elem_of_app. auto.
    + intros name cfg tools client Hin. apply Ht. apply elem_of_app. auto.
  - intros t r Ht.
    destruct (loaded_kept _ _ _ _ _ _ H1 t r Ht) as (r1 & Hr1 & Hor1).
    destruct (loaded_kept _ _ _ _ _ _ H2 t r1 Hr1) as (r2 & Hr2 & Hor2).
    exists r2. split; [exact Hr2|].
    destruct Hor2 as [Heq|Hf2]; [subst r2; exact Hor1|]. right. auto.
  - intros r Hr.
    rewrite (loaded_frame _ _ _ _ _ _ H2) by auto.
    apply (loaded_frame _ _ _ _ _ _ H1). exact Hr.
  - intros ev Hev.
    apply (loaded_trace _ _ _ _ _ _ H2), (loaded_trace _ _ _ _ _ _ H1), Hev.
  - intros name cfg err client Hin Hst.
    apply elem_of_app in Hin as [Hin|Hin].
    + destruct (loaded_closed _ _ _ _ _ _ H1 _ _ _ _ Hin Hst)
        as (r & Hf & Hheap & Hcall & Htool & Hcl).
      assert (Hr1 : r ∈ dom (heap w1)) by (apply elem_of_dom; eauto).
      exists r. split_and!; auto.
      * rewrite (loaded_frame _ _ _ _ _ _ H2); auto.
      * apply (loaded_trace _ _ _ _ _ _ H2). exact Hcall.
      * intros t Ht. apply Htool.
        destruct (loaded_tool _ _ _ _ _ _ H2 t r Ht)
          as [Ht1|(? & ? & ? & ? & _ & _ & _ & _ & Hf2)];
          [exact Ht1|contradiction].
      * intros n Hn. apply Hcl.
        destruct (Loaded_client _ _ _ _ _ _ n r H2 Hn); [auto|contradiction].
    + destruct (loaded_closed _ _ _ _ _ _ H2 _ _ _ _ Hin Hst)
        as (r & Hf & Hheap & Hcall & Htool & Hcl).
      exists r. split_and!; auto.
      * intros t Ht. specialize (Htool t Ht).
        destruct (loaded_tool _ _ _ _ _ _ H1 t r Htool)
          as [Ht0|(n & c & ts & cl & Hin1 & Hst1 & Hc1 & _)];
          [exact Ht0|].
        destruct (loaded_ready _ _ _ _ _ _ H1 _ _ _ _ Hin1 Hst1)
          as (r0 & Hr0 & Hheap0 & _).
        exfalso. apply Hf. apply elem_of_dom.
        replace r with r0 by congruence. eauto.
      * intros n Hn. specialize (Hcl n Hn).
        destruct (Loaded_client _ _ _ _ _ _ n r H1 Hcl) as [|Hnew]; [auto|].
        destruct (decide (n ∈ l1.*1)) as [Hn1|Hn1].
        -- apply list_elem_of_fmap in Hn1 as ([n' c] & -> & Hn1). cbn in *.
           destruct (startup env n' c) as [| | | |ts cl] eqn:Hst1.
           5: { destruct (loaded_ready _ _ _ _ _ _ H1 _ _ _ _ Hn1 Hst1)
                  as (r0 & Hr0 & Hheap0 & _).
                exfalso. apply Hf. apply elem_of_dom.
                replace r with r0 by congruence. eauto. }
           all: rewrite <- (loaded_failed _ _ _ _ _ _ H1 n' c Hn1);
             [exact Hcl | rewrite Hst1; reflexivity].
        -- rewrite <- (loaded_other _ _ _ _ _ _ H1 n Hn1). exact Hcl.
Qed.

(** The loop of [LoadFromConfig] over servers with distinct names. *)
Lemma Loaded_fold env l : forall m w,
  NoDup l.*1 ->
  Loaded env l m w (fold_left (Manager.loadServer env) l (m, w)).1
                   (fold_left (Manager.loadServer env) l (m, w)).2.
Proof.
  induction l as [|[name cfg] l IH]; intros m w Hnd.
  - apply Loaded_nil.
  - cbn [fold_left].
    change ((name, cfg) :: l) with ([(name, cfg)] ++ l).
    destruct (Manager.loadServer env (m, w) (name, cfg)) as [m1 w1] eqn:Hstep.
    eapply Loaded_app; [exact Hnd| |].
    + pose proof (Loaded_step env m w name cfg) as Hs.
      rewrite Hstep in Hs. exact Hs.
    + apply IH. cbn in Hnd. apply NoDup_cons in Hnd as [_ Hnd]. exact Hnd.
Qed.

Lemma Close_isClosed (c : Conn) : isClosed (snd (Close c)).
Proof. destruct c as [c|c]; cbn; auto. Qed.

Lemma startup_failed_isClosed env name cfg err client :
  startup env name cfg = InitializeFailed err client
  \/ startup env name cfg = ListToolsFailed err client ->
  isClosed client.
Proof.
  unfold startup.
  destruct (Manager.newClient env name cfg) as [[c|e]|];
    [|intros [?|?]; discriminate..].
  destruct (Initialize c) as [[e|] c1].
  { intros [[= _ <-]|?]; [apply Close_isClosed|discriminate]. }
  destruct (ListTools c1) as [[tools|e] c2].
  { intros [?|?]; discriminate. }
  intros [?|[= _ <-]]; [discriminate|apply Close_isClosed].
Qed.

(** [ExecuteTool] on a name the routing table knows. *)
Lemma ExecuteTool_known m w name args r client :
  Manager.toolToClient m !! name = Some r ->
  heap w !! r = Some client ->
  Manager.ExecuteTool m w name args
  = (fst (CallTool client name args),
     store (emit w [Call r (MCallTool name args)]) r
       (snd (CallTool client name args))).
Proof.
  intros Ht Hh. unfold Manager.ExecuteTool. rewrite Ht, Hh.
  destruct (CallTool client name args). reflexivity.
Qed.

(** [LoadFromConfig] once the configuration is read. *)
Lemma LoadFromConfig_loaded env m w path servers :
  LoadMCPConfig env path = Ok (MCPConfig.mk (Some servers)) ->
  Manager.LoadFromConfig env m w path
  = (None,
     fold_left (Manager.loadServer env) (range_MCPServers env servers) (m, w)).
Proof.
  intros Hc. unfold Manager.LoadFromConfig. rewrite Hc. reflexivity.
Qed.

Lemma range_NoDup env (servers : gmap string MCPServerConfig.t) :
  range_MCPServers env servers ≡ₚ map_to_list servers ->
  NoDup (range_MCPServers env servers).*1.
Proof. intros ->. apply NoDup_fst_map_to_list. Qed.

Lemma range_elem_of env (servers : gmap string MCPServerConfig.t) name cfg :
  range_MCPServers env servers ≡ₚ map_to_list servers ->
  (name, cfg) ∈ range_MCPServers env servers <-> servers !! name = Some cfg.
Proof. intros ->. apply elem_of_map_to_list. Qed.

Lemma size_surviving_failing env (servers : gmap string MCPServerConfig.t) :
  (size (surviving env servers) + size (failing env servers))%nat
  = size servers.
Proof.
  unfold surviving, failing.
  rewrite <- (map_filter_union_complement
                (fun kv => isReady (startup env kv.1 kv.2) = true) servers)
    at 3.
  rewrite map_size_disj_union by apply map_disjoint_filter_complement.
  f_equal. f_equal. apply map_filter_ext. intros name cfg _. cbn.
  destruct (isReady _); split; congruence.
Qed.
End Loop.

(* ================================================================= *)
(** ** Properties of the manager *)

Section ManagerProperties.
Context `{GoLib}.

(** C1.  For a configuration of N servers of which k fail at some
    stage (the transport type is not supported or the client cannot be
    built, [initialize] fails, or [tools/list] fails),
    [LoadFromConfig] on a new manager returns no error; its client set
    holds exactly the N - k surviving connections, each in the state
    discovery left it in; its routing table holds every tool of a
    survivor and nothing else, each entry pointing to a registered
    survivor that lists the tool; and a connection that failed after
    it was built has been closed and appears in neither map.  A
    failing server does not stop the loop: every survivor is
    registered, wherever it comes in the order of the loop. *)
Theorem LoadFromConfig_partial_failure env w path servers :
  LoadMCPConfig env path = Ok (MCPConfig.mk (Some servers)) ->
  range_MCPServers env servers ≡ₚ map_to_list servers ->
  let out := Manager.LoadFromConfig env Manager.NewManager w path in
  let m' := out.2.1 in
  let w' := out.2.2 in
  out.1 = None
  /\ size (Manager.clients m')
     = (size servers - size (failing env servers))%nat
  /\ dom (Manager.clients m') = dom (surviving env servers)
  /\ (forall name cfg tools client,
        servers !! name = Some cfg ->
        startup env name cfg = Ready tools client ->
        exists r, Manager.clients m' !! name = Some r
                  /\ heap w' !! r = Some client
                  /\ forall t, t ∈ toolNames tools ->
                       is_Some (Manager.toolToClient m' !! t))
  /\ (forall t r,
        Manager.toolToClient m' !! t = Some r ->
        exists name cfg tools client,
          servers !! name = Some cfg
          /\ startup env name cfg = Ready tools client
          /\ Manager.clients m' !! name = Some r
          /\ heap w' !! r = Some client
          /\ t ∈ toolNames tools)
  /\ (forall name cfg err client,
        servers !! name = Some cfg ->
        startup env name cfg = InitializeFailed err client
        \/ startup env name cfg = ListToolsFailed err client ->
        isClosed client
        /\ exists r, Call r MClose ∈ trace w'
                     /\ heap w' !! r = Some client
                     /\ (forall t, Manager.toolToClient m' !! t <> Some r)
                     /\ (forall n, Manager.clients m' !! n <> Some r)).
Proof.
  intros Hcfg Hperm out m' w'.
  pose proof (Loaded_fold env (range_MCPServers env servers)
                Manager.NewManager w (range_NoDup _ _ Hperm)) as HL.
  assert (Hout : out = (None, (m', w'))).
  { subst m' w' out. rewrite (LoadFromConfig_loaded _ _ _ _ _ Hcfg).
    cbn [fst snd]. destruct (fold_left _ _ _). reflexivity. }
  assert (Hfold : fold_left (Manager.loadServer env)
                    (range_MCPServers env servers) (Manager.NewManager, w)
                  = (m', w')).
  { subst m' w' out. rewrite (LoadFromConfig_loaded _ _ _ _ _ Hcfg).
    cbn [fst snd]. destruct (fold_left _ _ _). reflexivity. }
  rewrite Hfold in HL. cbn [fst snd] in HL. clearbody m' w'. clear Hfold.
  assert (Hin : forall name cfg,
            (name, cfg) ∈ range_MCPServers env servers
            <-> servers !! name = Some cfg)
    by (intros; apply range_elem_of; assumption).
  assert (Hdom : dom (Manager.clients m') = dom (surviving env servers)).
  { apply set_eq. intros name. rewrite !elem_of_dom. unfold surviving. split.
    - intros [r Hr].
      destruct (decide (name ∈ (range_MCPServers env servers).*1))
        as [Hn|Hn].
      + apply list_elem_of_fmap in Hn as ([n cfg] & -> & Hn). cbn in Hr |- *.
        exists cfg. apply map_lookup_filter_Some. split; [apply Hin, Hn|].
        cbn. destruct (isReady (startup env n cfg)) eqn:Hst; [reflexivity|].
        rewrite (loaded_failed _ _ _ _ _ _ HL n cfg Hn Hst) in Hr.
        cbn in Hr. rewrite lookup_empty in Hr. discriminate.
      + rewrite (loaded_other _ _ _ _ _ _ HL name Hn) in Hr.
        cbn in Hr. rewrite lookup_empty in Hr. discriminate.
    - intros [cfg Hs]. apply map_lookup_filter_Some in Hs as [Hs Hr].
      cbn in Hr.
      destruct (startup env name cfg) as [| | | |tools client] eqn:Hst;
        try discriminate.
      apply Hin in Hs.
      destruct (loaded_ready _ _ _ _ _ _ HL _ _ _ _ Hs Hst) as (r & Hc & _).
      eauto. }
  rewrite Hout. cbn [fst snd]. split_and!.
  - reflexivity.
  - rewrite <- (size_dom (D := gset string)), Hdom, size_dom.
    pose proof (size_surviving_failing env servers). lia.
  - exact Hdom.
  - intros name cfg tools client Hs Hst. apply Hin in Hs.
    destruct (loaded_ready _ _ _ _ _ _ HL _ _ _ _ Hs Hst)
      as (r & Hc & Hh & _ & Ht).
    exists r. split_and!; auto.
    intros t Hin_t. destruct (Ht t Hin_t) as (r' & Hr' & _). eauto.
  - intros t r Ht.
    destruct (loaded_tool _ _ _ _ _ _ HL t r Ht)
      as [Hempty|(name & cfg & tools & client & Hs & Hst & Hc & Hn & _)].
    { cbn in Hempty. rewrite lookup_empty in Hempty. discriminate. }
    destruct (loaded_ready _ _ _ _ _ _ HL _ _ _ _ Hs Hst)
      as (r0 & Hc0 & Hh & _).
    exists name, cfg, tools, client. split_and!; auto.
    + apply Hin, Hs.
    + replace r with r0 by congruence. exact Hh.
  - intros name cfg err client Hs Hst. apply Hin in Hs.
    split; [eapply startup_failed_isClosed; eauto|].
    destruct (loaded_closed _ _ _ _ _ _ HL _ _ _ _ Hs Hst)
      as (r & _ & Hh & Hcall & Htool & Hcl).
    exists r. split_and!; auto.
    + intros t Ht. apply Htool in Ht. cbn in Ht.
      rewrite lookup_empty in Ht. discriminate.
    + intros n Hn. apply Hcl in Hn. cbn in Hn.
      rewrite lookup_empty in Hn. discriminate.
Qed.

(** C2.  When two connections that complete discovery both list a tool
    of the same name, the routing table after [LoadFromConfig] maps
    the name to one connection: the one the loop came to later (no
    survivor after it lists the name), which is not the earlier one;
    and [ExecuteTool] on that name calls [CallTool] of that later
    connection. *)
Theorem LoadFromConfig_last_writer_wins
    env w path servers l0 a ca l1 b cb l2 toolsA clientA toolsB clientB t args :
  LoadMCPConfig env path = Ok (MCPConfig.mk (Some servers)) ->
  range_MCPServers env servers ≡ₚ map_to_list servers ->
  range_MCPServers env servers = l0 ++ (a, ca) :: l1 ++ (b, cb) :: l2 ->
  startup env a ca = Ready toolsA clientA ->
  startup env b cb = Ready toolsB clientB ->
  t ∈ toolNames toolsA ->
  t ∈ toolNames toolsB ->
  (forall n c ts cl,
     (n, c) ∈ l2 -> startup env n c = Ready ts cl -> t ∉ toolNames ts) ->
  let out := Manager.LoadFromConfig env Manager.NewManager w path in
  let m' := out.2.1 in
  let w' := out.2.2 in
  exists ra rb,
    Manager.clients m' !! a = Some ra
    /\ Manager.clients m' !! b = Some rb
    /\ ra <> rb
    /\ heap w' !! ra = Some clientA
    /\ heap w' !! rb = Some clientB
    /\ Manager.toolToClient m' !! t = Some rb
    /\ (Manager.ExecuteTool m' w' t args).1 = (CallTool clientB t args).1
    /\ trace (Manager.ExecuteTool m' w' t args).2
       = trace w' ++ [Call rb (MCallTool t args)].
Proof.
  intros Hcfg Hperm Hord HstA HstB HtA HtB Hlast out m' w'.
  pose proof (range_NoDup _ _ Hperm) as Hnd. rewrite Hord in Hnd.
  subst m' w' out. rewrite (LoadFromConfig_loaded _ _ _ _ _ Hcfg), Hord.
  cbn [fst snd].
  replace (l0 ++ (a, ca) :: l1 ++ (b, cb) :: l2)
    with ((l0 ++ (a, ca) :: l1) ++ [(b, cb)] ++ l2) in *
    by (rewrite <- !app_assoc; reflexivity).
  remember (l0 ++ (a, ca) :: l1) as pre eqn:Hpre.
  rewrite !fold_left_app.
  rewrite fmap_app in Hnd. apply NoDup_app in Hnd as (Hnd0 & Hdisj & Hnd12).
  pose proof (Loaded_fold env pre Manager.NewManager w Hnd0) as HL0.
  destruct (fold_left (Manager.loadServer env) pre (Manager.NewManager, w))
    as [m0 w0]. cbn [fst snd] in HL0.
  assert (Hnd2 : NoDup l2.*1).
  { rewrite fmap_app in Hnd12. apply NoDup_app in Hnd12 as (_ & _ & ?). auto. }
  assert (Hb2 : b ∉ l2.*1).
  { rewrite fmap_app in Hnd12. apply NoDup_app in Hnd12 as (_ & Hd & _).
    apply Hd. cbn. left. }
  assert (Ha : (a, ca) ∈ pre) by (rewrite Hpre; apply elem_of_app; right; left).
  assert (Hab : a <> b).
  { intros ->. apply (Hdisj b).
    - apply list_elem_of_fmap. exists (b, ca). auto.
    - rewrite fmap_app. cbn. left. }
  assert (Ha2 : a ∉ l2.*1).
  { intros Hin. apply (Hdisj a).
    - apply list_elem_of_fmap. exists (a, ca). auto.
    - rewrite fmap_app. apply elem_of_app. auto. }
  destruct (loaded_ready _ _ _ _ _ _ HL0 _ _ _ _ Ha HstA)
    as (ra & Hca & Hha & _).
  cbn [fold_left]. rewrite loadServer_startup, HstB. cbv zeta.
  pose proof (fresh_heap w0) as Hfresh.
  set (rb := fresh (dom (heap w0))) in *.
  set (m1 := Manager.mapTools _ rb toolsB).
  set (w1 := store _ rb clientB).
  pose proof (Loaded_fold env l2 m1 w1 Hnd2) as HL2.
  destruct (fold_left (Manager.loadServer env) l2 (m1, w1)) as [m' w'].
  cbn [fst snd] in HL2 |- *.
  assert (Hrab : ra <> rb).
  { intros ->. apply Hfresh. apply elem_of_dom. eauto. }
  assert (Hcb : Manager.clients m' !! b = Some rb).
  { rewrite (loaded_other _ _ _ _ _ _ HL2 b Hb2). subst m1.
    rewrite mapTools_clients. cbn. apply lookup_insert_eq. }
  assert (Hhb : heap w' !! rb = Some clientB).
  { rewrite (loaded_frame _ _ _ _ _ _ HL2).
    - subst w1. cbn. apply lookup_insert_eq.
    - subst w1. cbn. apply elem_of_dom. rewrite lookup_insert_eq. eauto. }
  assert (Htb : Manager.toolToClient m' !! t = Some rb).
  { rewrite (loaded_untouched _ _ _ _ _ _ HL2 t Hlast). subst m1.
    rewrite mapTools_lookup, decide_True by assumption. reflexivity. }
  exists ra, rb. split_and!; auto.
  - rewrite (loaded_other _ _ _ _ _ _ HL2 a Ha2). subst m1.
    rewrite mapTools_clients. cbn. rewrite lookup_insert_ne by congruence.
    exact Hca.
  - rewrite (loaded_frame _ _ _ _ _ _ HL2).
    + subst w1. cbn. rewrite lookup_insert_ne by congruence. exact Hha.
    + subst w1. cbn. apply elem_of_dom.
      rewrite lookup_insert_ne by congruence. eauto.
  - rewrite (ExecuteTool_known _ _ _ _ _ _ Htb Hhb). reflexivity.
  - rewrite (ExecuteTool_known _ _ _ _ _ _ Htb Hhb). reflexivity.
Qed.
End ManagerProperties.

(* ================================================================= *)
(** ** Concrete runs *)

Section ConcreteRuns.
Import Examples.

Lemma noiseLines_noise :
  Forall (fun x => @noise RefLib.lib (rawLine x)) noiseLines.
Proof.
  unfold noiseLines. each idtac.
  - left. run.
  - right; left. run.
  - right; right; left. eexists. run_lhs.
  - right; right; right. eexists. split; [run_lhs|run].
Defined.

(** C7 on a stream with a blank line, a log line, a broken object and
    a notification before the response. *)
Lemma sendRequest_passes_over_noise_witness :
  let c := freshClient (feed (noiseLines ++ [resultLine1]) "trailing") in
  fst (@Client.sendRequest RefLib.lib c "tools/list" JNull) = Ok response1
  /\ bufio.pending
       (Client.stdout (snd (@Client.sendRequest RefLib.lib c "tools/list" JNull)))
     = "trailing".
Proof.
  cbv zeta.
  eapply (@sendRequest_passes_over_noise RefLib.lib _ "tools/list" JNull
            listRequest1 noiseLines resultLine1 "trailing" response1).
  - split_and!; run.
  - reflexivity.
  - cbn [app]. each run.
  - exact noiseLines_noise.
  - cbn. lia.
  - split_and!; [vm_compute; discriminate|run|run|run|run].
  - reflexivity.
Defined.

Lemma fiftyLogLines_passedOver id :
  Forall (fun x => @passedOver RefLib.lib id (rawLine x)) fiftyLogLines.
Proof.
  apply List.Forall_forall. intros x Hx. apply repeat_spec in Hx. subst x.
  left. right; left. run.
Defined.

(** C8 on a stream of fifty log lines followed by a late response. *)
Lemma sendRequest_attempt_cap_witness :
  let c := freshClient (feed fiftyLogLines resultLine1) in
  let out := @Client.sendRequest RefLib.lib c "tools/list" JNull in
  fst out
  = Err (fmt_Errorf "no response received after %d attempts" [ArgInt 50])
  /\ bufio.nreads (Client.stdout (snd out)) = 50%nat
  /\ bufio.pending (Client.stdout (snd out)) = resultLine1.
Proof.
  cbv zeta.
  edestruct (proj2 (@sendRequest_attempt_cap RefLib.lib
                      (freshClient (feed fiftyLogLines resultLine1))
                      "tools/list" JNull) listRequest1 fiftyLogLines
               resultLine1)
    as (Hres & _ & Hreads & Hrest).
  - split_and!; run.
  - reflexivity.
  - apply List.Forall_forall. intros x Hx. apply repeat_spec in Hx. subst x. run.
  - apply fiftyLogLines_passedOver.
  - reflexivity.
  - split_and!; [exact Hres|exact Hreads|exact Hrest].
Defined.

(** C4 as stated fails: the first inbound line decodes to an object
    with an [error] member (code -32000, for the identifier 7), and the
    call for the identifier 1 goes on to the next line and succeeds. *)
Lemma error_for_other_request_is_passed_over :
  @json_Unmarshal_JSONRPCResponse RefLib.lib
    (@bytes_TrimSpace RefLib.lib (rawLine errorLine7))
  = Ok (JSONRPCResponse.mk "2.0" 7 None
          (Some (JSONRPCError.mk (-32000) "boom")))
  /\ fst (@Client.sendRequest RefLib.lib
            (freshClient (feed [errorLine7; resultLine1] EmptyString))
            "tools/list" JNull)
     = Ok response1.
Proof. split; run. Qed.

(** C4, as the code has it, on a stream with the error for another
    request before the error for this one. *)
Lemma sendRequest_rpc_error_witness :
  fst (@Client.sendRequest RefLib.lib
         (freshClient (feed ([errorLine7] ++ [errorLine1]) EmptyString))
         "tools/list" JNull)
  = Err (fmt_Errorf "RPC error %d: %s"
           [ArgInt (-32601); ArgStr "no such method"]).
Proof.
  refine (proj1 (@sendRequest_rpc_error RefLib.lib _ "tools/list" JNull
                   listRequest1 [errorLine7] errorLine1 EmptyString
                   (JSONRPCResponse.mk "2.0" 1 None
                      (Some (JSONRPCError.mk (-32601) "no such method")))
                   (JSONRPCError.mk (-32601) "no such method")
                   _ _ _ _ _ _ _)).
  - split_and!; run.
  - reflexivity.
  - cbn [app]. each run.
  - each idtac. right. eexists. split; [run_lhs|vm_compute; discriminate].
  - cbn. lia.
  - split_and!; [vm_compute; discriminate|run|run|run|run].
  - reflexivity.
Defined.

(** C5 as stated fails on an HTTP connection: the request carries the
    identifier 1, the body of the reply carries 99, and the call
    returns that reply. *)
Lemma http_accepts_any_identifier :
  let out := @HTTPClient.sendRequest RefLib.lib (freshHTTPClient resultLine99)
               "tools/list" JNull in
  fst out = Ok response99
  /\ HTTPClient.requestID (snd out) = 1
  /\ HTTPClient.posted (snd out)
     = [("http://localhost:8080", listRequest1)].
Proof. cbv zeta. split_and!; run. Qed.

(** C5, as the code has it, on a process connection and on an HTTP
    connection. *)
Lemma accepted_response_identifier_witness :
  JSONRPCResponse.ID response1
  = atomic_AddInt64 (Client.requestID (freshClient (feed [resultLine1] EmptyString))) 1
  /\ fst (@HTTPClient.sendRequest RefLib.lib (freshHTTPClient resultLine99)
            "tools/list" JNull)
     = Ok response99.
Proof.
  split.
  - refine (proj1 (proj1 (@accepted_response_identifier RefLib.lib)
                     (freshClient (feed [resultLine1] EmptyString))
                     "tools/list" JNull response1 _)).
    run.
  - refine (proj2 (@accepted_response_identifier RefLib.lib)
              (freshHTTPClient resultLine99) "tools/list" JNull listRequest1
              resultLine99 response99 _ _ _ _ _); run.
Defined.

(** C6 as stated fails: on a new connection whose calls all fail (the
    process writes nothing), the call after 2^63 - 1 calls is given an
    identifier below the one before it, and the request it writes
    carries that identifier, -2^63. *)
Lemma request_id_wraps_around :
  let c := snd (@Client_issued RefLib.lib (freshClient EmptyString) manyCalls) in
  let c' := snd (@Client.sendRequest RefLib.lib c "tools/list" JNull) in
  Client.requestID c = int64_max
  /\ Client.requestID c' = int64_min
  /\ Client.requestID c' < Client.requestID c
  /\ io.written (Client.stdin c')
     = io.written (Client.stdin c)
       ++ [rawLine (RefLib.wire "{'jsonrpc':'2.0','id':-9223372036854775808,'method':'tools/list'}")].
Proof.
  cbv zeta.
  assert (Hc : Client.requestID
                 (snd (@Client_issued RefLib.lib (freshClient EmptyString)
                         manyCalls)) = int64_max).
  { unfold Client_issued.
    destruct (@issued_spec Client.t
                (fun c method params =>
                   snd (@Client.sendRequest RefLib.lib c method params))
                Client.requestID
                (@Client_sendRequest_requestID RefLib.lib)
                manyCalls (freshClient EmptyString)) as [_ Hlast].
    { reflexivity. }
    rewrite Hlast. unfold manyCalls. rewrite repeat_length.
    rewrite Z2Nat.id by (vm_compute; discriminate). reflexivity. }
  rewrite Client_sendRequest_requestID, Hc.
  split_and!; [reflexivity..|].
  destruct (@Client_sendRequest_written RefLib.lib
              (snd (@Client_issued RefLib.lib (freshClient EmptyString)
                      manyCalls)) "tools/list" JNull) as (_ & _ & ->).
  rewrite Hc. unfold Client_issued.
  rewrite <- (emitted_snd _ (fun c => io.written (Client.stdin c))).
  rewrite (emitted_frame _ _ (fun c => io.closed (Client.stdin c)))
    by (intros; apply Client_sendRequest_written).
  rewrite (emitted_frame _ _ (fun c => io.accepts (Client.stdin c)))
    by (intros; apply Client_sendRequest_written).
  reflexivity.
Qed.

(** C6, as the code has it, on three calls that fail and three that
    succeed: the identifiers, and the request the second call writes
    and the third call posts. *)
Lemma request_ids_count_up_witness :
  let calls :=
    [("initialize", JNull); ("tools/list", JNull); ("tools/call", JNull)] in
  (fst (@Client_issued RefLib.lib (freshClient EmptyString) calls) = [1; 2; 3]
   /\ fst (@Client_emitted RefLib.lib (freshClient EmptyString) calls)
        !! 1%nat
      = Some [rawLine (RefLib.wire "{'jsonrpc':'2.0','id':2,'method':'tools/list'}")])
  /\ (fst (@HTTPClient_issued RefLib.lib (freshHTTPClient resultLine99) calls)
      = [1; 2; 3]
      /\ fst (@HTTPClient_emitted RefLib.lib (freshHTTPClient resultLine99)
                calls) !! 2%nat
         = Some [("http://localhost:8080",
                  RefLib.wire "{'jsonrpc':'2.0','id':3,'method':'tools/call'}")]).
Proof.
  cbv zeta. split.
  - destruct (proj1 (@request_ids_count_up RefLib.lib)
                (freshClient EmptyString)
                [("initialize", JNull); ("tools/list", JNull);
                 ("tools/call", JNull)])
      as (Hids & _ & Hsent & _);
      [reflexivity|vm_compute; discriminate|].
    split; [exact Hids|].
    etrans;
      [exact (Hsent [("initialize", JNull)] "tools/list" JNull
                [("tools/call", JNull)] eq_refl)|run].
  - destruct (proj2 (@request_ids_count_up RefLib.lib)
                (freshHTTPClient resultLine99)
                [("initialize", JNull); ("tools/list", JNull);
                 ("tools/call", JNull)])
      as (Hids & _ & Hsent & _);
      [reflexivity|vm_compute; discriminate|].
    split; [exact Hids|].
    etrans;
      [exact (Hsent [("initialize", JNull); ("tools/list", JNull)]
                "tools/call" JNull [] eq_refl)|run].
Defined.

(** C9 on the path of the repository's test and on a file that is not
    JSON. *)
Lemma LoadMCPConfig_missing_or_malformed_witness :
  @LoadMCPConfig RefLib.lib exampleEnv "/nonexistent/path/mcp.json"
  = Ok (MCPConfig.mk (Some ∅))
  /\ @LoadMCPConfig RefLib.lib exampleEnv "bad.json" = Err RefLib.syntaxError.
Proof.
  split.
  - refine (proj1 (@LoadMCPConfig_missing_or_malformed RefLib.lib exampleEnv
                     "/nonexistent/path/mcp.json" "/nonexistent/path/mcp.json"
                     _) RefLib.ErrNotExist _ _); run.
  - refine (proj2 (@LoadMCPConfig_missing_or_malformed RefLib.lib exampleEnv
                     "bad.json" "bad.json" _)
                "{'mcpServers': [" RefLib.syntaxError _ _);
      run.
Defined.

(** C3 on a manager that routes [search] to its one connection. *)
Lemma ExecuteTool_routes_witness :
  @Manager.ExecuteTool RefLib.lib oneToolManager oneToolWorld "delete" JNull
  = (Err (fmt_Errorf "unknown MCP tool: %s" [ArgStr "delete"]), oneToolWorld)
  /\ fst (@Manager.ExecuteTool RefLib.lib oneToolManager oneToolWorld "search"
            (JObj [("q", JStr "x")]))
     = Ok "found".
Proof.
  split.
  - refine (proj1 (@ExecuteTool_routes RefLib.lib oneToolManager oneToolWorld
                     "delete" JNull) _). run.
  - edestruct (proj2 (@ExecuteTool_routes RefLib.lib oneToolManager
                        oneToolWorld "search" (JObj [("q", JStr "x")])))
      as (Hres & _).
    + run.
    + run_lhs.
    + rewrite Hres. run.
Defined.

Lemma exampleEnv_loads :
  @LoadMCPConfig RefLib.lib exampleEnv "mcp.json"
  = Ok (MCPConfig.mk (Some exampleServers)).
Proof. run. Defined.

(** C1 on seven servers, of which two survive: one has an unsupported
    transport type, one has no URL, one does not start, one fails
    [initialize], one fails [tools/list]. *)
Lemma LoadFromConfig_partial_failure_witness :
  let out := @Manager.LoadFromConfig RefLib.lib exampleEnv Manager.NewManager
               emptyWorld "mcp.json" in
  out.1 = None
  /\ size (Manager.clients out.2.1) = 2%nat
  /\ dom (Manager.clients out.2.1) = {["alpha"; "beta"]}.
Proof.
  cbv zeta.
  destruct (@LoadFromConfig_partial_failure RefLib.lib exampleEnv emptyWorld
              "mcp.json" exampleServers exampleEnv_loads)
    as (Herr & Hsize & Hdom & _).
  - reflexivity.
  - split_and!; [exact Herr| |].
    + rewrite Hsize. run.
    + rewrite Hdom. run.
Defined.

(** C2 on the same servers: [alpha] and [beta] both list [search], the
    loop comes to [beta] later, and a call of [search] is answered by
    [beta]. *)
Lemma LoadFromConfig_last_writer_wins_witness :
  let out := @Manager.LoadFromConfig RefLib.lib exampleEnv Manager.NewManager
               emptyWorld "mcp.json" in
  Manager.toolToClient out.2.1 !! "search" = Manager.clients out.2.1 !! "beta"
  /\ Manager.toolToClient out.2.1 !! "search"
     <> Manager.clients out.2.1 !! "alpha"
  /\ (@Manager.ExecuteTool RefLib.lib out.2.1 out.2.2 "search" (JObj [])).1
     = Ok "beta".
Proof.
  cbv zeta.
  evar (toolsA : list MCPTool.t). evar (clientA : Conn).
  evar (toolsB : list MCPTool.t). evar (clientB : Conn).
  destruct (@LoadFromConfig_last_writer_wins RefLib.lib exampleEnv emptyWorld
               "mcp.json" exampleServers
               [("odd", MCPServerConfig.mk EmptyString [] ∅ "websocket"
                          "ws://localhost" EmptyString);
                ("web", MCPServerConfig.mk EmptyString [] ∅ "http" EmptyString
                          EmptyString);
                ("gone", stdioServer "gone" EmptyString);
                ("mute", stdioServer "mute" EmptyString)]
               "alpha" (stdioServer "alpha" EmptyString) []
               "beta" (stdioServer "beta" "stdio")
               [("deaf", stdioServer "deaf" EmptyString)]
               toolsA clientA toolsB clientB "search" (JObj [])
               exampleEnv_loads)
    as (ra & rb & Ha & Hb & Hab & _ & _ & Ht & Hexec & _).
  - reflexivity.
  - run.
  - subst toolsA clientA. run_lhs.
  - subst toolsB clientB. run_lhs.
  - vm_compute. left.
  - vm_compute. left.
  - intros n c ts cl Hin Hst.
    apply list_elem_of_singleton in Hin. injection Hin as -> ->.
    vm_compute in Hst. discriminate.
  - rewrite Ha, Hb, Ht, Hexec. split_and!; [reflexivity|congruence|run].
Defined.
End ConcreteRuns.

(* ================================================================= *)
(** ** Connections in use *)

Section ConnectionsInUse.
Context `{GoLib}.

Lemma string_app_assoc (a b c : string) : (a +:+ b) +:+ c = a +:+ b +:+ c.
Proof.
  induction a as [|x a IH]; [reflexivity|].
  change (String x ((a +:+ b) +:+ c) = String x (a +:+ b +:+ c)).
  rewrite IH. reflexivity.
Qed.

Lemma string_app_nil_r (a : string) : a +:+ EmptyString = a.
Proof.
  induction a as [|x a IH]; [reflexivity|].
  change (String x (a +:+ EmptyString) = String x a).
  rewrite IH. reflexivity.
Qed.

(** The loop that gathers the text of a tool result. *)
Lemma concatText_textOf content : forall acc,
  Client.concatText content acc = acc +:+ textOf content.
Proof.
  unfold textOf. induction content as [|x content IH]; intros acc.
  - cbn. rewrite string_app_nil_r. reflexivity.
  - cbn [Client.concatText]. rewrite filter_cons.
    destruct (decide (isText x = true)) as [Hx|Hx]; unfold isText in Hx.
    + rewrite Hx, IH. cbn [fold_right]. apply string_app_assoc.
    + apply not_true_is_false in Hx. rewrite Hx. apply IH.
Qed.

Lemma decodeToolResult_textOf resp result :
  json_Unmarshal_MCPToolCallResult
    (RawMessage_bytes (JSONRPCResponse.Result resp)) = Ok result ->
  Client.decodeToolResult resp
  = if MCPToolCallResult.IsError result
    then Err (fmt_Errorf "tool error: %s"
                [ArgStr (textOf (MCPToolCallResult.Content result))])
    else Ok (textOf (MCPToolCallResult.Content result)).
Proof.
  intros Hr. unfold Client.decodeToolResult. rewrite Hr.
  rewrite concatText_textOf. reflexivity.
Qed.

(** X1.  What [CallTool] returns once the response has arrived and
    decodes as a tool result: the texts of the content blocks of type
    [text], joined in their order, blocks of any other type left out;
    as the value of the call, or inside the error [tool error: ...]
    when the result is flagged as an error.  The same on both kinds of
    connection. *)
Theorem CallTool_text :
  (forall c name arguments resp c' result,
     Client.sendRequest c "tools/call"
       (JObj [("name", JStr name); ("arguments", arguments)]) = (Ok resp, c') ->
     json_Unmarshal_MCPToolCallResult
       (RawMessage_bytes (JSONRPCResponse.Result resp)) = Ok result ->
     Client.CallTool c name arguments
     = (if MCPToolCallResult.IsError result
        then Err (fmt_Errorf "tool error: %s"
                    [ArgStr (textOf (MCPToolCallResult.Content result))])
        else Ok (textOf (MCPToolCallResult.Content result)), c'))
  /\ (forall c name arguments resp c' result,
        HTTPClient.sendRequest c "tools/call"
          (JObj [("name", JStr name); ("arguments", arguments)])
        = (Ok resp, c') ->
        json_Unmarshal_MCPToolCallResult
          (RawMessage_bytes (JSONRPCResponse.Result resp)) = Ok result ->
        HTTPClient.CallTool c name arguments
        = (if MCPToolCallResult.IsError result
           then Err (fmt_Errorf "tool error: %s"
                       [ArgStr (textOf (MCPToolCallResult.Content result))])
           else Ok (textOf (MCPToolCallResult.Content result)), c')).
Proof.
  split; intros c name arguments resp c' result Hs Hr.
  - unfold Client.CallTool. rewrite Hs.
    rewrite (decodeToolResult_textOf _ _ Hr). reflexivity.
  - unfold HTTPClient.CallTool. rewrite Hs.
    rewrite (decodeToolResult_textOf _ _ Hr). reflexivity.
Qed.

Lemma Client_sendRequest_name c method params :
  Client.name (snd (Client.sendRequest c method params)) = Client.name c.
Proof.
  unfold Client.sendRequest.
  destruct (json_Marshal _); [|reflexivity].
  destruct (io.Write _ _) as [[e|] w]; [reflexivity|].
  cbn [Client.set_stdin Client.set_requestID Client.stdout].
  destruct (Client.scan _ _ _). reflexivity.
Qed.

Lemma HTTPClient_sendRequest_frame c method params :
  let c' := snd (HTTPClient.sendRequest c method params) in
  HTTPClient.name c' = HTTPClient.name c
  /\ HTTPClient.baseURL c' = HTTPClient.baseURL c
  /\ HTTPClient.isSSE c' = HTTPClient.isSSE c
  /\ (HTTPClient.posted c' = HTTPClient.posted c
      \/ exists body,
           HTTPClient.posted c' = HTTPClient.posted c ++ [(endpoint c, body)]).
Proof.
  cbv zeta. unfold HTTPClient.sendRequest, endpoint.
  destruct (json_Marshal _) as [data|]; [|cbn; auto].
  cbn [HTTPClient.set_requestID HTTPClient.isSSE HTTPClient.baseURL].
  destruct (http_NewRequest _ _ _); [cbn; auto|].
  unfold HTTPClient.Do. cbn.
  assert (Hp : forall A (r : A) c1,
             HTTPClient.name c1 = HTTPClient.name c ->
             HTTPClient.baseURL c1 = HTTPClient.baseURL c ->
             HTTPClient.isSSE c1 = HTTPClient.isSSE c ->
             (exists body, HTTPClient.posted c1
                           = HTTPClient.posted c
                             ++ [(if HTTPClient.isSSE c
                                  then HTTPClient.baseURL c +:+ "/message"
                                  else HTTPClient.baseURL c, body)]) ->
             HTTPClient.name (r, c1).2 = HTTPClient.name c
             /\ HTTPClient.baseURL (r, c1).2 = HTTPClient.baseURL c
             /\ HTTPClient.isSSE (r, c1).2 = HTTPClient.isSSE c
             /\ (HTTPClient.posted (r, c1).2 = HTTPClient.posted c
                 \/ exists body,
                      HTTPClient.posted (r, c1).2
                      = HTTPClient.posted c
                        ++ [(if HTTPClient.isSSE c
                             then HTTPClient.baseURL c +:+ "/message"
                             else HTTPClient.baseURL c, body)])).
  { intros A r c1 ? ? ? ?. cbn. auto. }
  destruct (HTTPClient.httpClient c _ _ _) as [e|st body [re|]].
  - apply Hp; cbn; eauto.
  - destruct (negb _); apply Hp; cbn; eauto.
  - destruct (negb _); [apply Hp; cbn; eauto|].
    destruct (json_Unmarshal_JSONRPCResponse _) as [resp|];
      [|apply Hp; cbn; eauto].
    destruct (JSONRPCResponse.Error resp); apply Hp; cbn; eauto.
Qed.

(** What one operation does to the name and the counter. *)
Lemma doOp_name_counter c op :
  Name (snd (doOp c op)) = Name c
  /\ counter (snd (doOp c op))
     = if sendsRequest op then atomic_AddInt64 (counter c) 1 else counter c.
Proof.
  destruct c as [c|c]; destruct op as [| |name arguments|]; cbn.
  - unfold Client.Initialize.
    pose proof (Client_sendRequest_name c "initialize" Client.initializeParams).
    pose proof (Client_sendRequest_requestID c "initialize"
                  Client.initializeParams).
    destruct (Client.sendRequest _ _ _) as [[?|?] ?]; cbn in *; auto.
  - unfold Client.ListTools.
    pose proof (Client_sendRequest_name c "tools/list" JNull).
    pose proof (Client_sendRequest_requestID c "tools/list" JNull).
    destruct (Client.sendRequest _ _ _) as [[?|?] ?]; cbn in *; auto.
    destruct (json_Unmarshal_MCPToolsListResult _); cbn; auto.
  - unfold Client.CallTool.
    pose proof (Client_sendRequest_name c "tools/call"
                  (JObj [("name", JStr name); ("arguments", arguments)])).
    pose proof (Client_sendRequest_requestID c "tools/call"
                  (JObj [("name", JStr name); ("arguments", arguments)])).
    destruct (Client.sendRequest _ _ _) as [[?|?] ?]; cbn in *; auto.
  - auto.
  - unfold HTTPClient.Initialize.
    pose proof (HTTPClient_sendRequest_frame c "initialize"
                  Client.initializeParams) as (? & _).
    pose proof (HTTPClient_sendRequest_requestID c "initialize"
                  Client.initializeParams).
    destruct (HTTPClient.sendRequest _ _ _) as [[?|?] ?]; cbn in *; auto.
  - unfold HTTPClient.ListTools.
    pose proof (HTTPClient_sendRequest_frame c "tools/list" JNull) as (? & _).
    pose proof (HTTPClient_sendRequest_requestID c "tools/list" JNull).
    destruct (HTTPClient.sendRequest _ _ _) as [[?|?] ?]; cbn in *; auto.
    destruct (json_Unmarshal_MCPToolsListResult _); cbn; auto.
  - unfold HTTPClient.CallTool.
    pose proof (HTTPClient_sendRequest_frame c "tools/call"
                  (JObj [("name", JStr name); ("arguments", arguments)]))
      as (? & _).
    pose proof (HTTPClient_sendRequest_requestID c "tools/call"
                  (JObj [("name", JStr name); ("arguments", arguments)])).
    destruct (HTTPClient.sendRequest _ _ _) as [[?|?] ?]; cbn in *; auto.
  - auto.
Qed.

(** X2.  Whatever sequence of operations a connection of either kind
    goes through, and whether they succeed or fail, its name never
    changes and its request counter has moved by exactly one for each
    operation that sends a request ([Initialize], [ListTools],
    [CallTool]) and not at all for [Close] (in [int64] arithmetic). *)
Theorem runOps_name_counter ops : forall c,
  wrap64 (counter c) = counter c ->
  Name (runOps c ops).2 = Name c
  /\ counter (runOps c ops).2
     = wrap64 (counter c
               + Z.of_nat (length (filter (fun op => sendsRequest op = true)
                                          ops))).
Proof.
  induction ops as [|op ops IH]; intros c Hc.
  - cbn. rewrite Z.add_0_r. auto.
  - cbn [runOps].
    destruct (doOp_name_counter c op) as [Hn Hk].
    destruct (doOp c op) as [e c1]. cbn [snd] in Hn, Hk.
    specialize (IH c1).
    destruct (runOps c1 ops) as [es c']. cbn [snd] in *.
    rewrite filter_cons.
    destruct (sendsRequest op).
    + rewrite decide_True by reflexivity.
      destruct IH as [IH1 IH2].
      { rewrite Hk. apply wrap64_idem. }
      split; [congruence|].
      rewrite IH2, Hk. unfold atomic_AddInt64. rewrite wrap64_add.
      f_equal. cbn [length]. lia.
    + rewrite decide_False by discriminate.
      destruct IH as [IH1 IH2]; [congruence|].
      split; congruence.
Qed.
End ConnectionsInUse.

(* ================================================================= *)
(** ** Failing and closed connections *)

Section FailingConnections.
Context `{GoLib}.

(** X3.  When the request cannot be sent on a process connection (it
    does not marshal, the pipe is closed, or the pipe refuses the
    write), [sendRequest] fails without reading anything from the
    standard output of the process and without writing anything; the
    identifier is used up all the same. *)
Theorem sendRequest_unsendable c method params :
  (forall data, ~ sendable c method params data) ->
  let out := Client.sendRequest c method params in
  (exists e, fst out = Err e)
  /\ Client.stdout (snd out) = Client.stdout c
  /\ io.written (Client.stdin (snd out)) = io.written (Client.stdin c)
  /\ Client.requestID (snd out) = atomic_AddInt64 (Client.requestID c) 1.
Proof.
  intros Hn. cbv zeta. unfold Client.sendRequest.
  destruct (json_Marshal _) as [data|e] eqn:Hm; [|cbn; eauto].
  unfold io.Write. cbn [Client.set_requestID Client.stdin].
  destruct (io.closed (Client.stdin c)) eqn:Hc; [cbn; eauto|].
  destruct (io.accepts (Client.stdin c) _) eqn:Ha; [|cbn; eauto].
  exfalso. apply (Hn data). repeat split; assumption.
Qed.

Lemma cut_isLine l : isLine l -> bufio.cut newline l = None.
Proof. auto. Qed.

(** X4.  A last line that is not ended by a newline is lost: when the
    process closes its output after fewer than 50 passed-over lines and
    some text without a newline, [sendRequest] fails with the read
    error wrapping [io.EOF], whatever that text is (a complete
    response included), and the text is consumed. *)
Theorem sendRequest_unterminated_line c method params data ls last :
  sendable c method params data ->
  bufio.pending (Client.stdout c) = feed ls last ->
  Forall isLine ls ->
  isLine last ->
  Forall (fun x => passedOver (atomic_AddInt64 (Client.requestID c) 1)
                     (rawLine x)) ls ->
  (length ls < 50)%nat ->
  let out := Client.sendRequest c method params in
  fst out = Err (fmt_Errorf "failed to read response: %w" [ArgErr io_EOF])
  /\ bufio.pending (Client.stdout (snd out)) = EmptyString.
Proof.
  intros Hs Hp Hl Hlast Hn Hlen. cbv zeta.
  rewrite (sendRequest_sendable _ _ _ _ Hs). cbv zeta.
  cbn [fst snd Client.stdout].
  destruct (Client.stdout c) as [p k]. cbn [bufio.pending] in Hp. subst p.
  replace (Z.to_nat Client.maxAttempts)
    with (length ls + S (49 - length ls))%nat
    by (change (Z.to_nat Client.maxAttempts) with 50%nat; lia).
  rewrite scan_pass_all by assumption.
  cbn [Client.scan]. unfold bufio.ReadBytes. cbn [bufio.pending].
  rewrite (cut_isLine _ Hlast). cbn. auto.
Qed.

Lemma Client_sendRequest_closed c method params :
  io.closed (Client.stdin c) = true ->
  (exists e, fst (Client.sendRequest c method params) = Err e)
  /\ Client.stdout (snd (Client.sendRequest c method params)) = Client.stdout c
  /\ Client.stdin (snd (Client.sendRequest c method params)) = Client.stdin c
  /\ Client.cmd (snd (Client.sendRequest c method params)) = Client.cmd c
  /\ Client.tools (snd (Client.sendRequest c method params)) = Client.tools c.
Proof.
  intros Hc. unfold Client.sendRequest.
  destruct (json_Marshal _) as [data|e]; [|cbn; eauto 10].
  unfold io.Write. cbn [Client.set_requestID Client.stdin]. rewrite Hc.
  cbn. destruct (Client.stdin c). eauto 10.
Qed.

Lemma doOp_closedLike c0 c op :
  closedLike c0 c ->
  closedLike c0 (doOp c op).2
  /\ (sendsRequest op = true -> exists e, (doOp c op).1 = Some e)
  /\ (sendsRequest op = false -> (doOp c op).1 = None).
Proof.
  intros (c1 & -> & Hout & Hin & Hcmd & Htools).
  assert (Hc : io.closed (Client.stdin c1) = true) by (rewrite Hin; reflexivity).
  destruct op as [| |name arguments|]; cbn.
  - unfold Client.Initialize.
    destruct (Client_sendRequest_closed c1 "initialize"
                Client.initializeParams Hc) as ([e He] & H1 & H2 & H3 & H4).
    destruct (Client.sendRequest _ _ _) as [[?|?] c2]; cbn in *;
      [discriminate|].
    split_and!; [|eauto|discriminate].
    exists c2. split_and!; congruence.
  - unfold Client.ListTools.
    destruct (Client_sendRequest_closed c1 "tools/list" JNull Hc)
      as ([e He] & H1 & H2 & H3 & H4).
    destruct (Client.sendRequest _ _ _) as [[?|?] c2]; cbn in *;
      [discriminate|].
    split_and!; [|eauto|discriminate].
    exists c2. split_and!; congruence.
  - unfold Client.CallTool.
    destruct (Client_sendRequest_closed c1 "tools/call"
                (JObj [("name", JStr name); ("arguments", arguments)]) Hc)
      as ([e He] & H1 & H2 & H3 & H4).
    destruct (Client.sendRequest _ _ _) as [[?|?] c2]; cbn in *;
      [discriminate|].
    split_and!; [|eauto|discriminate].
    exists c2. split_and!; congruence.
  - split_and!; [|discriminate|reflexivity].
    eexists. split; [reflexivity|]. cbn. rewrite Hout, Hin, Hcmd, Htools.
    split_and!; reflexivity.
Qed.

(** X5.  Once a process connection is closed it stays closed and
    nothing more is read from or written to the process: in any
    sequence of operations after [Close], every operation that sends a
    request fails, every further [Close] returns no error, and at the
    end the pipe is closed, the process is gone, and the unread output,
    the written requests and the cached tools are as [Close] left
    them. *)
Theorem runOps_after_Close c ops :
  let closed := (Client.Close c).2 in
  let out := runOps (ProcessConn closed) ops in
  Forall2 (fun op e => if sendsRequest op then e <> None else e = None)
          ops out.1
  /\ isClosed out.2
  /\ exists c', out.2 = ProcessConn c'
                /\ Client.stdout c' = Client.stdout c
                /\ io.written (Client.stdin c') = io.written (Client.stdin c)
                /\ Client.tools c' = Client.tools c.
Proof.
  cbv zeta.
  assert (Hstart : closedLike c (ProcessConn (Client.Close c).2)).
  { eexists. split; [reflexivity|]. cbn. auto. }
  assert (Hgen : forall ops conn,
             closedLike c conn ->
             Forall2 (fun op e => if sendsRequest op then e <> None
                                  else e = None) ops (runOps conn ops).1
             /\ closedLike c (runOps conn ops).2).
  { clear ops Hstart. induction ops as [|op ops IH]; intros conn Hconn.
    - cbn. split; [constructor|assumption].
    - cbn [runOps].
      destruct (doOp_closedLike c conn op Hconn) as (Hnext & Hreq & Hcl).
      destruct (doOp conn op) as [e conn1]. cbn [fst snd] in *.
      destruct (IH conn1 Hnext) as [IH1 IH2].
      destruct (runOps conn1 ops) as [es conn2]. cbn [fst snd] in *.
      split; [|assumption]. constructor; [|assumption].
      destruct (sendsRequest op).
      + destruct Hreq as [e' ->]; [reflexivity|]. discriminate.
      + apply Hcl. reflexivity. }
  destruct (Hgen ops _ Hstart) as [Hres (c' & Hc' & Hout & Hin & Hcmd & Ht)].
  split_and!; [exact Hres| |].
  - rewrite Hc'. cbn. rewrite Hin, Hcmd. auto.
  - exists c'. rewrite Hin. auto.
Qed.

(** X6.  Every request an HTTP connection posts goes to one URL, the
    base URL of the configuration or, for an SSE connection, the base
    URL followed by [/message]: after any sequence of operations on a
    new connection, each posted request has that URL, and there are at
    most as many posts as operations that send a request. *)
Theorem runOps_HTTP_endpoint ops : forall c,
  Forall (fun p => p.1 = endpoint c) (HTTPClient.posted c) ->
  exists c', (runOps (HTTPConn c) ops).2 = HTTPConn c'
             /\ endpoint c' = endpoint c
             /\ Forall (fun p => p.1 = endpoint c) (HTTPClient.posted c')
             /\ (length (HTTPClient.posted c')
                 <= length (HTTPClient.posted c)
                    + length (filter (fun op => sendsRequest op = true) ops))%nat.
Proof.
  assert (Hstep : forall (c : HTTPClient.t) method params,
             Forall (fun p => p.1 = endpoint c) (HTTPClient.posted c) ->
             let c' := (HTTPClient.sendRequest c method params).2 in
             endpoint c' = endpoint c
             /\ Forall (fun p => p.1 = endpoint c) (HTTPClient.posted c')
             /\ (length (HTTPClient.posted c')
                 <= S (length (HTTPClient.posted c)))%nat).
  { intros c method params Hp. cbv zeta.
    destruct (HTTPClient_sendRequest_frame c method params)
      as (_ & Hb & Hs & [Hsame|[body Hnew]]).
    - unfold endpoint. rewrite Hb, Hs, Hsame. split_and!; auto.
    - unfold endpoint at 1. rewrite Hb, Hs, Hnew.
      split_and!; [reflexivity| |rewrite length_app; cbn; lia].
      apply Forall_app. split; [assumption|]. repeat constructor. }
  assert (Hop : forall (c : HTTPClient.t) op,
             Forall (fun p => p.1 = endpoint c) (HTTPClient.posted c) ->
             exists c', (doOp (HTTPConn c) op).2 = HTTPConn c'
                        /\ endpoint c' = endpoint c
                        /\ Forall (fun p => p.1 = endpoint c)
                                  (HTTPClient.posted c')
                        /\ (length (HTTPClient.posted c')
                            <= length (HTTPClient.posted c)
                               + (if sendsRequest op then 1 else 0))%nat).
  { intros c op Hp. destruct op as [| |name arguments|]; cbn.
    - unfold HTTPClient.Initialize.
      destruct (Hstep c "initialize" Client.initializeParams Hp)
        as (H1 & H2 & H3).
      destruct (HTTPClient.sendRequest _ _ _) as [[?|?] c2]; cbn in *;
        exists c2; split_and!; auto; lia.
    - unfold HTTPClient.ListTools.
      destruct (Hstep c "tools/list" JNull Hp) as (H1 & H2 & H3).
      destruct (HTTPClient.sendRequest _ _ _) as [[?|?] c2]; cbn in *.
      + destruct (json_Unmarshal_MCPToolsListResult _); cbn;
          eexists; (split; [reflexivity|]); cbn; split_and!; auto; lia.
      + exists c2; split_and!; auto; lia.
    - unfold HTTPClient.CallTool.
      destruct (Hstep c "tools/call"
                  (JObj [("name", JStr name); ("arguments", arguments)]) Hp)
        as (H1 & H2 & H3).
      destruct (HTTPClient.sendRequest _ _ _) as [[?|?] c2]; cbn in *;
        exists c2; split_and!; auto; lia.
    - exists c. split_and!; auto; lia. }
  induction ops as [|op ops IH]; intros c Hp.
  - exists c. cbn. split_and!; auto; lia.
  - cbn [runOps].
    destruct (Hop c op Hp) as (c1 & Hc1 & He1 & Hp1 & Hl1).
    destruct (doOp (HTTPConn c) op) as [e conn1]. cbn [snd] in Hc1. subst conn1.
    destruct (IH c1) as (c' & Hc' & He' & Hp' & Hl').
    { rewrite He1. exact Hp1. }
    destruct (runOps (HTTPConn c1) ops) as [es conn2]. cbn [snd] in *.
    exists c'. rewrite He1 in *. split_and!; auto.
    rewrite filter_cons. destruct (sendsRequest op).
    + rewrite decide_True by reflexivity. cbn [length]. lia.
    + rewrite decide_False by discriminate. lia.
Qed.

Lemma scan_Ok_no_error n : forall id r resp r',
  Client.scan n id r = (Ok resp, r') -> JSONRPCResponse.Error resp = None.
Proof.
  induction n as [|n IH]; intros id r resp r'; cbn [Client.scan].
  - discriminate.
  - destruct (bufio.ReadBytes r newline) as [[line [err|]] r1];
      [discriminate|].
    destruct (String.length _ =? 0)%nat; [apply IH|].
    destruct (negb _); [apply IH|].
    destruct (json_Unmarshal_JSONRPCResponse _) as [resp0|]; [|apply IH].
    destruct (Client.isNotification resp0); [apply IH|].
    destruct (JSONRPCResponse.ID resp0 =? id); [|apply IH].
    destruct (JSONRPCResponse.Error resp0) eqn:He; [discriminate|].
    intros [= <- _]. exact He.
Qed.

(** X7.  A response that [sendRequest] returns never carries an
    [error] member, on either kind of connection; on an HTTP
    connection it was moreover the body of a reply with status 200 that
    was read in full. *)
Theorem sendRequest_Ok_no_error :
  (forall c method params resp,
     fst (Client.sendRequest c method params) = Ok resp ->
     JSONRPCResponse.Error resp = None)
  /\ (forall c method params resp,
        fst (HTTPClient.sendRequest c method params) = Ok resp ->
        JSONRPCResponse.Error resp = None
        /\ exists data body,
             HTTPClient.httpClient c (length (HTTPClient.posted c))
               (endpoint c) data
             = http.Response http.StatusOK body None
             /\ json_Unmarshal_JSONRPCResponse body = Ok resp).
Proof.
  split.
  - intros c method params resp. unfold Client.sendRequest.
    destruct (json_Marshal _); [|discriminate].
    destruct (io.Write _ _) as [[e|] w]; [discriminate|].
    cbn [Client.set_stdin Client.set_requestID Client.stdout].
    destruct (Client.scan _ _ _) as [res r] eqn:Hscan. cbn [fst].
    intros ->. eapply scan_Ok_no_error; eassumption.
  - intros c method params resp. unfold HTTPClient.sendRequest, endpoint.
    destruct (json_Marshal _) as [data|]; [|discriminate].
    unfold HTTPClient.Do, HTTPClient.set_requestID.
    cbn [HTTPClient.isSSE HTTPClient.baseURL HTTPClient.httpClient
         HTTPClient.posted].
    destruct (http_NewRequest _ _ _); [discriminate|].
    destruct (HTTPClient.httpClient c _ _ _) as [e|st body [re|]] eqn:Hd;
      [discriminate| |].
    + destruct (negb _); discriminate.
    + destruct (Z.eqb_spec st http.StatusOK) as [->|]; cbn [negb];
        [|discriminate].
      destruct (json_Unmarshal_JSONRPCResponse body) as [resp0|] eqn:Hu;
        [|discriminate].
      destruct (JSONRPCResponse.Error resp0) eqn:He; [discriminate|].
      cbn. intros [= <-]. split; [exact He|]. exists data, body. auto.
Qed.
End FailingConnections.

(* ================================================================= *)
(** ** The manager after loading *)

Section AfterLoading.
Context `{GoLib}.

Lemma ListTools_Ok_Tools (c c' : Conn) ts :
  ListTools c = (Ok ts, c') -> Tools c' = ts.
Proof.
  destruct c as [c|c]; cbn.
  - unfold Client.ListTools.
    destruct (Client.sendRequest c "tools/list" JNull) as [[resp|e] c1];
      [|discriminate].
    destruct (json_Unmarshal_MCPToolsListResult _); [|discriminate].
    intros [= <- <-]. reflexivity.
  - unfold HTTPClient.ListTools.
    destruct (HTTPClient.sendRequest c "tools/list" JNull) as [[resp|e] c1];
      [|discriminate].
    destruct (json_Unmarshal_MCPToolsListResult _); [|discriminate].
    intros [= <- <-]. reflexivity.
Qed.

Lemma newClient_Ok env name cfg client :
  Manager.newClient env name cfg = Some (Ok client) ->
  Name client = name
  /\ isProcess client = MCPServerConfig.IsStdio cfg.
Proof.
  unfold Manager.newClient.
  destruct (MCPServerConfig.IsStdio cfg).
  - unfold Client.NewClient. destruct (exec_Command env cfg);
      intros [= <-]; auto.
  - destruct (_ || _); [|discriminate].
    unfold HTTPClient.NewHTTPClient. destruct (bool_decide _);
      intros [= <-]; auto.
Qed.

Lemma doOp_isProcess c op : isProcess (doOp c op).2 = isProcess c.
Proof.
  destruct c as [c|c]; destruct op as [| |name arguments|]; cbn;
    unfold liftConn;
    try destruct (Client.Initialize c);
    try destruct (Client.ListTools c);
    try destruct (Client.CallTool c name arguments);
    try destruct (HTTPClient.Initialize c);
    try destruct (HTTPClient.ListTools c);
    try destruct (HTTPClient.CallTool c name arguments);
    reflexivity.
Qed.

(** A server that reaches the end of discovery: the connection bears
    the name of the configuration entry, caches the tools it listed,
    and is a process connection exactly for the standard-input-output
    transport. *)
Lemma startup_Ready env name cfg tools client :
  startup env name cfg = Ready tools client ->
  Name client = name
  /\ Tools client = tools
  /\ isProcess client = MCPServerConfig.IsStdio cfg.
Proof.
  unfold startup.
  destruct (Manager.newClient env name cfg) as [[c0|e]|] eqn:Hnew;
    [|discriminate..].
  destruct (newClient_Ok _ _ _ _ Hnew) as [Hname Hkind].
  pose proof (doOp_name_counter c0 OpInitialize) as [Hn1 _].
  pose proof (doOp_isProcess c0 OpInitialize) as Hk1.
  cbn [doOp] in Hn1, Hk1.
  destruct (Initialize c0) as [[e|] c1]; [discriminate|].
  cbn [snd] in Hn1, Hk1.
  pose proof (doOp_name_counter c1 OpListTools) as [Hn2 _].
  pose proof (doOp_isProcess c1 OpListTools) as Hk2.
  cbn [doOp] in Hn2, Hk2.
  pose proof (ListTools_Ok_Tools c1) as Ht.
  destruct (ListTools c1) as [[ts|e] c2]; [|discriminate].
  cbn [snd] in Hn2, Hk2. intros [= <- <-].
  split_and!; [congruence|eauto|].
  rewrite Hk2, Hk1. destruct c0; exact Hkind.
Qed.

(** The manager and the world after [LoadFromConfig] on a new manager. *)
Lemma LoadFromConfig_summary env w path servers :
  LoadMCPConfig env path = Ok (MCPConfig.mk (Some servers)) ->
  range_MCPServers env servers ≡ₚ map_to_list servers ->
  let out := Manager.LoadFromConfig env Manager.NewManager w path in
  let m' := out.2.1 in
  let w' := out.2.2 in
  (forall name r,
     Manager.clients m' !! name = Some r ->
     exists cfg tools client,
       servers !! name = Some cfg
       /\ startup env name cfg = Ready tools client
       /\ heap w' !! r = Some client)
  /\ (forall name cfg tools client,
        servers !! name = Some cfg ->
        startup env name cfg = Ready tools client ->
        exists r, Manager.clients m' !! name = Some r
                  /\ heap w' !! r = Some client
                  /\ forall t, t ∈ toolNames tools ->
                       is_Some (Manager.toolToClient m' !! t))
  /\ (forall t r,
        Manager.toolToClient m' !! t = Some r ->
        exists name cfg tools client,
          servers !! name = Some cfg
          /\ startup env name cfg = Ready tools client
          /\ Manager.clients m' !! name = Some r
          /\ heap w' !! r = Some client
          /\ t ∈ toolNames tools)
  /\ (forall ev, ev ∈ trace w -> ev ∈ trace w').
Proof.
  intros Hcfg Hperm out m' w'.
  pose proof (Loaded_fold env (range_MCPServers env servers)
                Manager.NewManager w (range_NoDup _ _ Hperm)) as HL.
  assert (Hfold : fold_left (Manager.loadServer env)
                    (range_MCPServers env servers) (Manager.NewManager, w)
                  = (m', w')).
  { subst m' w' out. rewrite (LoadFromConfig_loaded _ _ _ _ _ Hcfg).
    cbn [fst snd]. destruct (fold_left _ _ _). reflexivity. }
  rewrite Hfold in HL. cbn [fst snd] in HL. clearbody m' w'. clear Hfold out.
  assert (Hin : forall name cfg,
            (name, cfg) ∈ range_MCPServers env servers
            <-> servers !! name = Some cfg)
    by (intros; apply range_elem_of; assumption).
  split_and!.
  - intros name r Hr.
    destruct (decide (name ∈ (range_MCPServers env servers).*1)) as [Hn|Hn].
    + apply list_elem_of_fmap in Hn as ([n cfg] & -> & Hn). cbn in Hr |- *.
      destruct (startup env n cfg) as [| | | |tools client] eqn:Hst.
      5: { destruct (loaded_ready _ _ _ _ _ _ HL _ _ _ _ Hn Hst)
             as (r0 & Hc & Hh & _).
           exists cfg, tools, client. split_and!; [apply Hin, Hn|exact Hst|].
           replace r with r0 by congruence. exact Hh. }
      all: rewrite (loaded_failed _ _ _ _ _ _ HL n cfg Hn) in Hr
          by (rewrite Hst; reflexivity);
        cbn in Hr; rewrite lookup_empty in Hr; discriminate.
    + rewrite (loaded_other _ _ _ _ _ _ HL name Hn) in Hr.
      cbn in Hr. rewrite lookup_empty in Hr. discriminate.
  - intros name cfg tools client Hs Hst. apply Hin in Hs.
    destruct (loaded_ready _ _ _ _ _ _ HL _ _ _ _ Hs Hst)
      as (r & Hc & Hh & _ & Ht).
    exists r. split_and!; auto.
    intros t Hin_t. destruct (Ht t Hin_t) as (r' & Hr' & _). eauto.
  - intros t r Ht.
    destruct (loaded_tool _ _ _ _ _ _ HL t r Ht)
      as [Hempty|(name & cfg & tools & client & Hs & Hst & Hc & Hn & _)].
    { cbn in Hempty. rewrite lookup_empty in Hempty. discriminate. }
    destruct (loaded_ready _ _ _ _ _ _ HL _ _ _ _ Hs Hst)
      as (r0 & Hc0 & Hh & _).
    exists name, cfg, tools, client. split_and!; auto.
    + apply Hin, Hs.
    + replace r with r0 by congruence. exact Hh.
  - apply (loaded_trace _ _ _ _ _ _ HL).
Qed.

(** X10.  After [LoadFromConfig] on a new manager, [HasTool] holds of
    exactly the tool names listed by some surviving server, and
    [GetToolServer] gives, for such a name, the configuration name of a
    surviving server that lists it, and the empty string for any other
    name. *)
Theorem HasTool_GetToolServer_after_load env w path servers t :
  LoadMCPConfig env path = Ok (MCPConfig.mk (Some servers)) ->
  range_MCPServers env servers ≡ₚ map_to_list servers ->
  let out := Manager.LoadFromConfig env Manager.NewManager w path in
  let m' := out.2.1 in
  let w' := out.2.2 in
  let listed name :=
    exists cfg tools client,
      servers !! name = Some cfg
      /\ startup env name cfg = Ready tools client
      /\ t ∈ toolNames tools in
  (Manager.HasTool m' t = true <-> exists name, listed name)
  /\ (Manager.HasTool m' t = true -> listed (Manager.GetToolServer m' w' t))
  /\ (Manager.HasTool m' t = false ->
      Manager.GetToolServer m' w' t = EmptyString).
Proof.
  intros Hcfg Hperm out m' w' listed.
  destruct (LoadFromConfig_summary env w path servers Hcfg Hperm)
    as (_ & Hready & Htool & _).
  fold out in Hready, Htool. fold m' w' in Hready, Htool.
  clearbody m' w'. clear out.
  unfold Manager.HasTool, Manager.GetToolServer.
  destruct (Manager.toolToClient m' !! t) as [r|] eqn:Ht.
  - destruct (Htool t r Ht) as (name & cfg & tools & client & Hs & Hst & Hc
                                & Hh & Hin).
    destruct (startup_Ready _ _ _ _ _ Hst) as (Hname & _).
    rewrite Hh, Hname. split_and!.
    + split; [|reflexivity]. intros _. exists name, cfg, tools, client. auto.
    + intros _. exists cfg, tools, client. auto.
    + discriminate.
  - split_and!; [|discriminate|reflexivity].
    split; [discriminate|].
    intros (name & cfg & tools & client & Hs & Hst & Hin).
    destruct (Hready name cfg tools client Hs Hst) as (r & _ & _ & Hall).
    destruct (Hall t Hin) as [r' Hr']. congruence.
Qed.
End AfterLoading.

(* ================================================================= *)
(** ** Introspection and shutdown of the manager *)

Section Introspection.
Context `{GoLib}.

(** The loop that fills the slice of tool names, once the first
    entries are written. *)
Lemma fillToolNames_app tools : forall (written rest : list string),
  (length tools <= length rest)%nat ->
  Manager.fillToolNames (length written) tools (written ++ rest)
  = written ++ toolNames tools ++ drop (length tools) rest.
Proof.
  unfold toolNames.
  induction tools as [|tool tools IH]; intros written rest Hlen.
  - reflexivity.
  - destruct rest as [|x rest]; cbn [length] in Hlen; [lia|].
    cbn [Manager.fillToolNames map].
    replace (<[length written := MCPTool.Name tool]> (written ++ x :: rest))
      with ((written ++ [MCPTool.Name tool]) ++ rest).
    2: { rewrite insert_app_r_alt by lia. rewrite Nat.sub_diag.
         rewrite <- app_assoc. reflexivity. }
    replace (S (length written)) with (length (written ++ [MCPTool.Name tool]))
      by (rewrite length_app; cbn; lia).
    rewrite IH by lia. rewrite <- app_assoc. reflexivity.
Qed.

Lemma fillToolNames_toolNames tools :
  Manager.fillToolNames 0 tools (replicate (length tools) EmptyString)
  = toolNames tools.
Proof.
  pose proof (fillToolNames_app tools [] (replicate (length tools) EmptyString))
    as Hf.
  cbn [length app] in Hf. rewrite Hf by (rewrite length_replicate; lia).
  rewrite drop_ge by (rewrite length_replicate; lia).
  apply app_nil_r.
Qed.

Lemma GetServers_fold (w : World) (l : list (string * nat)) : forall acc,
  fold_left
    (fun servers entry =>
       match heap w !! entry.2 with
       | None => servers
       | Some client =>
           servers
           ++ [ServerInfo.mk entry.1
                 (match client with
                  | HTTPConn _ => "http"
                  | ProcessConn _ => "stdio"
                  end)
                 (Z.of_nat (length (Tools client)))
                 (Manager.fillToolNames 0 (Tools client)
                    (replicate (length (Tools client)) EmptyString))]
       end) l acc
  = acc ++ omap (fun entry => serverInfo entry.1 <$> heap w !! entry.2) l.
Proof.
  induction l as [|entry l IH]; intros acc.
  - cbn. rewrite app_nil_r. reflexivity.
  - cbn [fold_left omap list_omap]. rewrite IH.
    destruct (heap w !! entry.2) as [client|]; cbn; [|reflexivity].
    rewrite fillToolNames_toolNames, <- app_assoc. reflexivity.
Qed.

(** [GetServers] as a list: one entry for each visited pointer that
    points into the heap. *)
Lemma GetServers_omap visit m w :
  Manager.GetServers visit m w
  = omap (fun entry => serverInfo entry.1 <$> heap w !! entry.2)
         (visit (Manager.clients m)).
Proof. unfold Manager.GetServers. apply GetServers_fold. Qed.

Lemma foldl_backendTool tools : forall acc,
  fold_left
    (fun acc mcpTool =>
       acc ++ [backend_Tool.mk (MCPTool.Name mcpTool)
                 (MCPTool.Description mcpTool) (MCPTool.InputSchema mcpTool)])
    tools acc
  = acc ++ map backendTool tools.
Proof.
  induction tools as [|tool tools IH]; intros acc; cbn [fold_left map].
  - rewrite app_nil_r. reflexivity.
  - rewrite IH, <- app_assoc. reflexivity.
Qed.

Lemma GetBackendTools_fold (w : World) (l : list (string * nat)) :
  forall acc,
  fold_left
    (fun tools entry =>
       match heap w !! entry.2 with
       | None => tools
       | Some client =>
           fold_left
             (fun tools mcpTool =>
                tools ++ [backend_Tool.mk (MCPTool.Name mcpTool)
                            (MCPTool.Description mcpTool)
                            (MCPTool.InputSchema mcpTool)])
             (Tools client) tools
       end) l acc
  = acc ++ concat (omap (fun entry =>
                           (fun client => map backendTool (Tools client))
                             <$> heap w !! entry.2) l).
Proof.
  induction l as [|entry l IH]; intros acc.
  - cbn. rewrite app_nil_r. reflexivity.
  - cbn [fold_left omap list_omap]. rewrite IH.
    destruct (heap w !! entry.2) as [client|]; cbn; [|reflexivity].
    rewrite foldl_backendTool, <- app_assoc. reflexivity.
Qed.

(** [GetBackendTools] as a list. *)
Lemma GetBackendTools_concat visit m w :
  Manager.GetBackendTools visit m w
  = concat (omap (fun entry =>
                    (fun client => map backendTool (Tools client))
                      <$> heap w !! entry.2)
                 (visit (Manager.clients m))).
Proof. unfold Manager.GetBackendTools. apply GetBackendTools_fold. Qed.

Lemma visit_elem_of (visit : gmap string nat -> list (string * nat))
    (clients : gmap string nat) name r :
  visit clients ≡ₚ map_to_list clients ->
  (name, r) ∈ visit clients <-> clients !! name = Some r.
Proof. intros ->. apply elem_of_map_to_list. Qed.

(** X11.  After [LoadFromConfig] on a new manager, [GetServers] has
    one entry for each surviving server and no other: the entry bears
    the configuration name, the transport [stdio] for the
    standard-input-output transport and [http] for both [http] and
    [sse], the names of the tools the server listed, in the order it
    listed them, and their number. *)
Theorem GetServers_after_load env w path servers visit :
  LoadMCPConfig env path = Ok (MCPConfig.mk (Some servers)) ->
  range_MCPServers env servers ≡ₚ map_to_list servers ->
  let out := Manager.LoadFromConfig env Manager.NewManager w path in
  let m' := out.2.1 in
  let w' := out.2.2 in
  visit (Manager.clients m') ≡ₚ map_to_list (Manager.clients m') ->
  length (Manager.GetServers visit m' w') = size (Manager.clients m')
  /\ forall info,
       info ∈ Manager.GetServers visit m' w'
       <-> exists name cfg tools client,
             servers !! name = Some cfg
             /\ startup env name cfg = Ready tools client
             /\ info = ServerInfo.mk name
                         (if MCPServerConfig.IsStdio cfg then "stdio"
                          else "http")
                         (Z.of_nat (length tools)) (toolNames tools).
Proof.
  intros Hcfg Hperm out m' w' Hvisit.
  destruct (LoadFromConfig_summary env w path servers Hcfg Hperm)
    as (Hclient & Hready & _ & _).
  fold out in Hclient, Hready. fold m' w' in Hclient, Hready.
  clearbody m' w'. clear out.
  assert (Hinfo : forall name cfg tools client,
            startup env name cfg = Ready tools client ->
            serverInfo name client
            = ServerInfo.mk name
                (if MCPServerConfig.IsStdio cfg then "stdio" else "http")
                (Z.of_nat (length tools)) (toolNames tools)).
  { intros name cfg tools client Hst.
    destruct (startup_Ready _ _ _ _ _ Hst) as (_ & Ht & Hk).
    unfold serverInfo. rewrite Ht, <- Hk. destruct client; reflexivity. }
  rewrite GetServers_omap. split.
  - assert (Hlen : length (visit (Manager.clients m'))
                   = size (Manager.clients m'))
      by (rewrite Hvisit; apply length_map_to_list).
    rewrite <- Hlen. clear Hlen.
    assert (Hall : forall entry, entry ∈ visit (Manager.clients m') ->
                     is_Some (heap w' !! entry.2)).
    { intros [name r] Hin. apply (visit_elem_of _ _ _ _ Hvisit) in Hin.
      destruct (Hclient name r Hin) as (? & ? & client & _ & _ & Hh).
      cbn. eauto. }
    clear -Hall. induction (visit (Manager.clients m')) as [|entry l IH].
    + reflexivity.
    + cbn [omap list_omap length].
      destruct (Hall entry) as [client Hc]; [left|]. rewrite Hc. cbn.
      f_equal. apply IH. intros e He. apply Hall. right. exact He.
  - intros info. rewrite list_elem_of_omap. split.
    + intros ([name r] & Hin & Hi). cbn in Hi.
      apply (visit_elem_of _ _ _ _ Hvisit) in Hin.
      destruct (Hclient name r Hin) as (cfg & tools & client & Hs & Hst & Hh).
      rewrite Hh in Hi. cbn in Hi. injection Hi as <-.
      exists name, cfg, tools, client. split_and!; eauto.
    + intros (name & cfg & tools & client & Hs & Hst & ->).
      destruct (Hready name cfg tools client Hs Hst) as (r & Hc & Hh & _).
      exists (name, r). split.
      * apply (visit_elem_of _ _ _ _ Hvisit). exact Hc.
      * cbn. rewrite Hh. cbn. f_equal. eauto.
Qed.

(** X12.  After [LoadFromConfig] on a new manager, the tools
    [GetBackendTools] hands to the model are the tools the surviving
    servers listed, with name, description and input schema unchanged;
    each of them can be routed ([HasTool]), and every name that can be
    routed is among them. *)
Theorem GetBackendTools_after_load env w path servers visit :
  LoadMCPConfig env path = Ok (MCPConfig.mk (Some servers)) ->
  range_MCPServers env servers ≡ₚ map_to_list servers ->
  let out := Manager.LoadFromConfig env Manager.NewManager w path in
  let m' := out.2.1 in
  let w' := out.2.2 in
  visit (Manager.clients m') ≡ₚ map_to_list (Manager.clients m') ->
  (forall tool,
     tool ∈ Manager.GetBackendTools visit m' w'
     <-> exists name cfg tools client mcpTool,
           servers !! name = Some cfg
           /\ startup env name cfg = Ready tools client
           /\ mcpTool ∈ tools
           /\ tool = backendTool mcpTool)
  /\ (forall tool,
        tool ∈ Manager.GetBackendTools visit m' w' ->
        Manager.HasTool m' (backend_Tool.Name tool) = true)
  /\ (forall t,
        Manager.HasTool m' t = true ->
        exists tool, tool ∈ Manager.GetBackendTools visit m' w'
                     /\ backend_Tool.Name tool = t).
Proof.
  intros Hcfg Hperm out m' w' Hvisit.
  destruct (LoadFromConfig_summary env w path servers Hcfg Hperm)
    as (Hclient & Hready & Htool & _).
  fold out in Hclient, Hready, Htool. fold m' w' in Hclient, Hready, Htool.
  clearbody m' w'. clear out.
  assert (Hchar : forall tool,
            tool ∈ Manager.GetBackendTools visit m' w'
            <-> exists name cfg tools client mcpTool,
                  servers !! name = Some cfg
                  /\ startup env name cfg = Ready tools client
                  /\ mcpTool ∈ tools
                  /\ tool = backendTool mcpTool).
  { intros tool. rewrite GetBackendTools_concat.
    rewrite list_elem_of_In, in_concat.
    setoid_rewrite <- list_elem_of_In.
    split.
    - intros (ts & Hts & Hin). apply list_elem_of_omap in Hts
        as ([name r] & Hv & Hts). cbn in Hts.
      apply (visit_elem_of _ _ _ _ Hvisit) in Hv.
      destruct (Hclient name r Hv) as (cfg & tools & client & Hs & Hst & Hh).
      rewrite Hh in Hts. cbn in Hts. injection Hts as <-.
      apply list_elem_of_fmap in Hin as (mcpTool & -> & Hin).
      destruct (startup_Ready _ _ _ _ _ Hst) as (_ & Ht & _).
      change (mcpTool ∈ Tools client) in Hin.
      rewrite Ht in Hin. exists name, cfg, tools, client, mcpTool. auto.
    - intros (name & cfg & tools & client & mcpTool & Hs & Hst & Hin & ->).
      destruct (Hready name cfg tools client Hs Hst) as (r & Hc & Hh & _).
      destruct (startup_Ready _ _ _ _ _ Hst) as (_ & Ht & _).
      exists (map backendTool tools). split.
      + apply list_elem_of_omap. exists (name, r). split.
        * apply (visit_elem_of _ _ _ _ Hvisit). exact Hc.
        * rewrite <- Ht. cbn [snd]. rewrite Hh. reflexivity.
      + apply list_elem_of_fmap. eauto. }
  split_and!.
  - exact Hchar.
  - intros tool Hin. apply Hchar in Hin
      as (name & cfg & tools & client & mcpTool & Hs & Hst & Hin & ->).
    destruct (Hready name cfg tools client Hs Hst) as (r & _ & _ & Hall).
    unfold Manager.HasTool. cbn.
    destruct (Hall (MCPTool.Name mcpTool)) as [r' ->]; [|reflexivity].
    apply list_elem_of_fmap. eauto.
  - intros t Ht. unfold Manager.HasTool in Ht.
    destruct (Manager.toolToClient m' !! t) as [r|] eqn:Hr; [|discriminate].
    destruct (Htool t r Hr) as (name & cfg & tools & client & Hs & Hst & _
                                & _ & Hin).
    apply list_elem_of_fmap in Hin as (mcpTool & -> & Hin).
    exists (backendTool mcpTool). split; [|reflexivity].
    apply Hchar. exists name, cfg, tools, client, mcpTool. auto.
Qed.
End Introspection.

(* ================================================================= *)
(** ** Shutdown, the log, and the configuration *)

Section Shutdown.
Context `{GoLib}.

Lemma closeConn_Name_isClosed (client : Conn) :
  Name (closeConn client).2 = Name client
  /\ isClosed (closeConn client).2
  /\ isProcess (closeConn client).2 = isProcess client
  /\ (isProcess client = false -> (closeConn client).2 = client).
Proof.
  unfold closeConn. split_and!.
  - apply (doOp_name_counter client OpClose).
  - apply Close_isClosed.
  - apply (doOp_isProcess client OpClose).
  - destruct client; [discriminate|reflexivity].
Qed.

(** The loop of [Manager.Close] over a list of entries. *)
Lemma Manager_Close_fold (l : list (string * nat)) : forall w,
  let w' :=
    fold_left
      (fun w entry =>
         match heap w !! entry.2 with
         | None => w
         | Some client =>
             store (emit w [Call entry.2 MClose]) entry.2 (closeConn client).2
         end) l w in
  (forall r, r ∉ l.*2 -> heap w' !! r = heap w !! r)
  /\ (forall r client,
        heap w !! r = Some client ->
        exists client', heap w' !! r = Some client'
                        /\ Name client' = Name client
                        /\ isProcess client' = isProcess client
                        /\ (isProcess client = false -> client' = client)
                        /\ (isClosed client \/ r ∈ l.*2 -> isClosed client')
                        /\ (r ∈ l.*2 -> Call r MClose ∈ trace w'))
  /\ (forall r, heap w !! r = None -> heap w' !! r = None)
  /\ (forall ev, ev ∈ trace w -> ev ∈ trace w').
Proof.
  induction l as [|[name r0] l IH]; intros w; cbv zeta.
  - cbn. split_and!; auto.
    intros r client Hr. exists client. split_and!; auto.
    + intros [?|Hin]; [assumption|inversion Hin].
    + intros Hin. inversion Hin.
  - cbn [fold_left snd].
    set (w1 := match heap w !! r0 with
               | None => w
               | Some client =>
                   store (emit w [Call r0 MClose]) r0 (closeConn client).2
               end).
    destruct (IH w1) as (IHother & IHsome & IHnone & IHtrace).
    assert (Htr1 : forall ev, ev ∈ trace w -> ev ∈ trace w1).
    { intros ev Hev. subst w1. destruct (heap w !! r0); [|exact Hev].
      cbn. apply elem_of_app. auto. }
    assert (Hother1 : forall r, r <> r0 -> heap w1 !! r = heap w !! r).
    { intros r Hne. subst w1. destruct (heap w !! r0); [|reflexivity].
      cbn. apply lookup_insert_ne. congruence. }
    split_and!.
    + intros r Hr. rewrite fmap_cons in Hr. cbn in Hr.
      apply not_elem_of_cons in Hr as [Hne Hr].
      rewrite IHother by assumption. auto.
    + intros r client Hr.
      destruct (decide (r = r0)) as [->|Hne].
      * assert (Hw1 : heap w1 !! r0 = Some (closeConn client).2
                      /\ Call r0 MClose ∈ trace w1).
        { subst w1. rewrite Hr. cbn. rewrite lookup_insert_eq.
          split; [reflexivity|]. apply elem_of_app. right. left. }
        destruct Hw1 as [Hh1 Hc1].
        destruct (closeConn_Name_isClosed client) as (Hn & Hcl & Hk & Hsame).
        destruct (IHsome r0 _ Hh1)
          as (client' & Hh' & Hn' & Hk' & Hsame' & Hcl' & _).
        exists client'. split_and!; auto; try congruence.
        intros Hp. rewrite Hsame' by congruence. auto.
      * rewrite <- (Hother1 r Hne) in Hr.
        destruct (IHsome r client Hr)
          as (client' & Hh' & Hn' & Hk' & Hsame' & Hcl' & Htr').
        exists client'. split_and!; auto.
        -- intros [Hc|Hin]; [auto|]. apply Hcl'. right.
           rewrite fmap_cons in Hin. cbn in Hin.
           apply elem_of_cons in Hin as [?|?]; [contradiction|assumption].
        -- intros Hin. apply Htr'.
           rewrite fmap_cons in Hin. cbn in Hin.
           apply elem_of_cons in Hin as [?|?]; [contradiction|assumption].
    + intros r Hr. apply IHnone.
      destruct (decide (r = r0)) as [->|Hne].
      * subst w1. rewrite Hr. exact Hr.
      * rewrite Hother1 by assumption. exact Hr.
    + intros ev Hev. apply IHtrace, Htr1, Hev.
Qed.

(** X13.  [Manager.Close] calls [Close] on every registered connection
    and on nothing else: afterwards each registered connection is
    closed (a process connection has its pipe closed and its process
    gone) and still bears its name, a [Close] call on it is in the
    trace, every other object of the heap is as it was, and no object
    has appeared or disappeared.  The client set and the routing table
    are not touched, so a tool of a closed connection is still
    routed. *)
Theorem Manager_Close_closes visit m w :
  visit (Manager.clients m) ≡ₚ map_to_list (Manager.clients m) ->
  let w' := Manager.Close visit m w in
  (forall name r client,
     Manager.clients m !! name = Some r ->
     heap w !! r = Some client ->
     exists client', heap w' !! r = Some client'
                     /\ isClosed client'
                     /\ Name client' = Name client
                     /\ Call r MClose ∈ trace w')
  /\ (forall r,
        (forall name, Manager.clients m !! name <> Some r) ->
        heap w' !! r = heap w !! r)
  /\ dom (heap w') = dom (heap w).
Proof.
  intros Hvisit. cbv zeta. unfold Manager.Close.
  destruct (Manager_Close_fold (visit (Manager.clients m)) w)
    as (Hother & Hsome & Hnone & _).
  cbv zeta in Hother, Hsome, Hnone.
  assert (Hin : forall r, r ∈ (visit (Manager.clients m)).*2
                          <-> exists name, Manager.clients m !! name = Some r).
  { intros r. rewrite list_elem_of_fmap. split.
    - intros ([name r'] & -> & Hin). exists name.
      apply (visit_elem_of _ _ _ _ Hvisit). exact Hin.
    - intros [name Hn]. exists (name, r). split; [reflexivity|].
      apply (visit_elem_of _ _ _ _ Hvisit). exact Hn. }
  split_and!.
  - intros name r client Hc Hh.
    destruct (Hsome r client Hh)
      as (client' & Hh' & Hn' & _ & _ & Hcl' & Htr').
    exists client'. split_and!; auto.
    + apply Hcl'. right. apply Hin. eauto.
    + apply Htr'. apply Hin. eauto.
  - intros r Hr. apply Hother. rewrite Hin. intros [name Hn].
    exact (Hr name Hn).
  - apply set_eq. intros r. rewrite !elem_of_dom. split.
    + intros [c' Hc']. destruct (heap w !! r) as [c|] eqn:Hr; [eauto|].
      rewrite (Hnone r Hr) in Hc'. discriminate.
    + intros [c Hc]. destruct (Hsome r c Hc) as (c' & Hc' & _). eauto.
Qed.

(** X17.  After [Manager.Close] a tool of a process connection is
    still routed but can no longer be called, [ExecuteTool] returns the
    error of the failed [tools/call]; a tool of an HTTP connection
    answers as before, since closing an HTTP connection does
    nothing. *)
Theorem ExecuteTool_after_Close visit m w t name r client args :
  visit (Manager.clients m) ≡ₚ map_to_list (Manager.clients m) ->
  Manager.toolToClient m !! t = Some r ->
  Manager.clients m !! name = Some r ->
  heap w !! r = Some client ->
  let w' := Manager.Close visit m w in
  if isProcess client
  then exists e,
         (Manager.ExecuteTool m w' t args).1
         = Err (fmt_Errorf "tools/call failed: %w" [ArgErr e])
  else (Manager.ExecuteTool m w' t args).1
       = (Manager.ExecuteTool m w t args).1.
Proof.
  intros Hvisit Ht Hc Hh. cbv zeta. unfold Manager.Close.
  destruct (Manager_Close_fold (visit (Manager.clients m)) w)
    as (_ & Hsome & _ & _).
  cbv zeta in Hsome.
  destruct (Hsome r client Hh)
    as (client' & Hh' & _ & Hk & Hsame & Hcl & _).
  assert (Hin : r ∈ (visit (Manager.clients m)).*2).
  { apply list_elem_of_fmap. exists (name, r). split; [reflexivity|].
    apply (visit_elem_of _ _ _ _ Hvisit). exact Hc. }
  rewrite (ExecuteTool_known _ _ _ _ _ _ Ht Hh'). cbn [fst].
  destruct (isProcess client) eqn:Hp.
  - destruct client' as [c'|c']; [|discriminate].
    destruct Hcl as [Hclosed _]; [auto|].
    cbn. unfold Client.CallTool.
    destruct (Client_sendRequest_closed c' "tools/call"
                (JObj [("name", JStr t); ("arguments", args)]) Hclosed)
      as ([e He] & _).
    destruct (Client.sendRequest _ _ _) as [[?|e0] c2]; cbn in *;
      [discriminate|]. eauto.
  - rewrite (ExecuteTool_known _ _ _ _ _ _ Ht Hh). cbn [fst].
    rewrite Hsame by reflexivity. reflexivity.
Qed.

(** X14.  No configured server is dropped in silence: after
    [LoadFromConfig], the log holds for every server of the
    configuration the line that tells what became of it, with its name
    and, for a failure, the error. *)
Theorem LoadFromConfig_logs env w path servers name cfg :
  LoadMCPConfig env path = Ok (MCPConfig.mk (Some servers)) ->
  range_MCPServers env servers ≡ₚ map_to_list servers ->
  servers !! name = Some cfg ->
  let w' := (Manager.LoadFromConfig env Manager.NewManager w path).2.2 in
  match startup env name cfg with
  | Unsupported =>
      Log "Warning: unsupported transport type %s for MCP server %s"
          [ArgStr (MCPServerConfig.Type_ cfg); ArgStr name] ∈ trace w'
  | StartFailed err =>
      Log "Warning: failed to start MCP server %s: %v"
          [ArgStr name; ArgErr err] ∈ trace w'
  | InitializeFailed err _ =>
      Log "Warning: failed to initialize MCP server %s: %v"
          [ArgStr name; ArgErr err] ∈ trace w'
  | ListToolsFailed err _ =>
      Log "Warning: failed to list tools from MCP server %s: %v"
          [ArgStr name; ArgErr err] ∈ trace w'
  | Ready tools _ =>
      Log "Loaded %d tools from MCP server %s"
          [ArgInt (Z.of_nat (length tools)); ArgStr name] ∈ trace w'
  end.
Proof.
  intros Hcfg Hperm Hs. cbv zeta.
  rewrite (LoadFromConfig_loaded _ _ _ _ _ Hcfg). cbn [snd].
  pose proof (range_NoDup _ _ Hperm) as Hnd.
  apply (range_elem_of _ _ _ _ Hperm) in Hs.
  apply list_elem_of_split in Hs as (l1 & l2 & Hl). rewrite Hl in *.
  rewrite fold_left_app. cbn [fold_left].
  destruct (fold_left (Manager.loadServer env) l1 (Manager.NewManager, w))
    as [m0 w0].
  assert (Hnd2 : NoDup l2.*1).
  { rewrite fmap_app in Hnd. apply NoDup_app in Hnd as (_ & _ & Hnd).
    rewrite fmap_cons in Hnd. apply NoDup_cons in Hnd as [_ ?]. assumption. }
  rewrite loadServer_startup. cbv zeta.
  destruct (startup env name cfg) as [|err|err closed|err closed|tools client];
    match goal with
    | |- _ ∈ trace (fold_left _ l2 (?m1, ?w1)).2 =>
        apply (loaded_trace _ _ _ _ _ _ (Loaded_fold env l2 m1 w1 Hnd2));
        cbn; apply elem_of_app; right; set_solver
    end.
Qed.
End Shutdown.

(* ================================================================= *)
(** ** The configuration and the callers *)

Section Configuration.
Context `{GoLib}.

(** X8.  The transport type of a server selects at most one kind of
    connection, by exact comparison: the empty type and [stdio] a
    process connection, [sse] and [http] an HTTP connection, and any
    other type (the same words in capitals included) none, in which
    case the loop of [LoadFromConfig] builds no client.  An HTTP
    connection is built without contacting the server, and if and only
    if the URL is not empty. *)
Theorem transport_kinds env name cfg :
  let ty := MCPServerConfig.Type_ cfg in
  (MCPServerConfig.IsStdio cfg = true <-> ty = EmptyString \/ ty = "stdio")
  /\ (MCPServerConfig.IsStdio cfg = true ->
      MCPServerConfig.IsSSE cfg = false /\ MCPServerConfig.IsHTTP cfg = false)
  /\ (MCPServerConfig.IsSSE cfg = true -> MCPServerConfig.IsHTTP cfg = false)
  /\ (Manager.newClient env name cfg = None
      <-> ty <> EmptyString /\ ty <> "stdio" /\ ty <> "sse" /\ ty <> "http")
  /\ (ty = "sse" \/ ty = "http" ->
      if bool_decide (MCPServerConfig.URL cfg = EmptyString)
      then Manager.newClient env name cfg
           = Some (Err (fmt_Errorf "URL is required for HTTP/SSE transport" []))
      else Manager.newClient env name cfg
           = Some (Ok (HTTPConn
                         (HTTPClient.mk name (MCPServerConfig.URL cfg)
                            (http_Client env (MCPServerConfig.URL cfg))
                            [] 0 [] (bool_decide (ty = "sse")))))).
Proof.
  cbv zeta. unfold Manager.newClient, MCPServerConfig.IsStdio,
    MCPServerConfig.IsSSE, MCPServerConfig.IsHTTP,
    HTTPClient.NewHTTPClient, MCPServerConfig.IsSSE.
  destruct cfg as [cmd args envs ty url desc]. cbn.
  repeat case_bool_decide; subst; cbn;
    split_and!; try (intros; congruence); try tauto;
    try (split; [discriminate|intros; intuition congruence]);
    try (intros [?|?]; congruence);
    try (split; [intros [?|?]; congruence|discriminate]);
    try (destruct (exec_Command env _); split;
         [discriminate|intros; intuition congruence]).
Qed.

(** X9.  [LoadMCPConfig] never returns a configuration with a nil
    server map; and the only errors it returns are a read error that
    [os.IsNotExist] does not recognise and a decoding error, each
    returned as it is.  (A home directory that cannot be found gives
    the empty configuration, not an error.) *)
Theorem LoadMCPConfig_results env path :
  (forall config,
     LoadMCPConfig env path = Ok config ->
     MCPConfig.MCPServers config <> None)
  /\ (forall e,
        LoadMCPConfig env path = Err e ->
        exists p,
          expandHome env path = Some p
          /\ (os_ReadFile env p = Err e /\ os_IsNotExist e = false
              \/ exists data, os_ReadFile env p = Ok data
                              /\ json_Unmarshal_MCPConfig data = Err e))
  /\ (expandHome env path = None ->
      LoadMCPConfig env path = Ok (MCPConfig.mk (Some ∅))).
Proof.
  unfold LoadMCPConfig.
  destruct (expandHome env path) as [p|]; [|split_and!; [|discriminate|auto]].
  2: { intros config [= <-]. discriminate. }
  split_and!; [| |discriminate].
  - intros config.
    destruct (os_ReadFile env p) as [data|e].
    + destruct (json_Unmarshal_MCPConfig data) as [c|]; [|discriminate].
      destruct (MCPConfig.MCPServers c) eqn:Hc; intros [= <-];
        [congruence|discriminate].
    + destruct (os_IsNotExist e); [|discriminate].
      intros [= <-]. discriminate.
  - intros e He. exists p. split; [reflexivity|].
    destruct (os_ReadFile env p) as [data|e0].
    + right. exists data. split; [reflexivity|].
      destruct (json_Unmarshal_MCPConfig data) as [c|]; [|congruence].
      destruct (MCPConfig.MCPServers c); discriminate.
    + left. destruct (os_IsNotExist e0) eqn:Hne; [discriminate|].
      injection He as <-. auto.
Qed.

(** X15.  [LoadFromConfig] fails only when the configuration cannot be
    loaded: it then returns the error of [LoadMCPConfig] wrapped in
    [failed to load MCP config], starts no server and leaves the
    manager and the world as they were; when the configuration loads,
    it returns no error whatever the servers do. *)
Theorem LoadFromConfig_error env m w path :
  match LoadMCPConfig env path with
  | Err e =>
      Manager.LoadFromConfig env m w path
      = (Some (fmt_Errorf "failed to load MCP config: %w" [ArgErr e]), (m, w))
  | Ok _ => (Manager.LoadFromConfig env m w path).1 = None
  end
  /\ forall err,
       (Manager.LoadFromConfig env m w path).1 = Some err ->
       (Manager.LoadFromConfig env m w path).2 = (m, w)
       /\ exists e p,
            err = fmt_Errorf "failed to load MCP config: %w" [ArgErr e]
            /\ expandHome env path = Some p
            /\ (os_ReadFile env p = Err e /\ os_IsNotExist e = false
                \/ exists data, os_ReadFile env p = Ok data
                                /\ json_Unmarshal_MCPConfig data = Err e).
Proof.
  destruct (LoadMCPConfig_results env path) as (_ & Herr & _).
  unfold Manager.LoadFromConfig.
  destruct (LoadMCPConfig env path) as [config|e].
  - split; [reflexivity|]. cbn. discriminate.
  - split; [reflexivity|]. cbn. intros err [= <-]. split; [reflexivity|].
    destruct (Herr e eq_refl) as (p & Hp & Hor). exists e, p. auto.
Qed.
End Configuration.

(* ================================================================= *)
(** ** Running the tool calls of the model *)

Section ToolCalls.
Context `{GoLib} {FS : Type}.
Variables toolRead toolWrite toolEdit toolGlob toolGrep toolBash :
  JSON -> FS -> result string * FS.
Variable fmt_v : JSON -> string.

Lemma executeToolCall_spec mcpManager results w fs toolCall :
  exists content w' fs',
    executeToolCall toolRead toolWrite toolEdit toolGlob toolGrep toolBash
      fmt_v mcpManager (results, w, fs) toolCall
    = (results ++ [api_Message.mk "tool" content (api_ToolCall.ID toolCall)],
       w', fs')
    /\ (routed mcpManager (api_ToolCall.Name toolCall) = true -> fs' = fs)
    /\ (routed mcpManager (api_ToolCall.Name toolCall) = false -> w' = w).
Proof.
  unfold executeToolCall, routed.
  destruct mcpManager as [m|].
  - destruct (Manager.HasTool m (api_ToolCall.Name toolCall)).
    + destruct (Manager.ExecuteTool m w _ _) as [[res|err] w1];
        eexists _, _, _; split_and!; try reflexivity; discriminate.
    + destruct (executeTool _ _ _ _ _ _ _ _ _) as [[res|err] fs1];
        eexists _, _, _; split_and!; try reflexivity; discriminate.
  - destruct (executeTool _ _ _ _ _ _ _ _ _) as [[res|err] fs1];
      eexists _, _, _; split_and!; try reflexivity; discriminate.
Qed.

Lemma executeTools_fold mcpManager toolCalls : forall results w fs,
  let out :=
    fold_left
      (executeToolCall toolRead toolWrite toolEdit toolGlob toolGrep toolBash
         fmt_v mcpManager) toolCalls (results, w, fs) in
  map api_Message.ToolCallID out.1.1
  = map api_Message.ToolCallID results ++ map api_ToolCall.ID toolCalls
  /\ (Forall (fun msg => api_Message.Role msg = "tool") results ->
      Forall (fun msg => api_Message.Role msg = "tool") out.1.1)
  /\ (Forall (fun toolCall =>
                routed mcpManager (api_ToolCall.Name toolCall) = true)
             toolCalls -> out.2 = fs)
  /\ (Forall (fun toolCall =>
                routed mcpManager (api_ToolCall.Name toolCall) = false)
             toolCalls -> out.1.2 = w).
Proof.
  induction toolCalls as [|toolCall toolCalls IH]; intros results w fs;
    cbv zeta.
  - cbn. rewrite app_nil_r. auto.
  - cbn [fold_left].
    destruct (executeToolCall_spec mcpManager results w fs toolCall)
      as (content & w1 & fs1 & -> & Hfs & Hw).
    destruct (IH (results ++ [api_Message.mk "tool" content
                                (api_ToolCall.ID toolCall)]) w1 fs1)
      as (IH1 & IH2 & IH3 & IH4).
    cbv zeta in IH1, IH2, IH3, IH4. split_and!.
    + rewrite IH1, map_app, <- app_assoc. reflexivity.
    + intros Hr. apply IH2. apply Forall_app. split; [assumption|].
      repeat constructor.
    + intros Hall. apply Forall_cons in Hall as [Hc Hall].
      rewrite IH3 by assumption. auto.
    + intros Hall. apply Forall_cons in Hall as [Hc Hall].
      rewrite IH4 by assumption. auto.
Qed.

(** The messages of the calls already answered stay where they are:
    the loop only appends. *)
Lemma executeTools_appends mcpManager toolCalls : forall results w fs,
  exists more,
    (fold_left
       (executeToolCall toolRead toolWrite toolEdit toolGlob toolGrep toolBash
          fmt_v mcpManager) toolCalls (results, w, fs)).1.1
    = results ++ more.
Proof.
  induction toolCalls as [|toolCall toolCalls IH]; intros results w fs.
  - exists []. cbn. rewrite app_nil_r. reflexivity.
  - cbn [fold_left].
    destruct (executeToolCall_spec mcpManager results w fs toolCall)
      as (content & w1 & fs1 & -> & _).
    destruct (IH (results ++ [api_Message.mk "tool" content
                                (api_ToolCall.ID toolCall)]) w1 fs1)
      as (more & ->).
    rewrite <- app_assoc. eauto.
Qed.

(** One turn of the loop: a routed name goes to the manager, any other
    name to the built-in tools, and the outcome is answered with
    [toolMessage]. *)
Lemma executeToolCall_run mcpManager results w fs toolCall :
  let name := api_ToolCall.Name toolCall in
  let args := api_ToolCall.Arguments toolCall in
  let after :=
    executeToolCall toolRead toolWrite toolEdit toolGlob toolGrep toolBash
      fmt_v mcpManager (results, w, fs) toolCall in
  (forall m,
     mcpManager = Some m ->
     Manager.HasTool m name = true ->
     let r := Manager.ExecuteTool m w name args in
     after = (results ++ [toolMessage fmt_v toolCall r.1], r.2, fs))
  /\ (routed mcpManager name = false ->
      let r :=
        executeTool toolRead toolWrite toolEdit toolGlob toolGrep toolBash
          name args fs in
      after = (results ++ [toolMessage fmt_v toolCall r.1], w, r.2)).
Proof.
  cbv zeta. unfold executeToolCall, routed, toolMessage. split.
  - intros m -> ->.
    destruct (Manager.ExecuteTool m w _ _) as [[res|err] w1]; reflexivity.
  - intros Hr.
    destruct mcpManager as [m|]; [rewrite Hr|];
      destruct (executeTool _ _ _ _ _ _ _ _ _) as [[res|err] fs1];
      reflexivity.
Qed.

(** X16.  [executeTools] answers every tool call of the model with
    exactly one message of role [tool], in the order of the calls, each
    bearing the identifier of its call, whether the tool succeeds or
    fails.  A name the manager routes is always run by the manager,
    also when it is the name of a built-in tool: the message of such a
    call holds what [Manager.ExecuteTool] returned for its name and
    arguments, run in the world the calls before it left, the world
    after the call is the one [ExecuteTool] left, and no built-in tool
    runs (the files are untouched).  Any other name, and every name
    when there is no manager, is run by the built-in [executeTool] on
    the files the calls before it left, its message holds what that
    returned, and no connection is called (the world is untouched).
    In both cases an error is answered as a message, with the name and
    the arguments of the call. *)
Theorem executeTools_messages mcpManager toolCalls w fs :
  let run :=
    executeTools toolRead toolWrite toolEdit toolGlob toolGrep toolBash fmt_v
      mcpManager in
  let out := run toolCalls w fs in
  map api_Message.ToolCallID out.1.1 = map api_ToolCall.ID toolCalls
  /\ Forall (fun msg => api_Message.Role msg = "tool") out.1.1
  /\ (Forall (fun toolCall =>
                routed mcpManager (api_ToolCall.Name toolCall) = true)
             toolCalls -> out.2 = fs)
  /\ (Forall (fun toolCall =>
                routed mcpManager (api_ToolCall.Name toolCall) = false)
             toolCalls -> out.1.2 = w)
  /\ (forall pre toolCall post,
        toolCalls = pre ++ toolCall :: post ->
        let before := run pre w fs in
        let after := run (pre ++ [toolCall]) w fs in
        let name := api_ToolCall.Name toolCall in
        let args := api_ToolCall.Arguments toolCall in
        (forall m,
           mcpManager = Some m ->
           Manager.HasTool m name = true ->
           let r := Manager.ExecuteTool m before.1.2 name args in
           out.1.1 !! length pre = Some (toolMessage fmt_v toolCall r.1)
           /\ after.1.2 = r.2
           /\ after.2 = before.2)
        /\ (routed mcpManager name = false ->
            let r :=
              executeTool toolRead toolWrite toolEdit toolGlob toolGrep
                toolBash name args before.2 in
            out.1.1 !! length pre = Some (toolMessage fmt_v toolCall r.1)
            /\ after.1.2 = before.1.2
            /\ after.2 = r.2)).
Proof.
  cbv zeta. unfold executeTools.
  destruct (executeTools_fold mcpManager toolCalls [] w fs)
    as (H1 & H2 & H3 & H4).
  cbv zeta in H1, H2, H3, H4. split_and!; auto.
  intros pre toolCall post ->.
  rewrite !fold_left_app. cbn [fold_left].
  destruct (executeTools_fold mcpManager pre [] w fs) as (Hpre & _).
  cbv zeta in Hpre. cbn [map app] in Hpre.
  apply (f_equal length) in Hpre. rewrite !length_map in Hpre.
  destruct (fold_left _ pre _) as [[results w1] fs1] eqn:Hbefore.
  cbn [fst snd] in *.
  destruct (executeToolCall_run mcpManager results w1 fs1 toolCall)
    as [Hm Hb].
  cbv zeta in Hm, Hb.
  assert (Hat : forall msg w2 fs2,
             (fold_left
                (executeToolCall toolRead toolWrite toolEdit toolGlob
                   toolGrep toolBash fmt_v mcpManager) post
                (results ++ [msg], w2, fs2)).1.1 !! length pre = Some msg).
  { intros msg w2 fs2.
    destruct (executeTools_appends mcpManager post (results ++ [msg]) w2 fs2)
      as (more & ->).
    rewrite <- Hpre, <- app_assoc. apply list_lookup_middle. reflexivity. }
  split.
  - intros m Hsome Hhas. rewrite (Hm m Hsome Hhas). cbn [fst snd].
    split_and!; [apply Hat|reflexivity..].
  - intros Hr. rewrite (Hb Hr). cbn [fst snd].
    split_and!; [apply Hat|reflexivity..].
Qed.
End ToolCalls.

(* ================================================================= *)
(** ** Further concrete runs *)

Section FurtherRuns.
Import Examples.

(** X1 on a result with two text blocks and an image block. *)
Lemma CallTool_text_witness :
  (@Client.CallTool RefLib.lib (freshClient (RefLib.lines [mixedResultLine]))
     "draw" (JObj [])).1 = Ok "ab".
Proof.
  evar (resp : JSONRPCResponse.t). evar (c' : Client.t).
  evar (result : MCPToolCallResult.t).
  assert (Hs : @Client.sendRequest RefLib.lib
                 (freshClient (RefLib.lines [mixedResultLine])) "tools/call"
                 (JObj [("name", JStr "draw"); ("arguments", JObj [])])
               = (Ok resp, c')) by (subst resp c'; run_lhs).
  assert (Hr : @json_Unmarshal_MCPToolCallResult RefLib.lib
                 (RawMessage_bytes (JSONRPCResponse.Result resp)) = Ok result)
    by (subst resp result; run_lhs).
  rewrite (proj1 (@CallTool_text RefLib.lib) _ _ _ _ _ _ Hs Hr). run.
Defined.

(** X2 on the life of a connection to the server [alpha]. *)
Lemma runOps_name_counter_witness :
  let c := ProcessConn
             (freshClient (serverOutput searchTool "alpha")) in
  let c' := (@runOps RefLib.lib c
               [OpInitialize; OpListTools; OpCallTool "search" (JObj []);
                OpClose; OpCallTool "search" (JObj [])]).2 in
  @Name _ (@Conn_MCPClient RefLib.lib) c' = "srv"
  /\ @counter c' = 4.
Proof.
  cbv zeta.
  destruct (@runOps_name_counter RefLib.lib
              [OpInitialize; OpListTools; OpCallTool "search" (JObj []);
               OpClose; OpCallTool "search" (JObj [])]
              (ProcessConn (freshClient (serverOutput searchTool "alpha"))))
    as [Hn Hc].
  - reflexivity.
  - rewrite Hn, Hc. split; run.
Defined.

(** X3 on a connection whose pipe is closed. *)
Lemma sendRequest_unsendable_witness :
  let c := (Client.Close (freshClient (RefLib.lines [resultLine1]))).2 in
  let out := @Client.sendRequest RefLib.lib c "tools/list" JNull in
  Client.stdout out.2 = Client.stdout c /\ Client.requestID out.2 = 1.
Proof.
  cbv zeta.
  destruct (@sendRequest_unsendable RefLib.lib
              (Client.Close (freshClient (RefLib.lines [resultLine1]))).2
              "tools/list" JNull)
    as (_ & Hout & _ & Hid).
  - intros data (_ & Hc & _). vm_compute in Hc. discriminate.
  - split; [exact Hout|]. rewrite Hid. run.
Defined.

(** X4 on a response that comes without its newline. *)
Lemma sendRequest_unterminated_line_witness :
  (@Client.sendRequest RefLib.lib
     (freshClient (feed ["server listening on stdio"] resultLine1))
     "tools/list" JNull).1
  = Err (fmt_Errorf "failed to read response: %w" [ArgErr io_EOF]).
Proof.
  refine (proj1 (@sendRequest_unterminated_line RefLib.lib _ "tools/list" JNull
                   listRequest1 ["server listening on stdio"] resultLine1
                   _ _ _ _ _ _)).
  - split_and!; run.
  - reflexivity.
  - each run.
  - run.
  - each idtac. left. right; left. run.
  - cbn. lia.
Defined.

(** X6 on a new SSE connection. *)
Lemma runOps_HTTP_endpoint_witness :
  let c := HTTPClient.mk "web" "http://localhost:8081/sse"
             (fun _ _ _ => http.Response 200 resultLine99 None) [] 0 [] true in
  exists c',
    (@runOps RefLib.lib (HTTPConn c) [OpInitialize; OpListTools]).2
    = HTTPConn c'
    /\ Forall (fun p => p.1 = "http://localhost:8081/sse/message")
              (HTTPClient.posted c').
Proof.
  cbv zeta.
  destruct (@runOps_HTTP_endpoint RefLib.lib [OpInitialize; OpListTools]
              (HTTPClient.mk "web" "http://localhost:8081/sse"
                 (fun _ _ _ => http.Response 200 resultLine99 None) [] 0 []
                 true))
    as (c' & Hc' & _ & Hp & _).
  - constructor.
  - exists c'. split; [exact Hc'|exact Hp].
Defined.

(** X7 on the responses of the earlier runs. *)
Lemma sendRequest_Ok_no_error_witness :
  JSONRPCResponse.Error response1 = None
  /\ JSONRPCResponse.Error response99 = None.
Proof.
  split.
  - refine (proj1 (@sendRequest_Ok_no_error RefLib.lib)
              (freshClient (feed [resultLine1] EmptyString))
              "tools/list" JNull response1 _). run.
  - refine (proj1 (proj2 (@sendRequest_Ok_no_error RefLib.lib)
                     (freshHTTPClient resultLine99) "tools/list" JNull
                     response99 _)). run.
Defined.

(** X8 on a transport type written in capitals. *)
Lemma transport_kinds_witness :
  Manager.newClient exampleEnv "web" capitalsServer = None.
Proof.
  destruct (transport_kinds exampleEnv "web" capitalsServer)
    as (_ & _ & _ & Hnone & _).
  apply Hnone. cbn. split_and!; discriminate.
Defined.

(** X9 on the malformed file of the example world. *)
Lemma LoadMCPConfig_results_witness :
  exists p, @expandHome RefLib.lib exampleEnv "bad.json" = Some p.
Proof.
  destruct (proj1 (proj2 (@LoadMCPConfig_results RefLib.lib exampleEnv
                            "bad.json")) RefLib.syntaxError)
    as (p & Hp & _).
  - run.
  - exists p. exact Hp.
Defined.

(** X10 on the example world. *)
Lemma HasTool_GetToolServer_after_load_witness :
  let out := @Manager.LoadFromConfig RefLib.lib exampleEnv Manager.NewManager
               emptyWorld "mcp.json" in
  Manager.HasTool out.2.1 "delete" = false
  /\ @Manager.GetToolServer RefLib.lib out.2.1 out.2.2 "delete" = EmptyString.
Proof.
  cbv zeta.
  destruct (@HasTool_GetToolServer_after_load RefLib.lib exampleEnv emptyWorld
              "mcp.json" exampleServers "delete" exampleEnv_loads)
    as (_ & _ & Hno).
  - reflexivity.
  - assert (Hf : Manager.HasTool
                   (@Manager.LoadFromConfig RefLib.lib exampleEnv
                      Manager.NewManager emptyWorld "mcp.json").2.1 "delete"
                 = false) by run.
    split; [exact Hf|]. apply Hno. exact Hf.
Defined.

(** X11 on the example world. *)
Lemma GetServers_after_load_witness :
  let out := @Manager.LoadFromConfig RefLib.lib exampleEnv Manager.NewManager
               emptyWorld "mcp.json" in
  length (@Manager.GetServers RefLib.lib map_to_list out.2.1 out.2.2) = 2%nat.
Proof.
  cbv zeta.
  destruct (@GetServers_after_load RefLib.lib exampleEnv emptyWorld "mcp.json"
              exampleServers map_to_list exampleEnv_loads) as (Hlen & _).
  - reflexivity.
  - reflexivity.
  - rewrite Hlen. run.
Defined.

(** X12 on the example world. *)
Lemma GetBackendTools_after_load_witness :
  let out := @Manager.LoadFromConfig RefLib.lib exampleEnv Manager.NewManager
               emptyWorld "mcp.json" in
  exists tool,
    tool ∈ @Manager.GetBackendTools RefLib.lib map_to_list out.2.1 out.2.2
    /\ backend_Tool.Name tool = "fetch".
Proof.
  cbv zeta.
  destruct (@GetBackendTools_after_load RefLib.lib exampleEnv emptyWorld
              "mcp.json" exampleServers map_to_list exampleEnv_loads)
    as (_ & _ & Hall).
  - reflexivity.
  - reflexivity.
  - apply Hall. run.
Defined.

(** X13 on the manager with one connection. *)
Lemma Manager_Close_closes_witness :
  exists client',
    heap (@Manager.Close RefLib.lib map_to_list oneToolManager oneToolWorld)
      !! 0%nat = Some client'
    /\ isClosed client'.
Proof.
  evar (client : Conn).
  destruct (@Manager_Close_closes RefLib.lib map_to_list oneToolManager
              oneToolWorld) as (Hall & _).
  - reflexivity.
  - destruct (Hall "alpha" 0%nat client) as (client' & Hh & Hc & _).
    + run.
    + subst client. run_lhs.
    + exists client'. split; [exact Hh|exact Hc].
Defined.

(** X14 on the server of the example world that does not start. *)
Lemma LoadFromConfig_logs_witness :
  Log "Warning: failed to start MCP server %s: %v"
      [ArgStr "gone";
       ArgErr (fmt_Errorf "failed to start MCP server: %w"
                 [ArgErr (errors_New "executable file not found in $PATH")])]
  ∈ trace (@Manager.LoadFromConfig RefLib.lib exampleEnv Manager.NewManager
             emptyWorld "mcp.json").2.2.
Proof.
  pose proof (@LoadFromConfig_logs RefLib.lib exampleEnv emptyWorld "mcp.json"
                exampleServers "gone" (stdioServer "gone" EmptyString)
                exampleEnv_loads) as Hlog.
  cbv zeta in Hlog.
  change (@startup RefLib.lib exampleEnv "gone" (stdioServer "gone" EmptyString))
    with (StartFailed
            (fmt_Errorf "failed to start MCP server: %w"
               [ArgErr (errors_New "executable file not found in $PATH")]))
    in Hlog.
  apply Hlog; [reflexivity|run].
Defined.

(** X15 on the malformed file of the example world. *)
Lemma LoadFromConfig_error_witness :
  (@Manager.LoadFromConfig RefLib.lib exampleEnv Manager.NewManager emptyWorld
     "bad.json").2 = (Manager.NewManager, emptyWorld).
Proof.
  refine (proj1 (proj2 (@LoadFromConfig_error RefLib.lib exampleEnv
                          Manager.NewManager emptyWorld "bad.json")
                   (fmt_Errorf "failed to load MCP config: %w"
                      [ArgErr RefLib.syntaxError]) _)).
  run.
Defined.

(** X16 on a manager that serves a tool named [read]: the call goes to
    the connection, whose answer is the message, and the built-in
    [read] does not run. *)
Lemma executeTools_messages_witness :
  let out := runToolCalls (Some shadowManager)
               [api_ToolCall.mk "call-1" "read" (JObj [])] oneToolWorld 0%nat in
  out.1.1 !! 0%nat = Some (api_Message.mk "tool" "found" "call-1")
  /\ out.2 = 0%nat.
Proof.
  cbv zeta.
  destruct (@executeTools_messages RefLib.lib nat (countingTool "read")
              (countingTool "write") (countingTool "edit")
              (countingTool "glob") (countingTool "grep")
              (countingTool "bash") showArgs (Some shadowManager)
              [api_ToolCall.mk "call-1" "read" (JObj [])] oneToolWorld 0%nat)
    as (_ & _ & Hfs & _ & Hmsg).
  split; [|apply Hfs; each run].
  destruct (Hmsg [] (api_ToolCall.mk "call-1" "read" (JObj [])) [] eq_refl)
    as [Hrouted _].
  destruct (Hrouted shadowManager eq_refl) as (Hat & _); [run|].
  etrans; [exact Hat|run].
Defined.

(** X17 on the manager with one connection, a process connection. *)
Lemma ExecuteTool_after_Close_witness :
  exists e,
    (@Manager.ExecuteTool RefLib.lib oneToolManager
       (@Manager.Close RefLib.lib map_to_list oneToolManager oneToolWorld)
       "search" (JObj [])).1
    = Err (fmt_Errorf "tools/call failed: %w" [ArgErr e]).
Proof.
  evar (client : Conn).
  pose proof (@ExecuteTool_after_Close RefLib.lib map_to_list oneToolManager
                oneToolWorld "search" "alpha" 0%nat client (JObj [])) as Hw.
  cbv zeta in Hw.
  assert (Hh : heap oneToolWorld !! 0%nat = Some client)
    by (subst client; run_lhs).
  specialize (Hw (reflexivity _) ltac:(run) ltac:(run) Hh).
  exact Hw.
Defined.
End FurtherRuns.
